(** * Bookmark import pipeline and search engine: a shallow embedding

    The development follows [docker/bookmarks_importer.py] (class
    [BookmarksImporter]) and [docker/bookmarks_manager.py] (class
    [BookmarksManager]); every function keeps its name.

    Conventions of the embedding.
    - A Python [str] is a Rocq [string]; every [ascii] stands for one
      character, namely the code point of the same number (0..255). The
      character tables below ([isspace], [lower_char], [nfkd_ascii_char])
      are Python's own tables restricted to these code points.
    - A value that comes out of a JSON document or a CSV row is a [pyval];
      an operation that can raise returns a [result].
    - Regular expressions are terms of [Re.regex], matched as [re] matches
      them (leftmost, greedy, backtracking).
    - The file tree is a list of entries in the order the system
      enumerates them: [os.walk] gives no other order. A write can fail
      where a directory stands in the way of a file or a file in the way
      of a directory; permissions and quotas are not modelled. A file
      holds the text written to it; a read in text mode hands over its
      line ends as line feeds ([Os.read_text]).
    - [datetime.now()], the network and the library functions
      [urllib.parse.unquote], [json.loads], [csv.DictReader] and
      [hashlib.md5] are arguments of the functions that call them;
      [Json.loads] is the decoder of the [json] module, for concrete runs.
    - Counters are [nat]; the [limit] of a search is a [Z]. Logging is
      left out.
    - Of [docker/bookmarks-server.py] the module [Server] holds the two
      parsers of request parameters; [json.dumps] is the encoder of the
      [json] module on the values the manager hands to it. *)

From Stdlib Require Import String Ascii List Bool Arith Lia ZArith.
Import ListNotations.
Open Scope list_scope.
Open Scope string_scope.
Set Warnings "-register-all".

(* ===================================================================== *)
(** ** Python string methods *)
(* ===================================================================== *)

Module Py.

Definition code (c : ascii) : nat := nat_of_ascii c.

Definition in_range (lo hi : nat) (c : ascii) : bool :=
  Nat.leb lo (code c) && Nat.leb (code c) hi.

Definition is_lower (c : ascii) : bool := in_range 97 122 c.
Definition is_upper (c : ascii) : bool := in_range 65 90 c.
Definition is_digit (c : ascii) : bool := in_range 48 57 c.

(** [str.isspace] on one character; also the set stripped by [str.strip()]
    and matched by [\s] in a [str] pattern. *)
Definition isspace (c : ascii) : bool :=
  in_range 9 13 c || in_range 28 32 c || Nat.eqb (code c) 133 || Nat.eqb (code c) 160.

(** [str.lower] on one character: A-Z, and the upper-case letters of the
    Latin-1 supplement (all of 192..222 but the multiplication sign). *)
Definition lower_char (c : ascii) : ascii :=
  if is_upper c || (in_range 192 222 c && negb (Nat.eqb (code c) 215))
  then ascii_of_nat (code c + 32)
  else c.

Fixpoint map_chars (f : ascii -> ascii) (s : string) : string :=
  match s with
  | EmptyString => EmptyString
  | String c s' => String (f c) (map_chars f s')
  end.

Definition lower (s : string) : string := map_chars lower_char s.

Fixpoint lstrip_by (p : ascii -> bool) (s : string) : string :=
  match s with
  | EmptyString => EmptyString
  | String c s' => if p c then lstrip_by p s' else s
  end.

Fixpoint rstrip_by (p : ascii -> bool) (s : string) : string :=
  match s with
  | EmptyString => EmptyString
  | String c s' =>
      match rstrip_by p s' with
      | EmptyString => if p c then EmptyString else String c EmptyString
      | r => String c r
      end
  end.

Definition strip_by (p : ascii -> bool) (s : string) : string :=
  rstrip_by p (lstrip_by p s).

(** [s.strip()] *)
Definition strip (s : string) : string := strip_by isspace s.

Fixpoint mem_char (c : ascii) (chars : string) : bool :=
  match chars with
  | EmptyString => false
  | String d chars' => Ascii.eqb c d || mem_char c chars'
  end.

(** [s.strip(chars)], [s.rstrip(chars)] *)
Definition strip_chars (chars s : string) : string :=
  strip_by (fun c => mem_char c chars) s.
Definition rstrip_chars (chars s : string) : string :=
  rstrip_by (fun c => mem_char c chars) s.

(** [p] is the beginning of [s]; [s.startswith(p)]. *)
Fixpoint starts (p s : string) : bool :=
  match p with
  | EmptyString => true
  | String a p' =>
      match s with
      | EmptyString => false
      | String b s' => Ascii.eqb a b && starts p' s'
      end
  end.

Definition startswith (s p : string) : bool := starts p s.

(** [needle in s] *)
Fixpoint contains (needle s : string) : bool :=
  starts needle s ||
  match s with
  | EmptyString => false
  | String _ s' => contains needle s'
  end.

(** [s.endswith(p)] *)
Fixpoint endswith (s p : string) : bool :=
  String.eqb s p ||
  match s with
  | EmptyString => false
  | String _ s' => endswith s' p
  end.

(** [s.split(sep)] for a one-character separator *)
Fixpoint split (sep : ascii) (s : string) : list string :=
  match s with
  | EmptyString => [EmptyString]
  | String c s' =>
      if Ascii.eqb c sep then EmptyString :: split sep s'
      else match split sep s' with
           | h :: t => String c h :: t
           | [] => [String c EmptyString]
           end
  end.

(** [sep.join(parts)] *)
Fixpoint join (sep : string) (parts : list string) : string :=
  match parts with
  | [] => ""
  | [x] => x
  | x :: rest => x ++ sep ++ join sep rest
  end.

(** [s[:n]] *)
Fixpoint take (n : nat) (s : string) : string :=
  match n, s with
  | S k, String c s' => String c (take k s')
  | _, _ => EmptyString
  end.

(** [s[n:]] *)
Fixpoint drop (n : nat) (s : string) : string :=
  match n, s with
  | S k, String _ s' => drop k s'
  | _, _ => s
  end.

(** [bool(s)] for a string: non-empty *)
Definition nonempty (s : string) : bool :=
  match s with EmptyString => false | _ => true end.

End Py.

(* ===================================================================== *)
(** ** The fragment of [re] the two classes use *)
(* ===================================================================== *)

(** Patterns of the sources are built from literal characters, character
    classes, greedy [*] and [+] and lazy [*] over a class, an optional
    character, concatenation and capture groups. Matching is Python's:
    leftmost, greedy, with backtracking. *)

Module Re.

Inductive regex : Type :=
| Eps
| Chr (c : ascii)
| Cls (p : ascii -> bool)
| Star (p : ascii -> bool)
| Plus (p : ascii -> bool)
| StarLazy (p : ascii -> bool)
| Opt (c : ascii)
| Cat (r1 r2 : regex)
| Group (r : regex).

(** A literal word, character by character. *)
Fixpoint lit (w : string) : regex :=
  match w with
  | EmptyString => Eps
  | String c w' => Cat (Chr c) (lit w')
  end.

(** A sequence of patterns. *)
Definition seq (rs : list regex) : regex := fold_right Cat Eps rs.

(** [[^c]] and [.] *)
Definition any_but (c d : ascii) : bool := negb (Ascii.eqb d c).
Definition dot (d : ascii) : bool := any_but (ascii_of_nat 10) d.

(** Character comparison, under [re.IGNORECASE] when [ic] is set. *)
Definition chr_eq (ic : bool) (c d : ascii) : bool :=
  if ic then Ascii.eqb (Py.lower_char c) (Py.lower_char d) else Ascii.eqb c d.

Section Matcher.
Context {A : Type}.

(** Greedy iteration of a class: the longest run first, then shorter. *)
Fixpoint star (p : ascii -> bool) (s : string) (k : string -> option A)
  : option A :=
  match s with
  | String c s' =>
      if p c then
        match star p s' k with
        | Some r => Some r
        | None => k s
        end
      else k s
  | EmptyString => k s
  end.

(** Lazy iteration of a class: the shortest run first, then longer. *)
Fixpoint star_lazy (p : ascii -> bool) (s : string) (k : string -> option A)
  : option A :=
  match k s with
  | Some r => Some r
  | None =>
      match s with
      | String c s' => if p c then star_lazy p s' k else None
      | EmptyString => None
      end
  end.

(** [rmatch ic r s gs k]: match [r] at the start of [s]; the continuation
    receives the rest of the text and the groups captured so far. *)
Fixpoint rmatch (ic : bool) (r : regex) (s : string) (gs : list string)
         (k : string -> list string -> option A) : option A :=
  match r with
  | Eps => k s gs
  | Chr c =>
      match s with
      | String d s' => if chr_eq ic c d then k s' gs else None
      | EmptyString => None
      end
  | Cls p =>
      match s with
      | String d s' => if p d then k s' gs else None
      | EmptyString => None
      end
  | Star p => star p s (fun s' => k s' gs)
  | Plus p =>
      match s with
      | String d s' => if p d then star p s' (fun s' => k s' gs) else None
      | EmptyString => None
      end
  | StarLazy p => star_lazy p s (fun s' => k s' gs)
  | Opt c =>
      match s with
      | String d s' =>
          if chr_eq ic c d then
            match k s' gs with
            | Some r => Some r
            | None => k s gs
            end
          else k s gs
      | EmptyString => k s gs
      end
  | Cat r1 r2 => rmatch ic r1 s gs (fun s' gs' => rmatch ic r2 s' gs' k)
  | Group r1 =>
      rmatch ic r1 s gs
        (fun s' gs' =>
           k s' (gs' ++ [Py.take (String.length s - String.length s') s])%list)
  end.
End Matcher.

(** [re.match]: the captured groups and the number of characters consumed. *)
Definition match_at (ic : bool) (r : regex) (s : string)
  : option (list string * nat) :=
  rmatch ic r s [] (fun s' gs => Some (gs, String.length s - String.length s')).

(** [re.search(r, s)]: the groups of the leftmost match. *)
Fixpoint search (ic : bool) (r : regex) (s : string) : option (list string) :=
  match match_at ic r s with
  | Some (gs, _) => Some gs
  | None =>
      match s with
      | String _ s' => search ic r s'
      | EmptyString => None
      end
  end.

Definition found (ic : bool) (r : regex) (s : string) : bool :=
  match search ic r s with Some _ => true | None => false end.

(** [m.group(i)], groups counted from 1 *)
Definition group (i : nat) (gs : list string) : string :=
  nth (i - 1) gs "".

(** [re.sub(r, repl, s)] for a pattern that matches no empty string:
    [skip] counts the characters of the current match still to be dropped. *)
Fixpoint sub_from (r : regex) (repl : string) (skip : nat) (s : string)
  : string :=
  match s with
  | EmptyString => EmptyString
  | String c s' =>
      match skip with
      | S k => sub_from r repl k s'
      | O =>
          match match_at false r s with
          | Some (_, S n) => repl ++ sub_from r repl n s'
          | _ => String c (sub_from r repl 0 s')
          end
      end
  end.

Definition sub (r : regex) (repl s : string) : string := sub_from r repl 0 s.

End Re.

(* ===================================================================== *)
(** ** Python values, exceptions and the operating system *)
(* ===================================================================== *)

Definition nl : string := String (ascii_of_nat 10) EmptyString.
Definition dquote : string := String (ascii_of_nat 34) EmptyString.

(** The values [json.load] and [csv.DictReader] hand to the importer. A
    dictionary keeps its keys in insertion order; a float is known by
    whether it is non-zero, which is all the importer asks of it. *)
Inductive pyval : Type :=
| PNone
| PBool (b : bool)
| PInt (n : Z)
| PFloat (nonzero : bool)
| PStr (s : string)
| PList (items : list pyval)
| PDict (entries : list (string * pyval)).

Definition pydict : Type := list (string * pyval).

Inductive exn : Type :=
| AttributeError
| TypeError
| KeyError
| FileNotFoundError
| FileExistsError
| NotADirectoryError
| IsADirectoryError
| UnicodeDecodeError
| JSONDecodeError
| CsvError.

Inductive result (A : Type) : Type :=
| Ok (a : A)
| Raise (e : exn).
Arguments Ok {A} a.
Arguments Raise {A} e.

Definition bind {A B : Type} (m : result A) (f : A -> result B) : result B :=
  match m with
  | Ok a => f a
  | Raise e => Raise e
  end.

Notation "x <- m ;; k" := (bind m (fun x => k))
  (at level 61, m at next level, right associativity).

Module PyObj.

(** [bool(v)] *)
Definition truthy (v : pyval) : bool :=
  match v with
  | PNone => false
  | PBool b => b
  | PInt n => negb (Z.eqb n 0)
  | PFloat nz => nz
  | PStr s => Py.nonempty s
  | PList l => match l with [] => false | _ => true end
  | PDict d => match d with [] => false | _ => true end
  end.

Fixpoint lookup (key : string) (d : pydict) : option pyval :=
  match d with
  | [] => None
  | (k, v) :: d' => if String.eqb k key then Some v else lookup key d'
  end.

Definition has_key (key : string) (d : pydict) : bool :=
  match lookup key d with Some _ => true | None => false end.

(** [d[key] = v]: an existing key keeps its place. *)
Fixpoint store (key : string) (v : pyval) (d : pydict) : pydict :=
  match d with
  | [] => [(key, v)]
  | (k, w) :: d' =>
      if String.eqb k key then (k, v) :: d' else (k, w) :: store key v d'
  end.

(** [v.get(key, default)]; only a dictionary has the method. *)
Definition get (v : pyval) (key : string) (default : pyval) : result pyval :=
  match v with
  | PDict d => Ok (match lookup key d with Some x => x | None => default end)
  | _ => Raise AttributeError
  end.

(** [v.strip()]; only a string has the method. *)
Definition strip (v : pyval) : result string :=
  match v with
  | PStr s => Ok (Py.strip s)
  | _ => Raise AttributeError
  end.

(** [len(v)] *)
Definition len (v : pyval) : result nat :=
  match v with
  | PStr s => Ok (String.length s)
  | PList l => Ok (List.length l)
  | PDict d => Ok (List.length d)
  | _ => Raise TypeError
  end.

Fixpoint chars (s : string) : list pyval :=
  match s with
  | EmptyString => []
  | String c s' => PStr (String c EmptyString) :: chars s'
  end.

(** [for x in v] *)
Definition iter (v : pyval) : result (list pyval) :=
  match v with
  | PStr s => Ok (chars s)
  | PList l => Ok l
  | PDict d => Ok (map (fun kv => PStr (fst kv)) d)
  | _ => Raise TypeError
  end.

Definition is_str (s : string) (v : pyval) : bool :=
  match v with PStr t => String.eqb t s | _ => false end.

(** [key in v] for a string [key] *)
Definition contains (key : string) (v : pyval) : result bool :=
  match v with
  | PStr s => Ok (Py.contains key s)
  | PList l => Ok (existsb (is_str key) l)
  | PDict d => Ok (has_key key d)
  | _ => Raise TypeError
  end.

(** [v[key]] for a string [key] *)
Definition getitem (v : pyval) (key : string) : result pyval :=
  match v with
  | PDict d => match lookup key d with Some x => Ok x | None => Raise KeyError end
  | _ => Raise TypeError
  end.

(** [v.keys()] *)
Definition keys (v : pyval) : result (list string) :=
  match v with
  | PDict d => Ok (map fst d)
  | _ => Raise AttributeError
  end.

(** [v.items()] *)
Definition items (v : pyval) : result (list (string * pyval)) :=
  match v with
  | PDict d => Ok d
  | _ => Raise AttributeError
  end.

End PyObj.

(** *** Paths and the file tree *)

Module Os.

Inductive node : Type :=
| File (content : string)
| Dir.

(** The entries of the tree in the order the system enumerates them. *)
Definition filesystem : Type := list (string * node).

(** [os.path.join(a, b)] *)
Definition path_join (a b : string) : string :=
  if Py.startswith b "/" then b
  else if negb (Py.nonempty a) || Py.endswith a "/" then a ++ b
  else a ++ "/" ++ b.

(** [os.path.basename(p)] *)
Fixpoint basename (p : string) : string :=
  match p with
  | EmptyString => EmptyString
  | String _ p' => if Py.contains "/" p then basename p' else p
  end.

(** [os.path.dirname(p)] *)
Definition dirname (p : string) : string :=
  let head := Py.take (String.length p - String.length (basename p)) p in
  if Py.nonempty (Py.rstrip_chars "/" head) then Py.rstrip_chars "/" head
  else head.

(** A path names its entry whatever slashes trail it. *)
Definition key (p : string) : string := Py.rstrip_chars "/" p.

Fixpoint find (k : string) (fs : filesystem) : option node :=
  match fs with
  | [] => None
  | (q, n) :: fs' => if String.eqb q k then Some n else find k fs'
  end.

Fixpoint put (k : string) (n : node) (fs : filesystem) : filesystem :=
  match fs with
  | [] => [(k, n)]
  | (q, m) :: fs' =>
      if String.eqb q k then (q, n) :: fs' else (q, m) :: put k n fs'
  end.

(** [os.path.exists(p)], [os.path.isdir(p)] *)
Definition path_exists (fs : filesystem) (p : string) : bool :=
  match find (key p) fs with Some _ => true | None => false end.

Definition isdir (fs : filesystem) (p : string) : bool :=
  match find (key p) fs with Some Dir => true | _ => false end.

(** The directories on the way to [p], outermost first, [p] last. *)
Fixpoint chain (acc rest : string) : list string :=
  match rest with
  | EmptyString => if Py.nonempty (key acc) then [key acc] else []
  | String c rest' =>
      if Ascii.eqb c "/"
      then ((if Py.nonempty (key acc) then [key acc] else [])
              ++ chain (acc ++ "/") rest')%list
      else chain (acc ++ String c EmptyString) rest'
  end.

Fixpoint mkdir_chain (fs : filesystem) (ds : list string)
  : filesystem * option exn :=
  match ds with
  | [] => (fs, None)
  | d :: ds' =>
      match find d fs with
      | Some Dir => mkdir_chain fs ds'
      | Some (File _) =>
          (fs, Some (match ds' with [] => FileExistsError | _ => NotADirectoryError end))
      | None => mkdir_chain (put d Dir fs) ds'
      end
  end.

(** [os.makedirs(p, exist_ok=True)]: the tree afterwards and the error, if
    any; directories made before the error stay. *)
Definition makedirs (fs : filesystem) (p : string) : filesystem * option exn :=
  mkdir_chain fs (chain EmptyString p).

(** [with open(p, 'w') as f: f.write(content)]: the errors are those of
    opening the file; every text of this model can be encoded, so that
    the write itself does not fail once the file is open. *)
Definition write_file (fs : filesystem) (p content : string)
  : result filesystem :=
  match find (key p) fs with
  | Some Dir => Raise IsADirectoryError
  | _ =>
      if Py.nonempty (key (dirname p)) && negb (isdir fs (dirname p))
      then Raise FileNotFoundError
      else Ok (put (key p) (File content) fs)
  end.

(** What the file [p] holds, character for character as it was written. *)
Definition read_file (fs : filesystem) (p : string) : result string :=
  match find (key p) fs with
  | Some (File content) => Ok content
  | Some Dir => Raise IsADirectoryError
  | None => Raise FileNotFoundError
  end.

(** The line ends of a text read in text mode: a carriage return, together
    with the line feed that follows it if there is one, is handed over as
    one line feed. [after_cr] says that the character before was a
    carriage return. *)
Fixpoint universal_newlines (after_cr : bool) (s : string) : string :=
  match s with
  | EmptyString => EmptyString
  | String c s' =>
      if Ascii.eqb c (ascii_of_nat 13)
      then String (ascii_of_nat 10) (universal_newlines true s')
      else if Ascii.eqb c (ascii_of_nat 10)
      then (if after_cr then universal_newlines false s'
            else String c (universal_newlines false s'))
      else String c (universal_newlines false s')
  end.

(** [with open(p, 'r') as f: f.read()] *)
Definition read_text (fs : filesystem) (p : string) : result string :=
  match read_file fs p with
  | Ok content => Ok (universal_newlines false content)
  | Raise e => Raise e
  end.

(** The names directly inside [dir], in enumeration order. *)
Definition listdir (fs : filesystem) (dir : string) : list string :=
  map (fun e => basename (fst e))
      (filter (fun e => String.eqb (key (dirname (fst e))) (key dir)
                        && Py.nonempty (basename (fst e))) fs).

(** [os.walk(top)], top-down: [(root, dirs, files)] per directory. The
    fuel bounds the depth; the number of entries is enough. *)
Fixpoint walk_from (fuel : nat) (fs : filesystem) (top : string)
  : list (string * list string * list string) :=
  match fuel with
  | O => []
  | S fuel' =>
      if isdir fs top then
        let names := listdir fs top in
        let dirs := filter (fun n => isdir fs (path_join top n)) names in
        let files := filter (fun n => negb (isdir fs (path_join top n))) names in
        (top, dirs, files)
          :: flat_map (fun d => walk_from fuel' fs (path_join top d)) dirs
      else []
  end.

Definition walk (fs : filesystem) (top : string)
  : list (string * list string * list string) :=
  walk_from (S (List.length fs)) fs top.

(** [datetime.now()] *)
Record datetime : Type := {
  year : nat; month : nat; day : nat;
  hour : nat; minute : nat; second : nat
}.

Definition digit (n : nat) : string :=
  String (ascii_of_nat (48 + n mod 10)) EmptyString.
Definition fmt2 (n : nat) : string := digit (n / 10) ++ digit n.
Definition fmt4 (n : nat) : string :=
  digit (n / 1000) ++ digit (n / 100) ++ digit (n / 10) ++ digit n.

(** [t.strftime("%Y%m%d_%H%M%S")], for a four-digit year *)
Definition strftime (t : datetime) : string :=
  fmt4 (year t) ++ fmt2 (month t) ++ fmt2 (day t) ++ "_"
    ++ fmt2 (hour t) ++ fmt2 (minute t) ++ fmt2 (second t).

End Os.

(* ===================================================================== *)
(** ** The decoder of the [json] module *)
(* ===================================================================== *)

(** [json.loads] as CPython's decoder and scanner define it, on the
    characters of this model. It answers a syntax error with
    [JSONDecodeError]; the interpreter's recursion limit is not part of it.
    A [\u] escape above 255 names a character that the strings of this
    model do not hold; it decodes to a question mark. *)

Module Json.

Definition is_ws (c : ascii) : bool := Py.mem_char c (" " ++ nl)
  || Nat.eqb (Py.code c) 9 || Nat.eqb (Py.code c) 13.

Definition skip_ws (s : string) : string := Py.lstrip_by is_ws s.

Definition hex_value (c : ascii) : option N :=
  if Py.is_digit c then Some (N.of_nat (Py.code c - 48))
  else if Py.in_range 97 102 c then Some (N.of_nat (Py.code c - 87))
  else if Py.in_range 65 70 c then Some (N.of_nat (Py.code c - 55))
  else None.

(** Four hexadecimal digits and what follows them. *)
Definition hex4 (s : string) : option (N * string) :=
  match s with
  | String a (String b (String c (String d rest))) =>
      match hex_value a, hex_value b, hex_value c, hex_value d with
      | Some x, Some y, Some z, Some t =>
          Some (((x * 16 + y) * 16 + z) * 16 + t, rest)%N
      | _, _, _, _ => None
      end
  | _ => None
  end.

Definition chr (code_point : N) : ascii :=
  if N.ltb code_point 256 then ascii_of_N code_point else "?"%char.

(** The table of the one-letter escapes. *)
Definition backslash (e : ascii) : option ascii :=
  if Ascii.eqb e (ascii_of_nat 34) then Some (ascii_of_nat 34)
  else if Ascii.eqb e "\" then Some "\"%char
  else if Ascii.eqb e "/" then Some "/"%char
  else if Ascii.eqb e "b" then Some (ascii_of_nat 8)
  else if Ascii.eqb e "f" then Some (ascii_of_nat 12)
  else if Ascii.eqb e "n" then Some (ascii_of_nat 10)
  else if Ascii.eqb e "r" then Some (ascii_of_nat 13)
  else if Ascii.eqb e "t" then Some (ascii_of_nat 9)
  else None.

(** After [\uXXXX] with value [uni]: a high surrogate followed by another
    escape is read together with it. *)
Definition surrogate_pair (uni : N) (rest : string) : option (N * string) :=
  if N.leb 55296 uni && N.leb uni 56319 && Py.starts "\u" rest then
    match hex4 (Py.drop 2 rest) with
    | Some (uni2, rest2) =>
        if N.leb 56320 uni2 && N.leb uni2 57343
        then Some (65536 + ((uni - 55296) * 1024 + (uni2 - 56320)), rest2)%N
        else Some (uni, rest)
    | None => None
    end
  else Some (uni, rest).

(** [scanstring], strict: the text after the opening quote. *)
Fixpoint scanstring (fuel : nat) (s : string) : option (string * string) :=
  match fuel with
  | O => None
  | S fuel' =>
      match s with
      | EmptyString => None
      | String c s' =>
          if Ascii.eqb c (ascii_of_nat 34) then Some (EmptyString, s')
          else if Ascii.eqb c "\" then
            match s' with
            | EmptyString => None
            | String e s'' =>
                if Ascii.eqb e "u" then
                  match hex4 s'' with
                  | None => None
                  | Some (uni, rest) =>
                      match surrogate_pair uni rest with
                      | None => None
                      | Some (uni', rest') =>
                          match scanstring fuel' rest' with
                          | Some (str, out) => Some (String (chr uni') str, out)
                          | None => None
                          end
                      end
                  end
                else
                  match backslash e with
                  | None => None
                  | Some ch =>
                      match scanstring fuel' s'' with
                      | Some (str, out) => Some (String ch str, out)
                      | None => None
                      end
                  end
            end
          else if Nat.ltb (Py.code c) 32 then None
          else
            match scanstring fuel' s' with
            | Some (str, out) => Some (String c str, out)
            | None => None
            end
      end
  end.

(** The longest run of digits and what follows it. *)
Fixpoint digits (s : string) : string * string :=
  match s with
  | String c s' =>
      if Py.is_digit c then let (ds, rest) := digits s' in (String c ds, rest)
      else (EmptyString, s)
  | EmptyString => (EmptyString, EmptyString)
  end.

Fixpoint decimal (acc : Z) (ds : string) : Z :=
  match ds with
  | EmptyString => acc
  | String c ds' => decimal (acc * 10 + Z.of_nat (Py.code c - 48)) ds'
  end.

Fixpoint all_zero (ds : string) : bool :=
  match ds with
  | EmptyString => true
  | String c ds' => Ascii.eqb c "0" && all_zero ds'
  end.

(** The integer part of a number: a zero, or a run not starting with one. *)
Definition int_part (s : string) : option (string * string) :=
  match s with
  | String c s' =>
      if Ascii.eqb c "0" then Some ("0", s')
      else if Py.is_digit c then Some (digits s)
      else None
  | EmptyString => None
  end.

Definition frac_part (s : string) : string * string :=
  match s with
  | String c s' =>
      if Ascii.eqb c "." then
        let (ds, rest) := digits s' in
        if Py.nonempty ds then (ds, rest) else (EmptyString, s)
      else (EmptyString, s)
  | EmptyString => (EmptyString, s)
  end.

(** The exponent, if there is one, and what follows it. *)
Definition exp_part (s : string) : option Z * string :=
  match s with
  | String c s' =>
      if Ascii.eqb c "e" || Ascii.eqb c "E" then
        let (negative, s'') :=
          match s' with
          | String g t =>
              if Ascii.eqb g "-" then (true, t)
              else if Ascii.eqb g "+" then (false, t)
              else (false, s')
          | EmptyString => (false, s')
          end in
        let (ds, rest) := digits s'' in
        if Py.nonempty ds
        then (Some (if negative then Z.opp (decimal 0 ds) else decimal 0 ds),
              rest)
        else (None, s)
      else (None, s)
  | EmptyString => (None, s)
  end.

(** Whether [float] of the digits [ds] times ten to the power [k] is not
    zero: a value that is not above two to the power -1075, half the
    smallest positive float, is rounded to zero. *)
Definition float_nonzero (ds : string) (k : Z) : bool :=
  negb (all_zero ds)
  && (if Z.leb 0 k then true
      else Z.ltb (Z.pow 10 (Z.opp k)) (decimal 0 ds * Z.pow 2 1075)).

(** The number pattern of the scanner. *)
Definition number (s : string) : option (pyval * string) :=
  let (negative, s1) :=
    match s with
    | String c s' => if Ascii.eqb c "-" then (true, s') else (false, s)
    | EmptyString => (false, s)
    end in
  match int_part s1 with
  | None => None
  | Some (int, s2) =>
      let (frac, s3) := frac_part s2 in
      let (exp, s4) := exp_part s3 in
      match exp with
      | Some e =>
          Some (PFloat (float_nonzero
                          (int ++ frac) (e - Z.of_nat (String.length frac))),
                s4)
      | None =>
          if Py.nonempty frac
          then Some (PFloat (float_nonzero
                               (int ++ frac)
                               (- Z.of_nat (String.length frac))), s4)
          else Some (PInt (if negative then Z.opp (decimal 0 int)
                           else decimal 0 int), s4)
      end
  end.

Definition constant (s : string) : option (pyval * string) :=
  if Py.starts "NaN" s then Some (PFloat true, Py.drop 3 s)
  else if Py.starts "Infinity" s then Some (PFloat true, Py.drop 8 s)
  else if Py.starts "-Infinity" s then Some (PFloat true, Py.drop 9 s)
  else None.

(** [scan_once], with the loops of [JSONArray] and [JSONObject]. *)
Fixpoint scan_once (fuel : nat) (s : string) {struct fuel}
  : option (pyval * string) :=
  match fuel with
  | O => None
  | S fuel' =>
      match s with
      | EmptyString => None
      | String c s' =>
          if Ascii.eqb c (ascii_of_nat 34) then
            match scanstring (S (String.length s')) s' with
            | Some (str, rest) => Some (PStr str, rest)
            | None => None
            end
          else if Ascii.eqb c "{" then
            match skip_ws s' with
            | String d rest =>
                if Ascii.eqb d "}" then Some (PDict [], rest)
                else members fuel' (skip_ws s') []
            | EmptyString => None
            end
          else if Ascii.eqb c "[" then
            match skip_ws s' with
            | String d rest =>
                if Ascii.eqb d "]" then Some (PList [], rest)
                else elements fuel' (skip_ws s') []
            | EmptyString => None
            end
          else if Py.starts "null" s then Some (PNone, Py.drop 4 s)
          else if Py.starts "true" s then Some (PBool true, Py.drop 4 s)
          else if Py.starts "false" s then Some (PBool false, Py.drop 5 s)
          else
            match number s with
            | Some r => Some r
            | None => constant s
            end
      end
  end
with elements (fuel : nat) (s : string) (acc : list pyval) {struct fuel}
  : option (pyval * string) :=
  match fuel with
  | O => None
  | S fuel' =>
      match scan_once fuel' s with
      | None => None
      | Some (v, rest) =>
          match skip_ws rest with
          | String d rest' =>
              if Ascii.eqb d "]" then Some (PList (acc ++ [v])%list, rest')
              else if Ascii.eqb d ","
              then elements fuel' (skip_ws rest') (acc ++ [v])%list
              else None
          | EmptyString => None
          end
      end
  end
with members (fuel : nat) (s : string) (acc : pydict) {struct fuel}
  : option (pyval * string) :=
  match fuel with
  | O => None
  | S fuel' =>
      match s with
      | String q s' =>
          if Ascii.eqb q (ascii_of_nat 34) then
            match scanstring (S (String.length s')) s' with
            | None => None
            | Some (k, rest) =>
                match skip_ws rest with
                | String d rest' =>
                    if Ascii.eqb d ":" then
                      match scan_once fuel' (skip_ws rest') with
                      | None => None
                      | Some (v, rest2) =>
                          match skip_ws rest2 with
                          | String g rest3 =>
                              if Ascii.eqb g "}"
                              then Some (PDict (PyObj.store k v acc), rest3)
                              else if Ascii.eqb g ","
                              then members fuel' (skip_ws rest3)
                                           (PyObj.store k v acc)
                              else None
                          | EmptyString => None
                          end
                      end
                    else None
                | EmptyString => None
                end
            end
          else None
      | EmptyString => None
      end
  end.

(** The fuel is never used up: of two nested calls one has read a
    character. *)
Definition loads (s : string) : result pyval :=
  match scan_once (2 * String.length s + 2) (skip_ws s) with
  | Some (v, rest) =>
      match skip_ws rest with
      | EmptyString => Ok v
      | String _ _ => Raise JSONDecodeError
      end
  | None => Raise JSONDecodeError
  end.

(** *** The encoder

    [json.dumps] with its defaults ([ensure_ascii], separators [, ] and
    [: ]) on strings, lists and dictionaries. A string is written between
    quotes; the quote, the backslash and the control characters with a
    letter keep their two-character escape, every other character outside
    the range from the space to the tilde is written as [\u] and four
    hexadecimal digits in lower case. *)

Definition hex_digit (n : nat) : ascii :=
  if Nat.ltb n 10 then ascii_of_nat (48 + n) else ascii_of_nat (87 + n).

Definition escape_char (c : ascii) : string :=
  if Ascii.eqb c (ascii_of_nat 34) then "\" ++ dquote
  else if Ascii.eqb c "\" then "\\"
  else if Nat.eqb (Py.code c) 8 then "\b"
  else if Nat.eqb (Py.code c) 12 then "\f"
  else if Nat.eqb (Py.code c) 10 then "\n"
  else if Nat.eqb (Py.code c) 13 then "\r"
  else if Nat.eqb (Py.code c) 9 then "\t"
  else if Py.in_range 32 126 c then String c EmptyString
  else "\u00" ++ String (hex_digit (Py.code c / 16))
                       (String (hex_digit (Py.code c mod 16)) EmptyString).

Fixpoint escape (s : string) : string :=
  match s with
  | EmptyString => EmptyString
  | String c s' => escape_char c ++ escape s'
  end.

Definition dumps_str (s : string) : string := dquote ++ escape s ++ dquote.

(** A list of items and a dictionary of entries whose values are encoded
    already. *)
Definition dumps_list (items : list string) : string :=
  "[" ++ Py.join ", " items ++ "]".

Definition dumps_dict (entries : list (string * string)) : string :=
  "{" ++ Py.join ", " (map (fun kv => dumps_str (fst kv) ++ ": " ++ snd kv)
                           entries) ++ "}".

End Json.

(* ===================================================================== *)
(** ** [BookmarksImporter] *)
(* ===================================================================== *)

Module BookmarksImporter.

(** [[^a-z0-9\-]] *)
Definition not_slug_char (c : ascii) : bool :=
  negb (Py.is_lower c || Py.is_digit c || Ascii.eqb c "-").

Definition hyphen (c : ascii) : bool := Ascii.eqb c "-".

Definition slugify (text : string) : string :=
  if negb (Py.nonempty text) then EmptyString
  else
    let text := Py.strip (Py.lower text) in
    let text := Re.sub (Re.Cls not_slug_char) "-" text in
    let text := Re.sub (Re.Plus hyphen) "-" text in
    Py.strip_chars "-" text.

(** The class of [sanitize_filename]: less-than, greater-than, colon,
    double quote, slash, backslash, bar, question mark, star. *)
Definition unsafe_char (c : ascii) : bool :=
  Py.mem_char c ("<>:" ++ dquote ++ "/\|?*").

Definition sanitize_filename (filename : string) : string :=
  let filename := Re.sub (Re.Cls unsafe_char) "_" filename in
  if Nat.ltb 200 (String.length filename) then Py.take 200 filename
  else filename.

(** What [create_bookmark_file] returns: the success dictionary or the
    failure dictionary. *)
Inductive write_result : Type :=
| Created (filename title uri category tags : string)
| Failed (error : exn) (title uri : pyval).

Definition succeeded (r : write_result) : bool :=
  match r with Created _ _ _ _ _ => true | Failed _ _ _ => false end.

(** [x.strip() if x else default] *)
Definition strip_or (x : pyval) (default : string) : result string :=
  if PyObj.truthy x then PyObj.strip x else Ok default.

Definition file_text (title uri tags add_date last_modified : string)
  : string :=
  "---" ++ nl
  ++ "title: " ++ title ++ nl
  ++ "uri: " ++ uri ++ nl
  ++ "tags: [" ++ tags ++ "]" ++ nl
  ++ (if Py.nonempty add_date then "add_date: " ++ add_date ++ nl
      else EmptyString)
  ++ (if Py.nonempty last_modified
      then "last_modified: " ++ last_modified ++ nl else EmptyString)
  ++ "---" ++ nl
  ++ "[" ++ title ++ "](" ++ uri ++ ")" ++ nl.

Section Writer.
Variable bookmarks_dir : string.

Definition category_dir (category : string) : string :=
  Os.path_join bookmarks_dir (slugify category).

Definition plain_path (category title : string) : string :=
  Os.path_join (category_dir category)
               (slugify (sanitize_filename title) ++ ".md").

Definition stamped_path (category title : string) (now : Os.datetime)
  : string :=
  Os.path_join (category_dir category)
               (slugify (sanitize_filename title) ++ "_"
                  ++ Os.strftime now ++ ".md").

(** [now] is what [datetime.now()] answers during the call. The first
    four arguments come from the records as they are; the two dates are
    strings at every call. *)
Definition create_bookmark_file (fs : Os.filesystem) (now : Os.datetime)
           (title uri category tags : pyval)
           (add_date last_modified : string)
  : write_result * Os.filesystem :=
  match strip_or title "Untitled" with
  | Raise e => (Failed e title uri, fs)
  | Ok title' =>
  match strip_or uri EmptyString with
  | Raise e => (Failed e (PStr title') uri, fs)
  | Ok uri' =>
  match strip_or category "unsorted" with
  | Raise e => (Failed e (PStr title') (PStr uri'), fs)
  | Ok category' =>
  match strip_or tags EmptyString with
  | Raise e => (Failed e (PStr title') (PStr uri'), fs)
  | Ok tags' =>
      match Os.makedirs fs (category_dir category') with
      | (fs1, Some e) => (Failed e (PStr title') (PStr uri'), fs1)
      | (fs1, None) =>
          let filepath :=
            if Os.path_exists fs1 (plain_path category' title')
            then stamped_path category' title' now
            else plain_path category' title' in
          let content :=
            file_text title' uri' tags' add_date last_modified in
          match Os.write_file fs1 filepath content with
          | Raise e => (Failed e (PStr title') (PStr uri'), fs1)
          | Ok fs2 => (Created filepath title' uri' category' tags', fs2)
          end
      end
  end end end end.
End Writer.

(** *** The Netscape parser *)

Record bookmark : Type := {
  b_title : string;
  b_uri : string;
  b_category : string;
  b_tags : string;
  b_add_date : string;
  b_last_modified : string
}.

Definition quote_chr : ascii := ascii_of_nat 34.
Definition newline : ascii := ascii_of_nat 10.

(** [<dt><h3[^>]*>([^<]+)</h3>] *)
Definition folder_re : Re.regex :=
  Re.seq [Re.lit "<dt><h3"; Re.Star (Re.any_but ">"); Re.Chr ">";
          Re.Group (Re.Plus (Re.any_but "<")); Re.lit "</h3>"].

(** The anchor pattern: [<dt><a], [[^>]*], [href=], a quoted group of
    non-quotes, [[^>]*], [>], a group of non-[<], [</a>]. *)
Definition bookmark_re : Re.regex :=
  Re.seq [Re.lit "<dt><a"; Re.Star (Re.any_but ">"); Re.lit "href=";
          Re.Chr quote_chr; Re.Group (Re.Star (Re.any_but quote_chr));
          Re.Chr quote_chr; Re.Star (Re.any_but ">"); Re.Chr ">";
          Re.Group (Re.Plus (Re.any_but "<")); Re.lit "</a>"].

(** [name=], then a quoted group of non-quotes *)
Definition attr_re (name : string) : Re.regex :=
  Re.seq [Re.lit name; Re.Chr "="; Re.Chr quote_chr;
          Re.Group (Re.Star (Re.any_but quote_chr)); Re.Chr quote_chr].

Definition close_re : Re.regex := Re.lit "</dl>".

Definition attribute (name line : string) : string :=
  match Re.search false (attr_re name) line with
  | Some gs => Re.group 1 gs
  | None => EmptyString
  end.

Record parser_state : Type := {
  bookmarks : list bookmark;
  path_parts : list string;
  current_category : string
}.

Definition start : parser_state :=
  {| bookmarks := []; path_parts := []; current_category := "unsorted" |}.

Section Parser.
(** [urllib.parse.unquote] *)
Variable unquote : string -> string.

(** The body of the loop over the lines. *)
Definition parse_line (st : parser_state) (line : string) : parser_state :=
  let line := Py.strip line in
  match Re.search true folder_re line with
  | Some gs =>
      let folder_name := Py.strip (Re.group 1 gs) in
      let folder_slug := slugify folder_name in
      let parts := (path_parts st ++ [folder_slug])%list in
      {| bookmarks := bookmarks st;
         path_parts := parts;
         current_category := Py.join "/" parts |}
  | None =>
      match Re.search true bookmark_re line with
      | Some gs =>
          let b := {| b_title := Py.strip (Re.group 2 gs);
                      b_uri := unquote (Py.strip (Re.group 1 gs));
                      b_category := current_category st;
                      b_tags := attribute "tags" line;
                      b_add_date := attribute "add_date" line;
                      b_last_modified := attribute "last_modified" line |} in
          {| bookmarks := (bookmarks st ++ [b])%list;
             path_parts := path_parts st;
             current_category := current_category st |}
      | None =>
          if Re.found true close_re line then
            match path_parts st with
            | [] => st
            | _ :: _ =>
                let parts := removelast (path_parts st) in
                {| bookmarks := bookmarks st;
                   path_parts := parts;
                   current_category :=
                     match parts with
                     | [] => "unsorted"
                     | _ :: _ => Py.join "/" parts
                     end |}
            end
          else st
      end
  end.

Definition parse_lines (lines : list string) : parser_state :=
  fold_left parse_line lines start.

Definition _parse_html_bookmarks (html_content : string) : list bookmark :=
  bookmarks (parse_lines (Py.split newline html_content)).
End Parser.

(** *** The importers *)

Inductive error_entry : Type :=
| Exception (e : exn)
| FileNotFound (file_path : string)
| UnsupportedFormat (format : string)
| ItemFailed (r : write_result).

Inductive imported_entry : Type :=
| Parsed (b : bookmark)
| Raw (v : pyval)
| Written (r : write_result).

Record import_result : Type := {
  total : nat;
  success : nat;
  failed : nat;
  errors : list error_entry;
  imported : list imported_entry
}.

Definition empty_results : import_result :=
  {| total := 0; success := 0; failed := 0; errors := []; imported := [] |}.

(** The dictionary every importer returns from its [except] clause, and
    [import_file] for a missing file or an unsupported format. *)
Definition failure (entry : error_entry) : import_result :=
  {| total := 0; success := 0; failed := 1; errors := [entry];
     imported := [] |}.

Definition with_total (n : nat) (results : import_result) : import_result :=
  {| total := n; success := success results; failed := failed results;
     errors := errors results; imported := imported results |}.

(** The dry-run branch of a loop body. *)
Definition preview (results : import_result) (entry : imported_entry)
  : import_result :=
  {| total := total results; success := S (success results);
     failed := failed results; errors := errors results;
     imported := (imported results ++ [entry])%list |}.

(** The branch on [result["success"]] of a loop body. *)
Definition tally (results : import_result) (r : write_result)
  : import_result :=
  if succeeded r then
    {| total := total results; success := S (success results);
       failed := failed results; errors := errors results;
       imported := (imported results ++ [Written r])%list |}
  else
    {| total := total results; success := success results;
       failed := S (failed results);
       errors := (errors results ++ [ItemFailed r])%list;
       imported := imported results |}.

(** The bookmark tree and the number of writer calls made so far. *)
Record world : Type := {
  fs : Os.filesystem;
  calls : nat
}.

(** The uploaded file: whether the path exists, what opening it and
    reading its first 1024 characters gives, and what opening it and
    reading it whole gives; either read fails on a file that cannot be
    opened or on bytes that cannot be decoded as far as it reads. *)
Record upload : Type := {
  present : bool;
  sample : result string;
  text : result string
}.

Section Importers.
Variable bookmarks_dir : string.
(** [clock n] is the time during the writer call number [n]. *)
Variable clock : nat -> Os.datetime.
(** [urllib.parse.unquote], [json.loads], and the rows of
    [csv.DictReader] with the error that ends the iteration, if any. *)
Variable unquote : string -> string.
Variable json_loads : string -> result pyval.
Variable csv_DictReader : string -> list pydict * option exn.

Definition write (w : world) (title uri category tags : pyval)
           (add_date last_modified : string) : write_result * world :=
  let (r, fs') :=
    create_bookmark_file bookmarks_dir (fs w) (clock (calls w))
                         title uri category tags add_date last_modified in
  (r, {| fs := fs'; calls := S (calls w) |}).

(** The loop the four importers share: [plan] is the dry-run entry of a
    record, [store] the call of the writer for it (which may raise before
    the writer runs); [count] says whether the loop counts [total]. *)
Section Loop.
Context {I : Type}.
Variable plan : I -> imported_entry.
Variable store : world -> I -> result (write_result * world).
Variable count : bool.

Fixpoint loop (dry_run : bool) (records : list I)
         (results : import_result) (w : world)
  : result import_result * world :=
  match records with
  | [] => (Ok results, w)
  | x :: rest =>
      let results :=
        if count then with_total (S (total results)) results
        else results in
      if dry_run then loop dry_run rest (preview results (plan x)) w
      else
        match store w x with
        | Raise e => (Raise e, w)
        | Ok (r, w') => loop dry_run rest (tally results r) w'
        end
  end.
End Loop.

(** The [try ... except Exception] around an importer. *)
Definition guarded (run : result import_result * world)
  : import_result * world :=
  match run with
  | (Ok results, w) => (results, w)
  | (Raise e, w) => (failure (Exception e), w)
  end.

Definition store_html (w : world) (b : bookmark)
  : result (write_result * world) :=
  Ok (write w (PStr (b_title b)) (PStr (b_uri b)) (PStr (b_category b))
            (PStr (b_tags b)) (b_add_date b) (b_last_modified b)).

Definition import_html_bookmarks (file : result string) (dry_run : bool)
           (w : world) : import_result * world :=
  guarded
    match file with
    | Raise e => (Raise e, w)
    | Ok content =>
        let bookmarks := _parse_html_bookmarks unquote content in
        loop Parsed store_html false dry_run bookmarks
             (with_total (List.length bookmarks) empty_results) w
    end.

(** The alias chains of the JSON and CSV importers. *)
Definition store_record (w : world) (bookmark : pyval)
  : result (write_result * world) :=
  name <- PyObj.get bookmark "name" (PStr EmptyString) ;;
  title <- PyObj.get bookmark "title" name ;;
  link <- PyObj.get bookmark "link" (PStr EmptyString) ;;
  url <- PyObj.get bookmark "url" link ;;
  uri <- PyObj.get bookmark "uri" url ;;
  folder <- PyObj.get bookmark "folder" (PStr "unsorted") ;;
  category <- PyObj.get bookmark "category" folder ;;
  tags <- PyObj.get bookmark "tags" (PStr EmptyString) ;;
  Ok (write w title uri category tags EmptyString EmptyString).

(** The records of a JSON document: a list as it is, the [bookmarks] or
    the [items] of a dictionary, else the dictionary alone. *)
Definition json_records (data : pyval) : pyval :=
  match data with
  | PList _ => data
  | PDict d =>
      match PyObj.lookup "bookmarks" d with
      | Some v => v
      | None =>
          match PyObj.lookup "items" d with
          | Some v => v
          | None => PList [data]
          end
      end
  | _ => PList []
  end.

Definition import_json_bookmarks (file : result string) (dry_run : bool)
           (w : world) : import_result * world :=
  guarded
    match (content <- file ;; json_loads content) with
    | Raise e => (Raise e, w)
    | Ok data =>
        let bookmarks := json_records data in
        match (n <- PyObj.len bookmarks ;;
               records <- PyObj.iter bookmarks ;; Ok (n, records)) with
        | Raise e => (Raise e, w)
        | Ok (n, records) =>
            loop Raw store_record false dry_run records
                 (with_total n empty_results) w
        end
    end.

(** The reader hands over its rows one by one; an error of the reader
    ends the loop after the rows before it. *)
Definition import_csv_bookmarks (file : result string) (dry_run : bool)
           (w : world) : import_result * world :=
  guarded
    match file with
    | Raise e => (Raise e, w)
    | Ok content =>
        let (rows, stop) := csv_DictReader content in
        match loop Raw store_record true dry_run (map PDict rows)
                   empty_results w with
        | (Ok results, w') =>
            match stop with
            | Some e => (Raise e, w')
            | None => (Ok results, w')
            end
        | (Raise e, w') => (Raise e, w')
        end
    end.

(** The tags of a Pocket item: the keys of its [tags] mapping. *)
Definition pocket_tags (item : pyval) : result string :=
  has <- PyObj.contains "tags" item ;;
  if has then
    t <- PyObj.getitem item "tags" ;;
    if PyObj.truthy t then
      ks <- PyObj.keys t ;; Ok (Py.join "," ks)
    else Ok EmptyString
  else Ok EmptyString.

Definition store_pocket (w : world) (entry : string * pyval)
  : result (write_result * world) :=
  let item := snd entry in
  tags <- pocket_tags item ;;
  given_title <- PyObj.get item "given_title" (PStr EmptyString) ;;
  title <- PyObj.get item "resolved_title" given_title ;;
  given_url <- PyObj.get item "given_url" (PStr EmptyString) ;;
  uri <- PyObj.get item "resolved_url" given_url ;;
  Ok (write w title uri (PStr "pocket") (PStr tags)
            EmptyString EmptyString).

Definition pocket_items (data : pyval) : result pyval :=
  has <- PyObj.contains "list" data ;;
  if has then PyObj.getitem data "list" else Ok data.

Definition import_pocket_export (file : result string) (dry_run : bool)
           (w : world) : import_result * world :=
  guarded
    match (content <- file ;; data <- json_loads content ;;
           items <- pocket_items data ;;
           n <- PyObj.len items ;;
           pairs <- PyObj.items items ;; Ok (n, pairs)) with
    | Raise e => (Raise e, w)
    | Ok (n, pairs) =>
        loop (fun entry => Raw (snd entry)) store_pocket false dry_run
             pairs (with_total n empty_results) w
    end.

(** *** Format detection *)

(** [<dt><h3] and [<dt><a.*href=] *)
Definition folder_marker : Re.regex := Re.lit "<dt><h3".
Definition anchor_marker : Re.regex :=
  Re.seq [Re.lit "<dt><a"; Re.Star Re.dot; Re.lit "href="].

Definition list_token : string := dquote ++ "list" ++ dquote.
Definition given_url_token : string := dquote ++ "given_url" ++ dquote.

(** The JSON branch: [Some] format when it returns, [None] when the
    code goes on to the CSV check; an error other than a decode error
    leaves through the outer handler. *)
Definition sniff_json (content : string) : result (option string) :=
  if Py.startswith (Py.strip content) "{"
     || Py.startswith (Py.strip content) "["
  then
    match json_loads content with
    | Ok _ =>
        if Py.contains list_token content
           || Py.contains given_url_token content
        then Ok (Some "pocket")
        else Ok (Some "json")
    | Raise JSONDecodeError => Ok None
    | Raise e => Raise e
    end
  else Ok None.

Definition sniff_csv (content : string) : bool :=
  if Py.contains "," content && Py.contains nl content then
    let lines := Py.split newline content in
    Nat.ltb 1 (List.length lines) && Py.contains "," (hd EmptyString lines)
  else false.

Definition detect_file_format (file : result string) : string :=
  match file with
  | Raise _ => "unknown"
  | Ok whole =>
      let content := Py.take 1024 whole in
      if Re.found true folder_marker content
         || Re.found true anchor_marker content
      then "html"
      else
        match sniff_json content with
        | Raise _ => "unknown"
        | Ok (Some format) => format
        | Ok None => if sniff_csv content then "csv" else "unknown"
        end
  end.

Definition import_file (file_path : string) (file : upload)
           (format : option string) (dry_run : bool) (w : world)
  : import_result * world :=
  if negb (present file) then (failure (FileNotFound file_path), w)
  else
    let format :=
      match format with
      | Some f => if Py.nonempty f then f else detect_file_format (sample file)
      | None => detect_file_format (sample file)
      end in
    if String.eqb format "html" then
      import_html_bookmarks (text file) dry_run w
    else if String.eqb format "json" then
      import_json_bookmarks (text file) dry_run w
    else if String.eqb format "csv" then
      import_csv_bookmarks (text file) dry_run w
    else if String.eqb format "pocket" then
      import_pocket_export (text file) dry_run w
    else (failure (UnsupportedFormat format), w).
End Importers.

End BookmarksImporter.

(* ===================================================================== *)
(** ** [BookmarksManager] *)
(* ===================================================================== *)

Module BookmarksManager.

(** [unicodedata.normalize('NFKD', c).encode('ascii', 'ignore')] of one
    character: the base letters and digits of its compatibility
    decomposition. *)
Definition nfkd_ascii_char (c : ascii) : string :=
  let n := Py.code c in
  if Nat.ltb n 128 then String c EmptyString
  else if Nat.eqb n 160 || Nat.eqb n 168 || Nat.eqb n 175 || Nat.eqb n 180
          || Nat.eqb n 184 then " "
  else if Nat.eqb n 170 then "a"
  else if Nat.eqb n 186 then "o"
  else if Nat.eqb n 178 then "2"
  else if Nat.eqb n 179 then "3"
  else if Nat.eqb n 185 then "1"
  else if Nat.eqb n 188 then "14"
  else if Nat.eqb n 189 then "12"
  else if Nat.eqb n 190 then "34"
  else if Py.in_range 192 197 c then "A"
  else if Nat.eqb n 199 then "C"
  else if Py.in_range 200 203 c then "E"
  else if Py.in_range 204 207 c then "I"
  else if Nat.eqb n 209 then "N"
  else if Py.in_range 210 214 c then "O"
  else if Py.in_range 217 220 c then "U"
  else if Nat.eqb n 221 then "Y"
  else if Py.in_range 224 229 c then "a"
  else if Nat.eqb n 231 then "c"
  else if Py.in_range 232 235 c then "e"
  else if Py.in_range 236 239 c then "i"
  else if Nat.eqb n 241 then "n"
  else if Py.in_range 242 246 c then "o"
  else if Py.in_range 249 252 c then "u"
  else if Nat.eqb n 253 || Nat.eqb n 255 then "y"
  else EmptyString.

Fixpoint nfkd_ascii (text : string) : string :=
  match text with
  | EmptyString => EmptyString
  | String c text' => nfkd_ascii_char c ++ nfkd_ascii text'
  end.

(** [[^a-zA-Z0-9]] *)
Definition not_alnum (c : ascii) : bool :=
  negb (Py.is_lower c || Py.is_upper c || Py.is_digit c).

Definition hyphen (c : ascii) : bool := Ascii.eqb c "-".

Definition slugify (text : string) : string :=
  if negb (Py.nonempty text) then EmptyString
  else
    let text := nfkd_ascii text in
    let text := Re.sub (Re.Cls not_alnum) "-" (Py.lower text) in
    let text := Re.sub (Re.Plus hyphen) "-" text in
    Py.strip_chars "-" text.

(** [^https?://] *)
Definition url_re : Re.regex :=
  Re.seq [Re.lit "http"; Re.Opt "s"; Re.lit "://"].

Definition is_url (uri : string) : bool :=
  match Re.match_at false url_re uri with Some _ => true | None => false end.

Definition is_local_file (uri : string) : bool :=
  Py.startswith uri "/" || Py.startswith uri "~" || Py.startswith uri "."
  || Py.startswith uri "..".

Definition is_file_uri (uri : string) : bool := Py.startswith uri "file://".

Definition is_file (uri : string) : bool :=
  is_local_file uri || is_file_uri uri.

(** The answer to an HTTP request: status, final address, decoded body. *)
Record response : Type := {
  status : nat;
  url : string;
  body : string
}.

Definition title_re : Re.regex :=
  Re.seq [Re.lit "<title>"; Re.Group (Re.StarLazy Re.dot); Re.lit "</title>"].

Inductive create_error : Type :=
| UriEmpty
| NotAccessible (uri : string)
| TitleEmpty (uri : string)
| CategoryEmpty (title : string)
| AlreadyExists (filename : string)
| CreateFailed (e : exn).

Inductive create_result : Type :=
| BookmarkCreated (filename title uri category tags : string)
| BookmarkError (why : create_error).

Definition file_text (title uri all_tags : string) : string :=
  "---" ++ nl
  ++ "title: " ++ title ++ nl
  ++ "uri: " ++ uri ++ nl
  ++ "tags: [" ++ all_tags ++ "]" ++ nl
  ++ "---" ++ nl
  ++ "[" ++ title ++ "](" ++ uri ++ ")" ++ nl.

Record search_result : Type := {
  r_id : string;
  r_url : string;
  r_title : string;
  r_tags : list string;
  r_category : string
}.

(** The three patterns of the search: the word [title:], [uri:] or
    [tags:], white space, and the rest of the line (between brackets for
    the tags). *)
Definition field_re (name : string) : Re.regex :=
  Re.seq [Re.lit name; Re.Chr ":"; Re.Star Py.isspace;
          Re.Group (Re.Plus Re.dot)].

Definition tags_re : Re.regex :=
  Re.seq [Re.lit "tags:"; Re.Star Py.isspace; Re.Chr "[";
          Re.Group (Re.Plus Re.dot); Re.Chr "]"].

Definition field (r : Re.regex) (content : string) : string :=
  match Re.search false r content with
  | Some gs => Py.strip (Re.group 1 gs)
  | None => EmptyString
  end.

(** [[tag.strip() for tag in tags_str.split(',') if tag.strip()]] *)
Definition parse_tags (tags_str : string) : list string :=
  if Py.nonempty tags_str then
    map Py.strip
        (filter (fun tag => Py.nonempty (Py.strip tag))
                (Py.split "," tags_str))
  else [].

Section Manager.
Variable bookmarks_dir : string.
(** The process and its surroundings: working directory, [expanduser],
    [realpath], [os.access(path, R_OK)] and [hashlib.md5(..).hexdigest()]. *)
Variable getcwd : string.
Variable expanduser : string -> string.
Variable realpath : string -> string.
Variable readable : string -> bool.
Variable md5_hex : string -> string.

Definition expand_path (uri : string) : string :=
  if String.eqb uri "." then getcwd
  else if String.eqb uri ".." then Os.path_join getcwd ".."
  else if Py.startswith uri "~" then expanduser uri
  else if Py.startswith uri "./" then Os.path_join getcwd (Py.drop 2 uri)
  else if Py.startswith uri "../"
       then Os.path_join (Os.path_join getcwd "..") (Py.drop 3 uri)
  else if is_file_uri uri then Py.drop 7 uri
  else uri.

(** The three functions that open a connection take the answer the
    network gives at that moment. *)
Definition is_uri_accessible (urlopen : string -> result response)
           (uri : string) : bool :=
  if is_url uri then
    match urlopen uri with
    | Ok r => Nat.leb 200 (status r) && Nat.ltb (status r) 400
    | Raise _ => false
    end
  else if is_file uri then readable (expand_path uri)
  else false.

Definition get_title_from_uri (urlopen : string -> result response)
           (uri : string) : string :=
  if is_url uri then
    match urlopen uri with
    | Ok r =>
        match Re.search true title_re (body r) with
        | Some gs => Py.strip (Re.group 1 gs)
        | None => EmptyString
        end
    | Raise _ => EmptyString
    end
  else if is_file uri then Os.basename (expand_path uri)
  else EmptyString.

Definition get_final_uri (urlopen : string -> result response)
           (u : string) : string :=
  match urlopen u with
  | Ok r => url r
  | Raise _ => u
  end.

(** [network n] answers the request number [n] of the call. The
    arguments are strings, as the signature declares them and as a form
    or a query string supplies them. *)
Definition create_bookmark (network : nat -> string -> result response)
           (fs : Os.filesystem)
           (title uri category tags name : string) (force : bool)
  : create_result * Os.filesystem :=
  if negb (Py.nonempty uri) then (BookmarkError UriEmpty, fs)
  else
    let uri := if is_file uri then realpath (expand_path uri) else uri in
    let uri := if is_url uri then get_final_uri (network 0) uri else uri in
    if negb (is_uri_accessible (network 1) uri)
    then (BookmarkError (NotAccessible uri), fs)
    else
      let category :=
        if negb (Py.nonempty category)
        then (if is_local_file uri then "files" else "unsorted")
        else category in
      let title :=
        if negb (Py.nonempty title)
        then get_title_from_uri (network 2) uri else title in
      let title :=
        if negb (Py.nonempty title)
        then Os.basename (Py.rstrip_chars "/" uri) else title in
      let name := if negb (Py.nonempty name) then title else name in
      if negb (Py.nonempty title) then (BookmarkError (TitleEmpty uri), fs)
      else if negb (Py.nonempty category)
      then (BookmarkError (CategoryEmpty title), fs)
      else
        let category := slugify category in
        let name := slugify name in
        let category_dir := Os.path_join bookmarks_dir category in
        match Os.makedirs fs category_dir with
        | (fs1, Some e) => (BookmarkError (CreateFailed e), fs1)
        | (fs1, None) =>
            let filename := Os.path_join category_dir (name ++ ".md") in
            if Os.path_exists fs1 filename && negb force
            then (BookmarkError (AlreadyExists filename), fs1)
            else
              let all_tags :=
                if Py.nonempty tags then category ++ "," ++ tags
                else category in
              match Os.write_file fs1 filename
                                  (file_text title uri all_tags) with
              | Raise e => (BookmarkError (CreateFailed e), fs1)
              | Ok fs2 =>
                  (BookmarkCreated filename title uri category all_tags, fs2)
              end
        end.

(** [create_bookmark] for an address that is whatever value the body of
    a request holds (the other arguments being strings): the test [if
    not uri] is made on the value; a value that passes it and is no
    string has no [startswith], and that error is answered by the
    [except] clause of the function. *)
Definition create_bookmark_value
           (network : nat -> string -> result response)
           (fs : Os.filesystem) (title : string) (uri : pyval)
           (category tags name : string) (force : bool)
  : create_result * Os.filesystem :=
  if negb (PyObj.truthy uri) then (BookmarkError UriEmpty, fs)
  else
    match uri with
    | PStr s => create_bookmark network fs title s category tags name force
    | _ => (BookmarkError (CreateFailed AttributeError), fs)
    end.

Section Search.
Variable fs : Os.filesystem.
Variable query_lower : string.
Variable limit : Z.

Definition full (results : list search_result) : bool :=
  Z.leb limit (Z.of_nat (List.length results)).

Definition entry (root file_path content : string) : search_result :=
  {| r_id := md5_hex file_path;
     r_url := field (field_re "uri") content;
     r_title := field (field_re "title") content;
     r_tags := parse_tags (field tags_re content);
     r_category := Os.basename root |}.

(** The loop over the files of one directory, up to its [break]. *)
Fixpoint scan_files (root : string) (files : list string)
         (results : list search_result) : list search_result :=
  match files with
  | [] => results
  | file :: rest =>
      if Py.endswith file ".md" then
        let file_path := Os.path_join root file in
        match Os.read_text fs file_path with
        | Raise _ => scan_files root rest results
        | Ok content =>
            if Py.contains query_lower (Py.lower content) then
              let results :=
                (results ++ [entry root file_path content])%list in
              if full results then results
              else scan_files root rest results
            else scan_files root rest results
        end
      else scan_files root rest results
  end.

(** The loop over the directories of the walk, up to its [break]. *)
Fixpoint scan_dirs (dirs : list (string * list string * list string))
         (results : list search_result) : list search_result :=
  match dirs with
  | [] => results
  | (root, _, files) :: rest =>
      let results := scan_files root files results in
      if full results then results else scan_dirs rest results
  end.
End Search.

Definition search_bookmarks (fs : Os.filesystem) (query : string)
           (limit : Z) : list search_result :=
  if Nat.ltb (String.length query) 3 then []
  else scan_dirs fs (Py.lower query) limit (Os.walk fs bookmarks_dir) [].

Definition add_bookmark (network : nat -> string -> result response)
           (fs : Os.filesystem) (url title category tags : string)
  : create_result * Os.filesystem :=
  create_bookmark network fs title url category tags EmptyString false.

(** The dictionary of one result, encoded: its keys in the order the
    search writes them. *)
Definition dumps_result (r : search_result) : string :=
  Json.dumps_dict
    [("id", Json.dumps_str (r_id r));
     ("url", Json.dumps_str (r_url r));
     ("title", Json.dumps_str (r_title r));
     ("tags", Json.dumps_list (map Json.dumps_str (r_tags r)));
     ("category", Json.dumps_str (r_category r))].

(** [json.dumps(self.search_bookmarks(query))], the limit at its default *)
Definition suggest_bookmarks (fs : Os.filesystem) (query : string)
  : string :=
  Json.dumps_list (map dumps_result (search_bookmarks fs query 20)).
End Manager.

End BookmarksManager.

(* ===================================================================== *)
(** ** [ServerHandler]: the parameters of a request *)
(* ===================================================================== *)

Module Server.

(** [self.get_params] and [self.post_params] of a form: a dictionary from
    strings to strings, in insertion order. *)
Definition params : Type := list (string * string).

(** [d[key] = value] *)
Fixpoint set_item (key value : string) (d : params) : params :=
  match d with
  | [] => [(key, value)]
  | (k, v) :: d' =>
      if String.eqb k key then (k, value) :: d'
      else (k, v) :: set_item key value d'
  end.

(** [d.get(key, default)] *)
Fixpoint get (d : params) (key default : string) : string :=
  match d with
  | [] => default
  | (k, v) :: d' => if String.eqb k key then v else get d' key default
  end.

(** [s.split(sep, 1)] of a text that holds the separator: what is before
    its first occurrence and what is after. *)
Fixpoint split_once (sep : ascii) (s : string) : string * string :=
  match s with
  | EmptyString => (EmptyString, EmptyString)
  | String c s' =>
      if Ascii.eqb c sep then (EmptyString, s')
      else let (a, b) := split_once sep s' in (String c a, b)
  end.

(** The body of the loop over the pieces of the query string. *)
Definition add_param (get_params : params) (param : string) : params :=
  if Py.contains "=" param then
    let (key, value) := split_once "=" param in set_item key value get_params
  else set_item param EmptyString get_params.

(** [parse_get_params], as a function of [self.path]. *)
Definition parse_get_params (path : string) : params :=
  if Py.contains "?" path then
    let query_string := nth 1 (Py.split "?" path) EmptyString in
    fold_left add_param (Py.split "&" query_string) []
  else [].

(** The branch of [parse_post_params] for a body that is not JSON:
    [dict([p.split('=') for p in body.split('&')])]. Every piece has to
    split in two; [None] stands for the [ValueError] that [dict] raises
    otherwise. *)
Definition add_field (fields : option params) (p : string) : option params :=
  match fields, Py.split "=" p with
  | Some d, [key; value] => Some (set_item key value d)
  | _, _ => None
  end.

Definition form_fields (body : string) : option params :=
  fold_left add_field (Py.split "&" body) (Some []).

End Server.
(* ===================================================================== *)
(** ** Specifications *)
(* ===================================================================== *)

(** *** The language of slugs: words of [a-z0-9] joined by single hyphens *)

Definition alnum (c : ascii) : bool := Py.is_lower c || Py.is_digit c.

Fixpoint all_chars (p : ascii -> bool) (s : string) : bool :=
  match s with
  | EmptyString => true
  | String c s' => p c && all_chars p s'
  end.

Definition slug_word (w : string) : Prop :=
  w <> EmptyString /\ all_chars alnum w = true.

Definition slug_language (s : string) : Prop :=
  exists w ws, Forall slug_word (w :: ws) /\ s = Py.join "-" (w :: ws).

(** A recogniser of the same language: [after_hyphen] says that the
    previous character was a hyphen (or that the text starts here). *)
Fixpoint slug_shape_from (after_hyphen : bool) (s : string) : bool :=
  match s with
  | EmptyString => negb after_hyphen
  | String c s' =>
      if Ascii.eqb c "-" then negb after_hyphen && slug_shape_from true s'
      else alnum c && slug_shape_from false s'
  end.

Definition slug_shape (s : string) : bool := slug_shape_from true s.

(** Hyphens squeezed: no two in a row, none first when [after_hyphen]. *)
Fixpoint squeezed (after_hyphen : bool) (s : string) : bool :=
  match s with
  | EmptyString => true
  | String c s' =>
      if Ascii.eqb c "-" then negb after_hyphen && squeezed true s'
      else alnum c && squeezed false s'
  end.

(** The run of hyphens a text starts with, and the text with every run of
    hyphens replaced by one. *)
Fixpoint run_length (s : string) : nat :=
  match s with
  | String c s' => if Ascii.eqb c "-" then S (run_length s') else 0
  | EmptyString => 0
  end.

Fixpoint squeeze (in_run : bool) (s : string) : string :=
  match s with
  | EmptyString => EmptyString
  | String c s' =>
      if Ascii.eqb c "-"
      then (if in_run then squeeze true s' else String c (squeeze true s'))
      else String c (squeeze false s')
  end.


Definition slug_chars (s : string) : bool :=
  all_chars (fun c => Ascii.eqb c "-" || alnum c) s.

Definition is_hyphen (p : ascii -> bool) : Prop :=
  forall c, p c = Ascii.eqb c "-".

(** The last three steps of both [slugify] functions. *)
Definition finish (s : string) : string :=
  Py.strip_chars "-" (Re.sub (Re.Plus BookmarksImporter.hyphen) "-" s).

(** *** The kinds of line the Netscape parser tells apart *)

Inductive line_kind : Type :=
| FolderOpen (name : string)
| BookmarkLine
| FolderClose
| OtherLine.

(** The tests of [parse_line], in its order. *)
Definition classify (line : string) : line_kind :=
  let line := Py.strip line in
  match Re.search true BookmarksImporter.folder_re line with
  | Some gs => FolderOpen (Py.strip (Re.group 1 gs))
  | None =>
      match Re.search true BookmarksImporter.bookmark_re line with
      | Some _ => BookmarkLine
      | None =>
          if Re.found true BookmarksImporter.close_re line then FolderClose
          else OtherLine
      end
  end.

Definition is_folder_open (line : string) : bool :=
  match classify line with FolderOpen _ => true | _ => false end.

(** The lines that are not ignored. *)
Definition significant (lines : list string) : list string :=
  filter (fun l => match classify l with OtherLine => false | _ => true end)
         lines.

Definition categories (bs : list BookmarksImporter.bookmark) : list string :=
  map BookmarksImporter.b_category bs.

(** The loop of the parser from any state. *)
Definition parse_from (unquote : string -> string)
           (st : BookmarksImporter.parser_state) (lines : list string)
  : BookmarksImporter.parser_state :=
  fold_left (BookmarksImporter.parse_line unquote) lines st.

Definition quoted (s : string) : string := dquote ++ s ++ dquote.

(** A Netscape export: folder A with a bookmark and a folder B with a
    bookmark, both folders closed, then one more bookmark. *)
Definition nested_export : list string :=
  [ "<DL><p>";
    "    <DT><H3 ADD_DATE=" ++ quoted "1700000000" ++ ">A</H3>";
    "    <DL><p>";
    "        <DT><A HREF=" ++ quoted "https://one.example/" ++ ">One</A>";
    "        <DT><H3>B</H3>";
    "        <DL><p>";
    "            <DT><A HREF=" ++ quoted "https://two.example/" ++ ">Two</A>";
    "        </DL><p>";
    "    </DL><p>";
    "    <DT><A HREF=" ++ quoted "https://three.example/" ++ ">Three</A>";
    "</DL><p>" ].


(** A Pocket export, a plain JSON array and a two-column CSV file. *)
Definition pocket_export : string :=
  "{" ++ quoted "list" ++ ": {" ++ quoted "1" ++ ": {"
    ++ quoted "given_url" ++ ": " ++ quoted "https://pocket.example/" ++ ", "
    ++ quoted "resolved_title" ++ ": " ++ quoted "Pocketed" ++ ", "
    ++ quoted "tags" ++ ": {" ++ quoted "x" ++ ": {}, " ++ quoted "y"
    ++ ": {}}}}}".

Definition json_array : string :=
  "[{" ++ quoted "title" ++ ": " ++ quoted "One" ++ ", "
    ++ quoted "url" ++ ": " ++ quoted "https://one.example/" ++ "}, {"
    ++ quoted "title" ++ ": " ++ quoted "Two" ++ ", "
    ++ quoted "url" ++ ": " ++ quoted "https://two.example/" ++ ", "
    ++ quoted "tags" ++ ": [" ++ quoted "a" ++ "]}]".

Definition csv_file : string :=
  "title,url" ++ nl ++ "One,https://one.example/" ++ nl.

Definition uploaded (content : string) : BookmarksImporter.upload :=
  {| BookmarksImporter.present := true;
     BookmarksImporter.sample := Ok (Py.take 1024 content);
     BookmarksImporter.text := Ok content |}.

(** *** Import results *)

Definition counts_add_up (r : BookmarksImporter.import_result) : Prop :=
  BookmarksImporter.success r + BookmarksImporter.failed r
  = BookmarksImporter.total r.

(** The result of an import that was given up: nothing counted, one
    failure, one error entry. *)
Definition given_up (r : BookmarksImporter.import_result) : Prop :=
  BookmarksImporter.total r = 0
  /\ BookmarksImporter.success r = 0
  /\ BookmarksImporter.failed r = 1
  /\ List.length (BookmarksImporter.errors r) = 1
  /\ BookmarksImporter.imported r = [].

(** *** When an import is given up *)

Definition is_dict (v : pyval) : bool :=
  match v with PDict _ => true | _ => false end.

(** What an import answers: it is given up with one error entry, or it
    counts its [n] records, each as a success or as a failure. *)
Inductive verdict : Type :=
| GivenUp (entry : BookmarksImporter.error_entry)
| Counted (n : nat).

Definition follows (r : BookmarksImporter.import_result) (v : verdict)
  : Prop :=
  match v with
  | GivenUp entry => r = BookmarksImporter.failure entry
  | Counted n =>
      BookmarksImporter.total r = n
      /\ BookmarksImporter.success r + BookmarksImporter.failed r = n
  end.

(** The error of the first record that has one. *)
Fixpoint first_error {I : Type} (error_of : I -> option exn)
         (records : list I) : option exn :=
  match records with
  | [] => None
  | x :: rest =>
      match error_of x with
      | Some e => Some e
      | None => first_error error_of rest
      end
  end.

(** The loop over the records: a dry run counts them all; otherwise the
    first record whose fields cannot be taken ends the import with its
    error, and without such a record all are counted. *)
Definition loop_verdict {I : Type} (error_of : I -> option exn)
           (dry_run : bool) (records : list I) : verdict :=
  if dry_run then Counted (List.length records)
  else
    match first_error error_of records with
    | Some e => GivenUp (BookmarksImporter.Exception e)
    | None => Counted (List.length records)
    end.

(** A record of a JSON file has to be an object: the importer asks it for
    its fields with [get]. *)
Definition record_error (v : pyval) : option exn :=
  if is_dict v then None else Some AttributeError.

(** An item of a Pocket list has to be an object, and its tags, when
    there are any, an object too: the importer asks whether the item holds
    [tags], takes them by subscript, asks them for their keys, and asks
    the item for its fields with [get]. *)
Definition item_error (entry : string * pyval) : option exn :=
  match snd entry with
  | PDict d =>
      match PyObj.lookup "tags" d with
      | Some t =>
          if PyObj.truthy t && negb (is_dict t) then Some AttributeError
          else None
      | None => None
      end
  | PStr s => if Py.contains "tags" s then Some TypeError
              else Some AttributeError
  | PList l => if existsb (PyObj.is_str "tags") l then Some TypeError
               else Some AttributeError
  | _ => Some TypeError
  end.

Section Verdicts.
Variable unquote : string -> string.
Variable json_loads : string -> result pyval.
Variable csv_DictReader : string -> list pydict * option exn.

(** The HTML importer gives up on a file it cannot read, and only then. *)
Definition html_verdict (file : result string) : verdict :=
match file with
| Raise e => GivenUp (BookmarksImporter.Exception e)
| Ok content =>
    Counted (List.length
               (BookmarksImporter._parse_html_bookmarks unquote content))
end.

(** The JSON importer gives up on a file it cannot read, on a text that
  is no JSON, on records that cannot be gone through, and on the first
  record that is no object. *)
Definition json_verdict (file : result string) (dry_run : bool) : verdict :=
match file with
| Raise e => GivenUp (BookmarksImporter.Exception e)
| Ok content =>
    match json_loads content with
    | Raise e => GivenUp (BookmarksImporter.Exception e)
    | Ok data =>
        match PyObj.iter (BookmarksImporter.json_records data) with
        | Raise e => GivenUp (BookmarksImporter.Exception e)
        | Ok records => loop_verdict record_error dry_run records
        end
    end
end.

(** The CSV importer gives up on a file it cannot read and on an error of
  the reader, whatever rows it has stored before. *)
Definition csv_verdict (file : result string) : verdict :=
match file with
| Raise e => GivenUp (BookmarksImporter.Exception e)
| Ok content =>
    match csv_DictReader content with
    | (_, Some e) => GivenUp (BookmarksImporter.Exception e)
    | (rows, None) => Counted (List.length rows)
    end
end.

(** The Pocket importer gives up on a file it cannot read, on a text that
  is no JSON, on a document or a list that is no object, and on the
  first item that cannot be stored. *)
Definition pocket_verdict (file : result string) (dry_run : bool)
: verdict :=
match (content <- file ;; data <- json_loads content ;;
       items <- BookmarksImporter.pocket_items data ;;
       _ <- PyObj.len items ;; PyObj.items items) with
| Raise e => GivenUp (BookmarksImporter.Exception e)
| Ok pairs => loop_verdict item_error dry_run pairs
end.

(** The format [import_file] goes by: the one it is given, else the one
  detected from the first 1024 characters of the file. *)
Definition chosen_format (file : BookmarksImporter.upload)
         (format : option string) : string :=
match format with
| Some f =>
    if Py.nonempty f then f
    else BookmarksImporter.detect_file_format
           json_loads (BookmarksImporter.sample file)
| None =>
    BookmarksImporter.detect_file_format
      json_loads (BookmarksImporter.sample file)
end.

(** [import_file] gives up on a path that does not exist and on a format
  that is none of the four; otherwise the importer of the format
  decides. *)
Definition file_verdict (file_path : string) (file : BookmarksImporter.upload)
         (format : option string) (dry_run : bool) : verdict :=
if negb (BookmarksImporter.present file)
then GivenUp (BookmarksImporter.FileNotFound file_path)
else
  let format := chosen_format file format in
  if String.eqb format "html"
  then html_verdict (BookmarksImporter.text file)
  else if String.eqb format "json"
  then json_verdict (BookmarksImporter.text file) dry_run
  else if String.eqb format "csv"
  then csv_verdict (BookmarksImporter.text file)
  else if String.eqb format "pocket"
  then pocket_verdict (BookmarksImporter.text file) dry_run
  else GivenUp (BookmarksImporter.UnsupportedFormat format).
End Verdicts.

(** A store with the bookmark directory and nothing in it, and a clock. *)
Definition fresh_store : Os.filesystem :=
  [("/data", Os.Dir); ("/data/bookmarks", Os.Dir)].

Definition fresh_world : BookmarksImporter.world :=
  {| BookmarksImporter.fs := fresh_store; BookmarksImporter.calls := 0 |}.

Definition noon : Os.datetime :=
  {| Os.year := 2024; Os.month := 5; Os.day := 17;
     Os.hour := 12; Os.minute := 0; Os.second := 0 |}.

(** A clock that advances by a second with every call of the writer. *)
Definition ticking (n : nat) : Os.datetime :=
  {| Os.year := 2024; Os.month := 5; Os.day := 17;
     Os.hour := 12; Os.minute := n / 60 mod 60; Os.second := n mod 60 |}.

Definition no_rows (content : string) : list pydict * option exn := ([], None).

(** *** Names of bookmark files *)

Definition is_digit_string (s : string) : bool := all_chars Py.is_digit s.

(** [_YYYYMMDD_HHMMSS]: an underscore, eight digits, an underscore, six
    digits. *)
Definition is_stamp_suffix (s : string) : bool :=
  match s with
  | String u rest =>
      Ascii.eqb u "_"
      && is_digit_string (Py.take 8 rest)
      && String.eqb (Py.take 1 (Py.drop 8 rest)) "_"
      && is_digit_string (Py.drop 9 rest)
      && Nat.eqb (String.length rest) 15
  | EmptyString => false
  end.

(** *** The decision list of the format detector, in words *)

(** [w], a word in lower case, occurs in [s] in whatever letter case. *)
Definition mentions (w s : string) : bool := Py.contains w (Py.lower s).

(** [w] begins somewhere on the first line of [s]. *)
Fixpoint on_first_line (w s : string) : bool :=
  Py.starts w s
  || match s with
     | String c s' =>
         negb (Ascii.eqb c BookmarksImporter.newline) && on_first_line w s'
     | EmptyString => false
     end.

(** An anchor with an [href=] further on the same line. *)
Fixpoint anchor_with_href (s : string) : bool :=
  (Py.starts "<dt><a" s && on_first_line "href=" (Py.drop 6 s))
  || match s with
     | String _ s' => anchor_with_href s'
     | EmptyString => false
     end.

Definition html_marked (sample : string) : bool :=
  mentions "<dt><h3" sample || anchor_with_href (Py.lower sample).

Definition bracketed (sample : string) : bool :=
  Py.startswith (Py.strip sample) "{" || Py.startswith (Py.strip sample) "[".

Fixpoint first_line (s : string) : string :=
  match s with
  | String c s' =>
      if Ascii.eqb c BookmarksImporter.newline then EmptyString
      else String c (first_line s')
  | EmptyString => EmptyString
  end.

Definition comma_separated (sample : string) : bool :=
  Py.contains "," sample && Py.contains nl sample
  && Py.contains "," (first_line sample).

Definition csv_or_unknown (sample : string) : string :=
  if comma_separated sample then "csv" else "unknown".

(** A key named [key] at any depth of a parsed document. *)
Fixpoint has_key_deep (key : string) (v : pyval) {struct v} : bool :=
  match v with
  | PList l =>
      (fix any (l : list pyval) : bool :=
         match l with
         | [] => false
         | x :: l' => has_key_deep key x || any l'
         end) l
  | PDict d =>
      (fix any (d : list (string * pyval)) : bool :=
         match d with
         | [] => false
         | (k, x) :: d' => String.eqb k key || has_key_deep key x || any d'
         end) d
  | _ => false
  end.

(** The decision list as the claim words it: Pocket is told by a [list] or
    a [given_url] key of the parsed document, and any failure of the parse
    leads on to the next rule. *)
Definition detect_as_claimed (json_loads : string -> result pyval)
           (file : result string) : string :=
  match file with
  | Raise _ => "unknown"
  | Ok whole =>
      let sample := Py.take 1024 whole in
      if html_marked sample then "html"
      else if bracketed sample then
        match json_loads sample with
        | Ok document =>
            if has_key_deep "list" document
               || has_key_deep "given_url" document
            then "pocket" else "json"
        | Raise _ => csv_or_unknown sample
        end
      else csv_or_unknown sample
  end.

(** The decision list as the code has it: Pocket is told by the quoted
    word [list] or [given_url] occurring in the sample, and an error of the
    parse other than a decode error ends the detection. *)
Definition detect_by_rules (json_loads : string -> result pyval)
           (file : result string) : string :=
  match file with
  | Raise _ => "unknown"
  | Ok whole =>
      let sample := Py.take 1024 whole in
      if html_marked sample then "html"
      else if bracketed sample then
        match json_loads sample with
        | Ok _ =>
            if Py.contains BookmarksImporter.list_token sample
               || Py.contains BookmarksImporter.given_url_token sample
            then "pocket" else "json"
        | Raise JSONDecodeError => csv_or_unknown sample
        | Raise _ => "unknown"
        end
      else csv_or_unknown sample
  end.

Definition lower_fixed (w : string) : bool :=
  all_chars (fun c => Ascii.eqb (Py.lower_char c) c) w.

Definition is_some {A : Type} (o : option A) : bool :=
  match o with Some _ => true | None => false end.

(** *** The round trip through writer and search *)

Definition default_dir : string := "/data/bookmarks".

(** A network that answers every request, a home directory, paths that
    resolve to themselves and are readable, and a stand-in for the digest
    of a path: the surroundings of the manager in concrete runs. *)
Definition online (n : nat) (address : string)
  : result BookmarksManager.response :=
  Ok {| BookmarksManager.status := 200;
        BookmarksManager.url := address;
        BookmarksManager.body := "<html><title>Example Domain</title></html>" |}.

Definition home (path : string) : string := "/root" ++ Py.drop 1 path.
Definition same (path : string) : string := path.
Definition all_readable (path : string) : bool := true.

(** The store after the writer has stored the bookmark of the round trip. *)
Definition store_with_test (now : Os.datetime) : Os.filesystem :=
  snd (BookmarksImporter.create_bookmark_file
         default_dir fresh_store now
         (PStr "Test") (PStr "https://example.com") (PStr "test")
         (PStr EmptyString) EmptyString EmptyString).

(** What the search answers for the bookmark stored at [path]. *)
Definition test_entry (md5_hex : string -> string) (path : string)
  : BookmarksManager.search_result :=
  {| BookmarksManager.r_id := md5_hex path;
     BookmarksManager.r_url := "https://example.com";
     BookmarksManager.r_title := "Test";
     BookmarksManager.r_tags := [];
     BookmarksManager.r_category := "test" |}.

(** The bookmark is among the results, or the search stopped at its limit
    before reaching the file. *)
Definition found_or_full (e : BookmarksManager.search_result)
           (limit : Z) (results : list BookmarksManager.search_result)
  : Prop :=
  In e results \/ (limit <= Z.of_nat (List.length results))%Z.

Definition test_text : string :=
  BookmarksImporter.file_text "Test" "https://example.com" EmptyString
                              EmptyString EmptyString.
(** *** Further properties: names, paths and records *)

(** No character that [sanitize_filename] replaces. *)
Definition safe_name (s : string) : bool :=
  all_chars (fun c => negb (BookmarksImporter.unsafe_char c)) s.

(** The characters of a file stem: those of a slug and the underscore. *)
Definition stem_char (c : ascii) : bool :=
  alnum c || Ascii.eqb c "-" || Ascii.eqb c "_".

Definition is_text (v : pyval) : bool :=
  match v with PStr _ => true | _ => false end.

(** A value that is taken for present and has no [strip]. *)
Definition unusable (v : pyval) : bool := PyObj.truthy v && negb (is_text v).

(** *** Further properties: the Netscape parser *)

Definition is_bookmark_line (line : string) : bool :=
  match classify line with BookmarkLine => true | _ => false end.





(** *** Further properties: import results *)

(** The two lists of a result are as long as its counters say. *)
Definition lists_match (r : BookmarksImporter.import_result) : Prop :=
  List.length (BookmarksImporter.imported r) = BookmarksImporter.success r
  /\ List.length (BookmarksImporter.errors r) = BookmarksImporter.failed r.

(** The result of a dry run over [n] records with the given previews. *)
Definition preview_of (entries : list BookmarksImporter.imported_entry)
  : BookmarksImporter.import_result :=
  {| BookmarksImporter.total := List.length entries;
     BookmarksImporter.success := List.length entries;
     BookmarksImporter.failed := 0;
     BookmarksImporter.errors := [];
     BookmarksImporter.imported := entries |}.

(** *** Further properties: the manager *)

(** The file a call of [create_bookmark] wrote, if it wrote one. *)
Definition created_path (r : BookmarksManager.create_result)
  : option string :=
  match r with
  | BookmarksManager.BookmarkCreated filename _ _ _ _ => Some filename
  | BookmarksManager.BookmarkError _ => None
  end.

(** A text of characters below 128. *)
Definition ascii_text (s : string) : bool :=
  all_chars (fun c => Nat.ltb (Py.code c) 128) s.

(** *** Further properties: the parameters of a request *)

(** A key holds no [&], [?] or [=]; a value no [&] or [?]. *)
Definition key_text (s : string) : bool :=
  all_chars (fun c => negb (Py.mem_char c "&?=")) s.

Definition value_text (s : string) : bool :=
  all_chars (fun c => negb (Py.mem_char c "&?")) s.

(** The query string that names the given parameters. *)
Definition query_of (pairs : list (string * string)) : string :=
  Py.join "&" (map (fun kv => fst kv ++ "=" ++ snd kv) pairs).

(** The dictionary built by assigning the pairs one after the other. *)
Definition dict_of (pairs : list (string * string)) : Server.params :=
  fold_left (fun d kv => Server.set_item (fst kv) (snd kv) d) pairs [].

(** *** Further properties: reading a bookmark file back *)

(** The pattern of a field of the search, its name and colon read as one
    word. *)
Definition field_word (name : string) : Re.regex :=
  Re.Cat (Re.lit (name ++ ":"))
         (Re.seq [Re.Star Py.isspace; Re.Group (Re.Plus Re.dot)]).

(** A text without a line break. *)
Definition single_line (s : string) : bool := all_chars Re.dot s.

(** A text without a carriage return: a read in text mode hands it over
    as it was written. *)
Definition without_cr (s : string) : bool :=
  all_chars (fun c => negb (Ascii.eqb c (ascii_of_nat 13))) s.

(** A name without a slash. *)
Definition slash_free (s : string) : bool :=
  all_chars (fun c => negb (Ascii.eqb c "/")) s.

(** What the search answers for a file whose front matter holds the
    title [t], the address [u] and the tags [g]. *)
Definition read_back (md5_hex : string -> string)
           (file_path category t u g : string)
  : BookmarksManager.search_result :=
  {| BookmarksManager.r_id := md5_hex file_path;
     BookmarksManager.r_url := Py.strip u;
     BookmarksManager.r_title := Py.strip t;
     BookmarksManager.r_tags := BookmarksManager.parse_tags (Py.strip g);
     BookmarksManager.r_category := category |}.

(** *** Further properties: the answer of a search as JSON *)

(** The dictionary the search builds for a result, as a value. *)
Definition result_value (r : BookmarksManager.search_result) : pyval :=
  PDict [("id", PStr (BookmarksManager.r_id r));
         ("url", PStr (BookmarksManager.r_url r));
         ("title", PStr (BookmarksManager.r_title r));
         ("tags", PList (map PStr (BookmarksManager.r_tags r)));
         ("category", PStr (BookmarksManager.r_category r))].

(** The text [text] decodes to [value] with fuel [need] or more, whatever
    follows it; it begins with a character that is neither white space nor
    a closing bracket. *)
Definition decodes (need : nat) (text : string) (value : pyval) : Prop :=
  (exists d t,
      text = String d t /\ Json.is_ws d = false /\ Ascii.eqb d "]" = false)
  /\ forall fuel rest,
       need <= fuel ->
       Json.scan_once fuel (text ++ rest) = Some (value, rest).

(** Fuel that is enough for the items of a list, [need] being enough for
    each of them. *)
Fixpoint fuel_for {X : Type} (need : X -> nat) (xs : list X) : nat :=
  match xs with
  | [] => 0
  | x :: xs' => S (Nat.max (need x) (fuel_for need xs'))
  end.

(** *** Further properties: concrete runs *)

(** A write whose title and category try to leave the bookmark
    directory. *)
Definition escaping_write : BookmarksImporter.write_result * Os.filesystem :=
  BookmarksImporter.create_bookmark_file
    default_dir fresh_store noon
    (PStr "../../etc/passwd") (PStr "https://example.com") (PStr "../Up")
    (PStr "a, b") EmptyString EmptyString.


(** A JSON list with one record, and the same list with [null] and a
    second record after it. *)
Definition first_record : string :=
  "{" ++ quoted "title" ++ ": " ++ quoted "One" ++ ", "
    ++ quoted "url" ++ ": " ++ quoted "https://one.example/" ++ "}".

Definition array_of_one : string := "[" ++ first_record ++ "]".

Definition array_with_null : string :=
  "[" ++ first_record ++ ", null, {" ++ quoted "title" ++ ": "
    ++ quoted "Two" ++ ", " ++ quoted "url" ++ ": "
    ++ quoted "https://two.example/" ++ "}]".

(** A bookmark created by the manager, and the tree it leaves. *)
Definition read_me_created : BookmarksManager.create_result * Os.filesystem :=
  BookmarksManager.create_bookmark
    default_dir "/work" home same all_readable online fresh_store
    "Read Me" "https://example.com" "Dev Tools" "x, y" EmptyString false.

Definition read_me_result : BookmarksManager.search_result :=
  {| BookmarksManager.r_id := "/data/bookmarks/dev-tools/read-me.md";
     BookmarksManager.r_url := "https://example.com";
     BookmarksManager.r_title := "Read Me";
     BookmarksManager.r_tags := ["dev-tools"; "x"; "y"];
     BookmarksManager.r_category := "dev-tools" |}.
(* ===================================================================== *)
(** ** Characters *)
(* ===================================================================== *)

Ltac each_char c :=
  destruct c as [[] [] [] [] [] [] [] []]; vm_compute;
  try reflexivity; try discriminate; try (intros; discriminate);
  try (intros; reflexivity); auto.

Lemma hyphen_not_alnum : forall c, Ascii.eqb c "-" = true -> alnum c = false.
Proof. intros c; each_char c. Qed.

Lemma alnum_lower_fixed : forall c, alnum c = true -> Py.lower_char c = c.
Proof. intros c; each_char c. Qed.

Lemma alnum_not_space : forall c, alnum c = true -> Py.isspace c = false.
Proof. intros c; each_char c. Qed.

Lemma hyphen_lower_fixed : forall c,
  Ascii.eqb c "-" = true -> Py.lower_char c = c.
Proof. intros c; each_char c. Qed.

Lemma hyphen_not_space : forall c,
  Ascii.eqb c "-" = true -> Py.isspace c = false.
Proof. intros c; each_char c. Qed.

Lemma importer_class_slug_char : forall c,
  let d := if BookmarksImporter.not_slug_char c then "-"%char else c in
  Ascii.eqb d "-" || alnum d = true.
Proof. intros c; each_char c. Qed.

Lemma manager_class_slug_char : forall c,
  let d := if BookmarksManager.not_alnum (Py.lower_char c)
           then "-"%char else Py.lower_char c in
  Ascii.eqb d "-" || alnum d = true.
Proof. intros c; each_char c. Qed.

Lemma importer_class_keeps : forall c,
  Ascii.eqb c "-" || alnum c = true ->
  (if BookmarksImporter.not_slug_char c then "-"%char else c) = c.
Proof. intros c; each_char c. Qed.

Lemma manager_class_keeps : forall c,
  Ascii.eqb c "-" || alnum c = true ->
  (if BookmarksManager.not_alnum c then "-"%char else c) = c.
Proof. intros c; each_char c. Qed.

Lemma slug_char_ascii : forall c,
  Ascii.eqb c "-" || alnum c = true ->
  BookmarksManager.nfkd_ascii_char c = String c EmptyString.
Proof. intros c; each_char c. Qed.

(* ===================================================================== *)
(** ** Substitution by a class and by a run *)
(* ===================================================================== *)

Lemma length_succ_minus : forall n, S n - n = 1.
Proof. intros n; lia. Qed.

Lemma sub_class_is_map : forall p r s,
  Re.sub (Re.Cls p) (String r EmptyString) s
  = Py.map_chars (fun c => if p c then r else c) s.
Proof.
  intros p r s. unfold Re.sub.
  induction s as [|c s IH]; [reflexivity|].
  cbn [Re.sub_from Py.map_chars]. unfold Re.match_at. cbn [Re.rmatch].
  destruct (p c).
  - cbn [String.length]. rewrite length_succ_minus.
    cbn [String.append]. now rewrite IH.
  - now rewrite IH.
Qed.

(** A continuation that always answers is reached after the longest run. *)
Lemma star_longest : forall (A : Type) p s (k : string -> option A),
  (forall x, k x <> None) -> Re.star p s k = k (Py.lstrip_by p s).
Proof.
  intros A p s k Hk. induction s as [|c s IH]; simpl; [reflexivity|].
  destruct (p c); [|reflexivity].
  rewrite IH. destruct (k (Py.lstrip_by p s)) eqn:E; [reflexivity|].
  now apply Hk in E.
Qed.

Lemma lstrip_hyphens_length : forall s,
  String.length (Py.lstrip_by BookmarksImporter.hyphen s) + run_length s
  = String.length s.
Proof.
  induction s as [|c s IH]; simpl; [reflexivity|].
  unfold BookmarksImporter.hyphen at 1.
  destruct (Ascii.eqb c "-"); simpl; lia.
Qed.

Lemma match_run : forall c s,
  Re.match_at false (Re.Plus BookmarksImporter.hyphen) (String c s)
  = if Ascii.eqb c "-" then Some ([], S (run_length s)) else None.
Proof.
  intros c s. unfold Re.match_at. cbn [Re.rmatch].
  unfold BookmarksImporter.hyphen at 1.
  destruct (Ascii.eqb c "-"); [|reflexivity].
  rewrite star_longest by discriminate.
  do 2 f_equal. cbn [String.length].
  pose proof (lstrip_hyphens_length s). lia.
Qed.

Lemma sub_run_is_squeeze : forall s,
  Re.sub_from (Re.Plus BookmarksImporter.hyphen) "-" (run_length s) s
  = squeeze true s
  /\ Re.sub_from (Re.Plus BookmarksImporter.hyphen) "-" 0 s
     = squeeze false s.
Proof.
  induction s as [|c s [IHrun IHnone]]; [split; reflexivity|].
  assert (Hnone : Re.sub_from (Re.Plus BookmarksImporter.hyphen) "-" 0
                    (String c s) = squeeze false (String c s)).
  { cbn [Re.sub_from]. rewrite match_run. cbn [squeeze].
    destruct (Ascii.eqb c "-") eqn:E.
    - apply Ascii.eqb_eq in E. subst c. simpl. now rewrite IHrun.
    - now rewrite IHnone. }
  split; [|exact Hnone].
  cbn [run_length]. destruct (Ascii.eqb c "-") eqn:E.
  - cbn [Re.sub_from squeeze]. now rewrite E.
  - rewrite Hnone. cbn [squeeze]. now rewrite E.
Qed.

Lemma sub_run_squeeze : forall s,
  Re.sub (Re.Plus BookmarksImporter.hyphen) "-" s = squeeze false s.
Proof. intros s. apply sub_run_is_squeeze. Qed.

(* ===================================================================== *)
(** ** The shape of a slug *)
(* ===================================================================== *)


Lemma squeeze_squeezed : forall s b,
  slug_chars s = true -> squeezed b (squeeze b s) = true.
Proof.
  unfold slug_chars.
  induction s as [|c s IH]; intros b H; simpl in *; [reflexivity|].
  apply andb_prop in H as [Hc Hs].
  destruct (Ascii.eqb c "-") eqn:E.
  - destruct b; [now apply IH|]. simpl. rewrite E. simpl. now apply IH.
  - simpl in Hc. simpl. rewrite E, Hc. simpl. now apply IH.
Qed.

Lemma squeezed_weaken : forall s, squeezed true s = true -> squeezed false s = true.
Proof.
  intros [|c s]; simpl; [reflexivity|].
  destruct (Ascii.eqb c "-"); simpl; [discriminate|auto].
Qed.


Lemma mem_hyphen : is_hyphen (fun c => Py.mem_char c "-").
Proof. intros c. simpl. apply orb_false_r. Qed.

Lemma lstrip_squeezed : forall p s,
  is_hyphen p -> squeezed false s = true ->
  squeezed true (Py.lstrip_by p s) = true.
Proof.
  intros p [|c s] Hp; [reflexivity|].
  cbn [Py.lstrip_by squeezed]. rewrite Hp.
  destruct (Ascii.eqb c "-") eqn:E.
  - cbn [negb andb]. intros H. destruct s as [|d s]; [reflexivity|].
    cbn [Py.lstrip_by squeezed] in *. rewrite Hp.
    destruct (Ascii.eqb d "-") eqn:E'; [discriminate|].
    cbn [squeezed]. now rewrite E'.
  - cbn [squeezed]. now rewrite E.
Qed.

Lemma slug_shape_cons : forall b c s,
  slug_shape_from b (String c s)
  = if Ascii.eqb c "-" then negb b && slug_shape_from true s
    else alnum c && slug_shape_from false s.
Proof. reflexivity. Qed.

Lemma rstrip_shape : forall p s b,
  is_hyphen p -> squeezed b s = true ->
  Py.rstrip_by p s = EmptyString
  \/ slug_shape_from b (Py.rstrip_by p s) = true.
Proof.
  intros p s b Hp. revert b.
  induction s as [|c s IH]; intros b H; [now left|].
  cbn [squeezed] in H. cbn [Py.rstrip_by]. rewrite Hp.
  destruct (Ascii.eqb c "-") eqn:E.
  - apply andb_prop in H as [Hb Hs].
    destruct (IH true Hs) as [R|R].
    + rewrite R. now left.
    + right. destruct (Py.rstrip_by p s) as [|a r] eqn:Er.
      * simpl in R. discriminate.
      * rewrite slug_shape_cons, E, Hb, R. reflexivity.
  - apply andb_prop in H as [Hc Hs].
    right. destruct (IH false Hs) as [R|R].
    + rewrite R, slug_shape_cons, E, Hc. reflexivity.
    + destruct (Py.rstrip_by p s) as [|a r] eqn:Er.
      * rewrite slug_shape_cons, E, Hc. reflexivity.
      * rewrite slug_shape_cons, E, Hc, R. reflexivity.
Qed.


Lemma finish_shape : forall s,
  slug_chars s = true ->
  finish s = EmptyString \/ slug_shape (finish s) = true.
Proof.
  intros s H. unfold finish, Py.strip_chars, Py.strip_by, slug_shape.
  rewrite sub_run_squeeze.
  apply rstrip_shape; [apply mem_hyphen|].
  apply lstrip_squeezed; [apply mem_hyphen|].
  now apply squeeze_squeezed.
Qed.

Lemma shape_in_language : forall s,
  (forall c, alnum c = true -> slug_shape_from false s = true ->
             slug_language (String c s))
  /\ (slug_shape_from true s = true -> slug_language s).
Proof.
  induction s as [|d s [IHword IHstart]]; split.
  - intros c Hc _. exists (String c EmptyString), [].
    split; [|reflexivity].
    constructor; [|constructor]. split; [discriminate|].
    simpl. now rewrite Hc.
  - discriminate.
  - intros c Hc H. rewrite slug_shape_cons in H.
    destruct (Ascii.eqb d "-") eqn:E.
    + apply Ascii.eqb_eq in E. subst d. simpl in H.
      destruct (IHstart H) as (w & ws & Hall & ->).
      exists (String c EmptyString), (w :: ws). split; [|reflexivity].
      constructor; [|exact Hall]. split; [discriminate|].
      simpl. now rewrite Hc.
    + apply andb_prop in H as [Hd H].
      destruct (IHword d Hd H) as (w & ws & Hall & Heq).
      exists (String c w), ws. split.
      * inversion Hall as [|? ? [_ Hw] Hws]; subst.
        constructor; [|exact Hws]. split; [discriminate|].
        simpl. now rewrite Hc.
      * rewrite Heq. destruct ws; reflexivity.
  - intros H. rewrite slug_shape_cons in H.
    destruct (Ascii.eqb d "-") eqn:E; [discriminate|].
    apply andb_prop in H as [Hd H]. now apply IHword.
Qed.

(** A slug is left alone by every step of both functions. *)

Lemma shape_slug_chars : forall s b,
  slug_shape_from b s = true -> slug_chars s = true.
Proof.
  unfold slug_chars.
  induction s as [|c s IH]; intros b H; [reflexivity|].
  rewrite slug_shape_cons in H. cbn [all_chars].
  destruct (Ascii.eqb c "-") eqn:E.
  - apply andb_prop in H as [_ H]. simpl. now apply (IH true).
  - apply andb_prop in H as [Hc H]. rewrite Hc. simpl. now apply (IH false).
Qed.

Lemma map_chars_fixed : forall f s,
  (forall c, Ascii.eqb c "-" || alnum c = true -> f c = c) ->
  slug_chars s = true -> Py.map_chars f s = s.
Proof.
  unfold slug_chars. intros f s Hf.
  induction s as [|c s IH]; intros H; [reflexivity|].
  cbn [all_chars] in H. apply andb_prop in H as [Hc Hs].
  cbn [Py.map_chars]. now rewrite Hf, IH.
Qed.

Lemma strip_by_none : forall p s,
  all_chars (fun c => negb (p c)) s = true -> Py.strip_by p s = s.
Proof.
  intros p s H. unfold Py.strip_by.
  assert (L : Py.lstrip_by p s = s).
  { destruct s as [|c s]; [reflexivity|]. simpl in *.
    apply andb_prop in H as [Hc _]. now destruct (p c). }
  rewrite L. clear L.
  induction s as [|c s IH]; [reflexivity|].
  cbn [all_chars] in H. apply andb_prop in H as [Hc Hs].
  cbn [Py.rstrip_by]. rewrite (IH Hs).
  destruct s; [|reflexivity]. now destruct (p c).
Qed.

Lemma slug_chars_no_space : forall s,
  slug_chars s = true -> all_chars (fun c => negb (Py.isspace c)) s = true.
Proof.
  unfold slug_chars. induction s as [|c s IH]; intros H; [reflexivity|].
  cbn [all_chars] in *. apply andb_prop in H as [Hc Hs].
  rewrite (IH Hs), andb_true_r.
  apply orb_prop in Hc as [Hc|Hc].
  - now rewrite hyphen_not_space.
  - now rewrite alnum_not_space.
Qed.

Lemma shape_squeeze_fixed : forall s b,
  slug_shape_from b s = true -> squeeze false s = s.
Proof.
  induction s as [|c s IH]; intros b H; [reflexivity|].
  rewrite slug_shape_cons in H. cbn [squeeze].
  destruct (Ascii.eqb c "-") eqn:E.
  - apply andb_prop in H as [_ H]. f_equal.
    destruct s as [|d s]; [reflexivity|].
    pose proof (IH true H) as IH'. rewrite slug_shape_cons in H.
    cbn [squeeze] in *. destruct (Ascii.eqb d "-"); [discriminate|].
    exact IH'.
  - apply andb_prop in H as [_ H]. f_equal. now apply (IH false).
Qed.

Lemma shape_rstrip_fixed : forall p s b,
  is_hyphen p -> slug_shape_from b s = true -> Py.rstrip_by p s = s.
Proof.
  intros p s b Hp. revert b.
  induction s as [|c s IH]; intros b H; [reflexivity|].
  rewrite slug_shape_cons in H. cbn [Py.rstrip_by]. rewrite Hp.
  destruct (Ascii.eqb c "-") eqn:E.
  - apply andb_prop in H as [_ H]. rewrite (IH true H).
    destruct s; [discriminate|reflexivity].
  - apply andb_prop in H as [_ H]. rewrite (IH false H).
    destruct s; reflexivity.
Qed.

Lemma shape_finish_fixed : forall s, slug_shape s = true -> finish s = s.
Proof.
  intros s H. unfold finish, Py.strip_chars, Py.strip_by.
  rewrite sub_run_squeeze, (shape_squeeze_fixed s true H).
  assert (L : Py.lstrip_by (fun c => Py.mem_char c "-") s = s).
  { destruct s as [|c s]; [reflexivity|].
    cbn [Py.lstrip_by]. rewrite mem_hyphen.
    unfold slug_shape in H. rewrite slug_shape_cons in H.
    destruct (Ascii.eqb c "-"); [discriminate|reflexivity]. }
  rewrite L. apply (shape_rstrip_fixed _ s true); [apply mem_hyphen|exact H].
Qed.

Lemma slug_chars_lower_fixed : forall s,
  slug_chars s = true -> Py.lower s = s.
Proof.
  intros s H. apply map_chars_fixed; [|exact H].
  intros c Hc. apply orb_prop in Hc as [Hc|Hc].
  - now apply hyphen_lower_fixed.
  - now apply alnum_lower_fixed.
Qed.

Lemma slug_chars_nfkd_fixed : forall s,
  slug_chars s = true -> BookmarksManager.nfkd_ascii s = s.
Proof.
  unfold slug_chars. induction s as [|c s IH]; intros H; [reflexivity|].
  cbn [all_chars] in H. apply andb_prop in H as [Hc Hs].
  cbn [BookmarksManager.nfkd_ascii]. rewrite slug_char_ascii by exact Hc.
  simpl. now rewrite IH.
Qed.

Lemma importer_slugify_steps : forall text,
  BookmarksImporter.slugify text
  = if negb (Py.nonempty text) then EmptyString
    else finish (Py.map_chars
                   (fun c => if BookmarksImporter.not_slug_char c
                             then "-"%char else c)
                   (Py.strip (Py.lower text))).
Proof.
  intros text. unfold BookmarksImporter.slugify, finish.
  now rewrite sub_class_is_map.
Qed.

Lemma manager_slugify_steps : forall text,
  BookmarksManager.slugify text
  = if negb (Py.nonempty text) then EmptyString
    else finish (Py.map_chars
                   (fun c => if BookmarksManager.not_alnum c
                             then "-"%char else c)
                   (Py.lower (BookmarksManager.nfkd_ascii text))).
Proof.
  intros text. unfold BookmarksManager.slugify, finish.
  now rewrite sub_class_is_map.
Qed.

Lemma importer_mapped_slug_chars : forall s,
  slug_chars (Py.map_chars
                (fun c => if BookmarksImporter.not_slug_char c
                          then "-"%char else c) s) = true.
Proof.
  unfold slug_chars. induction s as [|c s IH]; [reflexivity|].
  cbn [Py.map_chars all_chars]. rewrite IH, andb_true_r.
  apply importer_class_slug_char.
Qed.

Lemma manager_mapped_slug_chars : forall s,
  slug_chars (Py.map_chars
                (fun c => if BookmarksManager.not_alnum c
                          then "-"%char else c) (Py.lower s)) = true.
Proof.
  unfold slug_chars, Py.lower. induction s as [|c s IH]; [reflexivity|].
  cbn [Py.map_chars all_chars]. rewrite IH, andb_true_r.
  apply manager_class_slug_char.
Qed.

Lemma importer_slug_shape : forall x,
  BookmarksImporter.slugify x = EmptyString
  \/ slug_shape (BookmarksImporter.slugify x) = true.
Proof.
  intros x. rewrite importer_slugify_steps.
  destruct (negb (Py.nonempty x)); [now left|].
  apply finish_shape, importer_mapped_slug_chars.
Qed.

Lemma manager_slug_shape : forall x,
  BookmarksManager.slugify x = EmptyString
  \/ slug_shape (BookmarksManager.slugify x) = true.
Proof.
  intros x. rewrite manager_slugify_steps.
  destruct (negb (Py.nonempty x)); [now left|].
  apply finish_shape, manager_mapped_slug_chars.
Qed.

Lemma importer_slug_fixed : forall s,
  slug_shape s = true -> BookmarksImporter.slugify s = s.
Proof.
  intros s H. pose proof (shape_slug_chars s true H) as Hc.
  rewrite importer_slugify_steps.
  destruct s as [|c s]; [discriminate|]. cbn [Py.nonempty negb].
  rewrite (slug_chars_lower_fixed _ Hc).
  unfold Py.strip. rewrite strip_by_none by now apply slug_chars_no_space.
  rewrite map_chars_fixed; [now apply shape_finish_fixed| |exact Hc].
  apply importer_class_keeps.
Qed.

Lemma manager_slug_fixed : forall s,
  slug_shape s = true -> BookmarksManager.slugify s = s.
Proof.
  intros s H. pose proof (shape_slug_chars s true H) as Hc.
  rewrite manager_slugify_steps.
  destruct s as [|c s]; [discriminate|]. cbn [Py.nonempty negb].
  rewrite (slug_chars_nfkd_fixed _ Hc), (slug_chars_lower_fixed _ Hc).
  rewrite map_chars_fixed; [now apply shape_finish_fixed| |exact Hc].
  apply manager_class_keeps.
Qed.

(** C4. Both [slugify] functions (the importer's and the manager's) are
    idempotent, [slugify (slugify x) = slugify x] for every [x]; their
    result is empty or a member of the language [a-z0-9]+(-[a-z0-9]+)*;
    and the empty text gives the empty slug. *)
Theorem slugify_idempotent_and_shaped : forall x,
  (BookmarksImporter.slugify (BookmarksImporter.slugify x)
   = BookmarksImporter.slugify x
   /\ (BookmarksImporter.slugify x = EmptyString
       \/ slug_language (BookmarksImporter.slugify x)))
  /\ (BookmarksManager.slugify (BookmarksManager.slugify x)
      = BookmarksManager.slugify x
      /\ (BookmarksManager.slugify x = EmptyString
          \/ slug_language (BookmarksManager.slugify x)))
  /\ BookmarksImporter.slugify EmptyString = EmptyString
  /\ BookmarksManager.slugify EmptyString = EmptyString.
Proof.
  intros x. repeat split; try reflexivity.
  - destruct (importer_slug_shape x) as [E|S].
    + rewrite E. reflexivity.
    + now apply importer_slug_fixed.
  - destruct (importer_slug_shape x) as [E|S]; [now left|right].
    now apply shape_in_language.
  - destruct (manager_slug_shape x) as [E|S].
    + rewrite E. reflexivity.
    + now apply manager_slug_fixed.
  - destruct (manager_slug_shape x) as [E|S]; [now left|right].
    now apply shape_in_language.
Qed.

(* ===================================================================== *)
(** ** The folder stack of the Netscape parser *)
(* ===================================================================== *)

Section FolderStack.
Import BookmarksImporter.
Variable unquote : string -> string.

Lemma line_folder_open : forall st l name,
  classify l = FolderOpen name ->
  parse_line unquote st l
  = {| bookmarks := bookmarks st;
       path_parts := (path_parts st ++ [slugify name])%list;
       current_category :=
         Py.join "/" (path_parts st ++ [slugify name])%list |}.
Proof.
  intros st l name H. unfold classify in H. unfold parse_line.
  destruct (Re.search true folder_re (Py.strip l)) as [gs|].
  - now inversion H.
  - destruct (Re.search true bookmark_re (Py.strip l)); [discriminate|].
    destruct (Re.found true close_re (Py.strip l)); discriminate.
Qed.

Lemma line_bookmark : forall st l,
  classify l = BookmarkLine ->
  exists b,
    parse_line unquote st l
    = {| bookmarks := (bookmarks st ++ [b])%list;
         path_parts := path_parts st;
         current_category := current_category st |}
    /\ b_category b = current_category st.
Proof.
  intros st l H. unfold classify in H. unfold parse_line.
  destruct (Re.search true folder_re (Py.strip l)); [discriminate|].
  destruct (Re.search true bookmark_re (Py.strip l)) as [gs|].
  - eexists. split; reflexivity.
  - destruct (Re.found true close_re (Py.strip l)); discriminate.
Qed.

Lemma line_folder_close : forall st l,
  classify l = FolderClose ->
  parse_line unquote st l
  = match path_parts st with
    | [] => st
    | _ :: _ =>
        {| bookmarks := bookmarks st;
           path_parts := removelast (path_parts st);
           current_category :=
             match removelast (path_parts st) with
             | [] => "unsorted"
             | _ :: _ => Py.join "/" (removelast (path_parts st))
             end |}
    end.
Proof.
  intros st l H. unfold classify in H. unfold parse_line.
  destruct (Re.search true folder_re (Py.strip l)); [discriminate|].
  destruct (Re.search true bookmark_re (Py.strip l)); [discriminate|].
  destruct (Re.found true close_re (Py.strip l)); [reflexivity|discriminate].
Qed.

Lemma line_other : forall st l,
  classify l = OtherLine -> parse_line unquote st l = st.
Proof.
  intros st l H. unfold classify in H. unfold parse_line.
  destruct (Re.search true folder_re (Py.strip l)); [discriminate|].
  destruct (Re.search true bookmark_re (Py.strip l)); [discriminate|].
  destruct (Re.found true close_re (Py.strip l)); [discriminate|reflexivity].
Qed.

Lemma run_significant : forall lines st,
  parse_from unquote st lines = parse_from unquote st (significant lines).
Proof.
  unfold parse_from, significant.
  induction lines as [|l lines IH]; intros st; [reflexivity|].
  cbn [fold_left filter].
  destruct (classify l) eqn:E; cbn [fold_left]; try apply IH.
  rewrite (line_other st l E). apply IH.
Qed.

(** With the stack empty, lines that open no folder keep it empty and
    file every bookmark under [unsorted]. *)
Lemma run_unsorted : forall tail st,
  path_parts st = [] -> current_category st = "unsorted" ->
  forallb (fun l => negb (is_folder_open l)) tail = true ->
  exists rest,
    bookmarks (parse_from unquote st tail) = (bookmarks st ++ rest)%list
    /\ Forall (fun b => b_category b = "unsorted") rest
    /\ path_parts (parse_from unquote st tail) = [].
Proof.
  unfold parse_from.
  induction tail as [|l tail IH]; intros st Hp Hc Ht.
  - exists []. rewrite app_nil_r. repeat split; auto.
  - cbn [forallb] in Ht. apply andb_prop in Ht as [Hl Ht].
    cbn [fold_left]. unfold is_folder_open in Hl.
    destruct (classify l) eqn:E; try discriminate.
    + destruct (line_bookmark st l E) as (b & -> & Hb).
      destruct (IH {| bookmarks := (bookmarks st ++ [b])%list;
                      path_parts := path_parts st;
                      current_category := current_category st |})
        as (rest & Hr & Hall & Hpp); auto.
      exists (b :: rest). cbn [bookmarks] in Hr.
      rewrite Hr, <- app_assoc. repeat split; auto.
      constructor; [congruence|exact Hall].
    + rewrite (line_folder_close st l E), Hp. now apply IH.
    + rewrite (line_other st l E). now apply IH.
Qed.

(** C2. Whatever lines are ignored in between: when the lines of the
    text that count are a folder line for A, a bookmark, a folder line
    for B, a bookmark, two closing lines and then lines that open no
    folder, [_parse_html_bookmarks] files the bookmark inside B under
    [slug(A)/slug(B)] (the one before it under [slug(A)]) and every
    bookmark after the two closes under [unsorted]. A closing line met
    with an empty stack changes nothing: the parser returns for a text
    what it returns for the text without such a line, and the step of
    the loop leaves its state as it is. *)
Theorem folder_stack_categories :
  forall html_content la b1 lb b2 c1 c2 tail nameA nameB,
    significant (Py.split newline html_content)
    = ([la; b1; lb; b2; c1; c2] ++ tail)%list ->
    classify la = FolderOpen nameA ->
    classify b1 = BookmarkLine ->
    classify lb = FolderOpen nameB ->
    classify b2 = BookmarkLine ->
    classify c1 = FolderClose ->
    classify c2 = FolderClose ->
    forallb (fun l => negb (is_folder_open l)) tail = true ->
    (exists rest,
        categories (_parse_html_bookmarks unquote html_content)
        = slugify nameA :: (slugify nameA ++ "/" ++ slugify nameB)
            :: categories rest
        /\ Forall (fun b => b_category b = "unsorted") rest
        /\ path_parts (parse_lines unquote
                                   (Py.split newline html_content)) = [])
    /\ (forall content shorter before close after,
           Py.split newline content = (before ++ close :: after)%list ->
           Py.split newline shorter = (before ++ after)%list ->
           forallb (fun l => negb (is_folder_open l)) before = true ->
           classify close = FolderClose ->
           _parse_html_bookmarks unquote content
           = _parse_html_bookmarks unquote shorter)
    /\ (forall st line,
           classify line = FolderClose -> path_parts st = [] ->
           parse_line unquote st line = st).
Proof.
  intros html_content la b1 lb b2 c1 c2 tail nameA nameB
         Hs Ha H1 Hb H2 Hc1 Hc2 Ht.
  split; [|split].
  - unfold _parse_html_bookmarks, parse_lines.
    fold (parse_from unquote start (Py.split newline html_content)).
    rewrite run_significant, Hs. unfold parse_from.
    rewrite fold_left_app. cbn [fold_left].
    rewrite (line_folder_open _ _ _ Ha).
    destruct (line_bookmark
                {| bookmarks := bookmarks start;
                   path_parts := (path_parts start ++ [slugify nameA])%list;
                   current_category :=
                     Py.join "/" (path_parts start ++ [slugify nameA])%list |}
                b1 H1) as (x1 & -> & Hx1).
    rewrite (line_folder_open _ _ _ Hb).
    cbn [bookmarks path_parts current_category start app Py.join] in *.
    match goal with
    | |- context [parse_line unquote ?st b2] =>
        destruct (line_bookmark st b2 H2) as (x2 & -> & Hx2)
    end.
    cbn [bookmarks path_parts current_category app] in *.
    rewrite (line_folder_close _ _ Hc1).
    cbn [bookmarks path_parts current_category removelast Py.join].
    rewrite (line_folder_close _ _ Hc2).
    cbn [bookmarks path_parts current_category removelast].
    match goal with
    | |- context [fold_left (parse_line unquote) tail ?st] =>
        destruct (run_unsorted tail st eq_refl eq_refl Ht)
          as (rest & Hr & Hall & Hpp)
    end.
    unfold parse_from in Hr, Hpp. exists rest. rewrite Hr, Hpp.
    cbn [bookmarks app categories map]. rewrite Hx1, Hx2.
    repeat split; auto.
  - intros content shorter before close after Hc Hsh Hb0 Hcl.
    unfold _parse_html_bookmarks, parse_lines. rewrite Hc, Hsh.
    rewrite !fold_left_app. cbn [fold_left].
    destruct (run_unsorted before start eq_refl eq_refl Hb0)
      as (_ & _ & _ & Hpp).
    unfold parse_from in Hpp.
    now rewrite (line_folder_close _ _ Hcl), Hpp.
  - intros st line Hl Hp. now rewrite (line_folder_close st line Hl), Hp.
Qed.
End FolderStack.

(* ===================================================================== *)
(** ** The counters of an import *)
(* ===================================================================== *)

Section Counters.
Import BookmarksImporter.
Variable bookmarks_dir : string.
Variable clock : nat -> Os.datetime.
Variable unquote : string -> string.
Variable json_loads : string -> result pyval.
Variable csv_DictReader : string -> list pydict * option exn.

Lemma failure_given_up : forall entry, given_up (failure entry).
Proof. intros entry. repeat split. Qed.

Lemma tally_counts : forall results r,
  total (tally results r) = total results
  /\ success (tally results r) + failed (tally results r)
     = S (success results + failed results).
Proof.
  intros results r. unfold tally.
  destruct (succeeded r); cbn [total success failed]; split; lia.
Qed.

Lemma initial_counts : forall n,
  success (with_total n empty_results) + failed (with_total n empty_results)
    + n = total (with_total n empty_results).
Proof. intros n. reflexivity. Qed.

Section AnyLoop.
Context {I : Type}.
Variable plan : I -> imported_entry.
Variable store : world -> I -> result (write_result * world).

(** A loop that ends without raising has counted every record once,
    as a success or as a failure. *)
Lemma loop_counts : forall count dry_run records results w r' w',
  loop plan store count dry_run records results w = (Ok r', w') ->
  success results + failed results
    + (if count then 0 else List.length records) = total results ->
  counts_add_up r'.
Proof.
  intros count dry_run records.
  induction records as [|x rest IH]; intros results w r' w' Hrun Hinv.
  - cbn [loop] in Hrun. inversion Hrun; subst.
    unfold counts_add_up. destruct count; cbn [List.length] in Hinv; lia.
  - cbn [loop] in Hrun. cbn [List.length] in Hinv.
    set (results1 := if count then with_total (S (total results)) results
                     else results) in Hrun.
    assert (H1 : success results1 + failed results1
                   + (if count then 1 else S (List.length rest))
                 = total results1).
    { unfold results1.
      destruct count; cbn [with_total total success failed]; lia. }
    destruct dry_run.
    + apply IH in Hrun; [exact Hrun|].
      cbn [preview total success failed]. destruct count; lia.
    + destruct (store w x) as [[r w1]|e]; [|discriminate].
      apply IH in Hrun; [exact Hrun|].
      destruct (tally_counts results1 r) as [Ht Hs].
      rewrite Ht. destruct count; lia.
Qed.

(** A loop whose writer calls cannot raise ends without raising. *)
Lemma loop_returns : forall count dry_run records results w,
  (forall w x, exists rw, store w x = Ok rw) ->
  exists r' w',
    loop plan store count dry_run records results w = (Ok r', w').
Proof.
  intros count dry_run records results w Hstore. revert results w.
  induction records as [|x rest IH]; intros results w.
  - eexists; eexists; reflexivity.
  - cbn [loop]. destruct dry_run; [apply IH|].
    destruct (Hstore w x) as [[r w1] ->]. apply IH.
Qed.

(** A dry run never raises, leaves the world alone and counts every
    record as a success. *)
Lemma loop_dry_run : forall count records results w,
  exists r',
    loop plan store count true records results w = (Ok r', w)
    /\ success r' = success results + List.length records
    /\ total r'
       = (if count then total results + List.length records
          else total results).
Proof.
  intros count records.
  induction records as [|x rest IH]; intros results w.
  - exists results. cbn [loop List.length].
    repeat split; destruct count; lia.
  - cbn [loop].
    set (results1 := if count then with_total (S (total results)) results
                     else results).
    destruct (IH (preview results1 (plan x)) w) as (r' & Hrun & Hs & Ht).
    exists r'. split; [exact Hrun|].
    cbn [preview total success] in Hs, Ht. cbn [List.length].
    unfold results1 in *.
    destruct count; cbn [with_total total success] in *; split; lia.
Qed.

(** A loop that ends without raising has left [total] as it was, or
    has counted the records into it. *)
Lemma loop_total : forall count dry_run records results w r' w',
  loop plan store count dry_run records results w = (Ok r', w') ->
  total r' = (if count then total results + List.length records
              else total results).
Proof.
  intros count dry_run records.
  induction records as [|x rest IH]; intros results w r' w' Hrun.
  - cbn [loop] in Hrun. inversion Hrun; subst. cbn [List.length].
    destruct count; lia.
  - cbn [loop] in Hrun. cbn [List.length].
    set (results1 := if count then with_total (S (total results)) results
                     else results) in Hrun.
    assert (H1 : total results1
                 = if count then S (total results) else total results).
    { unfold results1. now destruct count. }
    destruct dry_run.
    + apply IH in Hrun. rewrite Hrun. cbn [preview total].
      rewrite H1. destruct count; lia.
    + destruct (store w x) as [[r w1]|e]; [|discriminate].
      apply IH in Hrun. rewrite Hrun.
      destruct (tally_counts results1 r) as [Ht _]. rewrite Ht, H1.
      destruct count; lia.
Qed.

Variable error_of : I -> option exn.

(** When [error_of] tells which records cannot be stored: the first of
    them ends the loop with its error. *)
Lemma loop_raises : forall count records results w e,
  (forall w0 x e0, error_of x = Some e0 -> store w0 x = Raise e0) ->
  (forall w0 x, error_of x = None -> exists rw, store w0 x = Ok rw) ->
  first_error error_of records = Some e ->
  fst (loop plan store count false records results w) = Raise e.
Proof.
  intros count records results w e Hbad Hgood. revert results w.
  induction records as [|x rest IH]; intros results w H; [discriminate|].
  cbn [first_error] in H. cbn [loop].
  destruct (error_of x) as [e0|] eqn:Ex.
  - inversion H; subst. now rewrite (Hbad w x e Ex).
  - destruct (Hgood w x Ex) as [[r w1] ->]. now apply IH.
Qed.

Lemma loop_ends : forall count dry_run records results w,
  (forall w0 x, error_of x = None -> exists rw, store w0 x = Ok rw) ->
  dry_run = true \/ first_error error_of records = None ->
  exists r' w',
    loop plan store count dry_run records results w = (Ok r', w').
Proof.
  intros count dry_run records results w Hgood. revert results w.
  induction records as [|x rest IH]; intros results w H.
  - eexists; eexists; reflexivity.
  - cbn [loop]. destruct dry_run; [apply IH; now left|].
    destruct H as [H|H]; [discriminate|]. cbn [first_error] in H.
    destruct (error_of x) as [e0|] eqn:Ex; [discriminate|].
    destruct (Hgood w x Ex) as [[r w1] ->]. apply IH. now right.
Qed.

(** The loop of an importer that has set [total] beforehand, under its
    [try]: given up at the first record that cannot be stored, else
    every record counted. *)
Lemma guarded_loop_follows : forall dry_run records w,
  (forall w0 x e0, error_of x = Some e0 -> store w0 x = Raise e0) ->
  (forall w0 x, error_of x = None -> exists rw, store w0 x = Ok rw) ->
  follows (fst (guarded
                  (loop plan store false dry_run records
                        (with_total (List.length records) empty_results)
                        w)))
          (loop_verdict error_of dry_run records).
Proof.
  intros dry_run records w Hbad Hgood. unfold loop_verdict.
  assert (Hok : dry_run = true \/ first_error error_of records = None ->
                follows (fst (guarded
                                (loop plan store false dry_run records
                                      (with_total (List.length records)
                                                  empty_results) w)))
                        (Counted (List.length records))).
  { intros H.
    destruct (loop_ends false dry_run records
                (with_total (List.length records) empty_results) w
                Hgood H) as (r' & w' & Hrun).
    rewrite Hrun. cbn [guarded fst follows]. split.
    - now rewrite (loop_total _ _ _ _ _ _ _ Hrun).
    - pose proof (loop_counts _ _ _ _ _ _ _ Hrun
                    (initial_counts (List.length records))) as C.
      unfold counts_add_up in C.
      now rewrite C, (loop_total _ _ _ _ _ _ _ Hrun). }
  destruct dry_run; [apply Hok; now left|].
  destruct (first_error error_of records) as [e|] eqn:E;
    [|apply Hok; now right].
  pose proof (loop_raises false records
                (with_total (List.length records) empty_results) w e
                Hbad Hgood E) as Hr.
  destruct (loop plan store false false records _ w) as [[r|e'] w'];
    cbn [fst] in Hr; [discriminate|].
  inversion Hr; subst. reflexivity.
Qed.
End AnyLoop.

Lemma guarded_counts : forall run,
  (forall r w, run = (Ok r, w) -> counts_add_up r) ->
  given_up (fst (guarded run)) \/ counts_add_up (fst (guarded run)).
Proof.
  intros [[r|e] w] H; cbn [guarded fst].
  - right. now apply (H r w).
  - left. apply failure_given_up.
Qed.

Lemma len_iter : forall v n records,
  PyObj.len v = Ok n -> PyObj.iter v = Ok records ->
  List.length records = n.
Proof.
  intros v n records Hn Hr.
  destruct v; try discriminate; cbn in Hn, Hr;
    inversion Hn; inversion Hr; subst; clear.
  - induction s; cbn; auto.
  - reflexivity.
  - apply length_map.
Qed.

Lemma len_items : forall v n pairs,
  PyObj.len v = Ok n -> PyObj.items v = Ok pairs ->
  List.length pairs = n.
Proof.
  intros v n pairs Hn Hp.
  destruct v; try discriminate; cbn in Hn, Hp.
  now inversion Hn; inversion Hp; subst.
Qed.

Lemma json_records_counted : forall data n records,
  (n' <- PyObj.len (json_records data) ;;
   records' <- PyObj.iter (json_records data) ;; Ok (n', records'))
  = Ok (n, records) ->
  List.length records = n.
Proof.
  intros data n records H.
  destruct (PyObj.len (json_records data)) as [n'|] eqn:En;
    cbn [bind] in H; [|discriminate].
  destruct (PyObj.iter (json_records data)) as [records'|] eqn:Er;
    cbn [bind] in H; [|discriminate].
  inversion H; subst. eapply len_iter; eauto.
Qed.

Lemma pocket_items_counted : forall file n pairs,
  (content <- file ;; data <- json_loads content ;;
   items <- pocket_items data ;;
   n' <- PyObj.len items ;;
   pairs' <- PyObj.items items ;; Ok (n', pairs')) = Ok (n, pairs) ->
  List.length pairs = n.
Proof.
  intros file n pairs H.
  destruct file as [content|]; cbn [bind] in H; [|discriminate].
  destruct (json_loads content) as [data|]; cbn [bind] in H; [|discriminate].
  destruct (pocket_items data) as [items|]; cbn [bind] in H; [|discriminate].
  destruct (PyObj.len items) as [n'|] eqn:En; cbn [bind] in H; [|discriminate].
  destruct (PyObj.items items) as [pairs'|] eqn:Ep;
    cbn [bind] in H; [|discriminate].
  inversion H; subst. eapply len_items; eauto.
Qed.

Lemma html_counts : forall file dry_run w,
  let r := fst (import_html_bookmarks bookmarks_dir clock unquote
                                      file dry_run w) in
  (given_up r \/ counts_add_up r)
  /\ (forall content, file = Ok content -> counts_add_up r).
Proof.
  intros file dry_run w. unfold import_html_bookmarks.
  destruct file as [content|e].
  - pose (bs := _parse_html_bookmarks unquote content). fold bs.
    destruct (loop_returns Parsed (store_html bookmarks_dir clock) false
                dry_run bs (with_total (List.length bs) empty_results) w)
      as (r' & w' & Hrun).
    { intros w0 x. eexists. reflexivity. }
    rewrite Hrun. cbn [guarded fst].
    assert (C : counts_add_up r').
    { eapply loop_counts; [exact Hrun|]. apply initial_counts. }
    split; [now right|now intros].
  - cbn [guarded fst].
    split; [left; apply failure_given_up|discriminate].
Qed.

Lemma json_counts : forall file dry_run w,
  let r := fst (import_json_bookmarks bookmarks_dir clock json_loads
                                      file dry_run w) in
  given_up r \/ counts_add_up r.
Proof.
  intros file dry_run w. unfold import_json_bookmarks.
  apply guarded_counts. intros r w' Hrun.
  destruct (content <- file ;; json_loads content) as [data|];
    [|discriminate].
  match type of Hrun with
  | match ?m with _ => _ end = _ => destruct m as [[n records]|] eqn:E
  end; [|discriminate].
  apply json_records_counted in E. subst n.
  eapply loop_counts; [exact Hrun|]. apply initial_counts.
Qed.

Lemma csv_counts : forall file dry_run w,
  let r := fst (import_csv_bookmarks bookmarks_dir clock csv_DictReader
                                     file dry_run w) in
  given_up r \/ counts_add_up r.
Proof.
  intros file dry_run w. unfold import_csv_bookmarks.
  apply guarded_counts. intros r w' Hrun.
  destruct file as [content|]; [|discriminate].
  destruct (csv_DictReader content) as [rows stop].
  match type of Hrun with
  | match ?m with _ => _ end = _ => destruct m as [[r1|] w1] eqn:E
  end; [|discriminate].
  destruct stop; [discriminate|]. inversion Hrun; subst.
  eapply loop_counts; [exact E|]. reflexivity.
Qed.

Lemma pocket_counts : forall file dry_run w,
  let r := fst (import_pocket_export bookmarks_dir clock json_loads
                                     file dry_run w) in
  given_up r \/ counts_add_up r.
Proof.
  intros file dry_run w. unfold import_pocket_export.
  apply guarded_counts. intros r w' Hrun.
  match type of Hrun with
  | match ?m with _ => _ end = _ => destruct m as [[n pairs]|] eqn:E
  end; [|discriminate].
  apply pocket_items_counted in E. subst n.
  eapply loop_counts; [exact Hrun|]. apply initial_counts.
Qed.

Lemma first_error_never : forall (I : Type) (records : list I),
  first_error (fun _ => None) records = None.
Proof. induction records; [reflexivity|assumption]. Qed.

Lemma first_error_of_rows : forall rows,
  first_error record_error (map PDict rows) = None.
Proof. induction rows; [reflexivity|assumption]. Qed.

Lemma record_error_raises : forall w v e,
  record_error v = Some e ->
  store_record bookmarks_dir clock w v = Raise e.
Proof.
  intros w v e H. unfold record_error in H.
  destruct v; cbn [is_dict] in H; inversion H; reflexivity.
Qed.

Lemma record_error_stores : forall w v,
  record_error v = None ->
  exists rw, store_record bookmarks_dir clock w v = Ok rw.
Proof.
  intros w v H. unfold record_error in H.
  destruct v; cbn [is_dict] in H; try discriminate.
  eexists. reflexivity.
Qed.

Lemma item_error_raises : forall w entry e,
  item_error entry = Some e ->
  store_pocket bookmarks_dir clock w entry = Raise e.
Proof.
  intros w [k item] e H. unfold item_error in H. cbn [snd] in H.
  unfold store_pocket, pocket_tags. cbn [snd].
  destruct item as [| | | |s|l|d]; cbn [PyObj.contains bind];
    try (inversion H; reflexivity).
  - destruct (Py.contains "tags" s); inversion H; reflexivity.
  - destruct (existsb (PyObj.is_str "tags") l); inversion H; reflexivity.
  - unfold PyObj.has_key. cbn [PyObj.getitem].
    destruct (PyObj.lookup "tags" d) as [t|]; [|discriminate].
    cbn [bind]. destruct (PyObj.truthy t); [|discriminate].
    destruct t; cbn [is_dict andb negb] in H; inversion H; reflexivity.
Qed.

Lemma item_error_stores : forall w entry,
  item_error entry = None ->
  exists rw, store_pocket bookmarks_dir clock w entry = Ok rw.
Proof.
  intros w [k item] H. unfold item_error in H. cbn [snd] in H.
  unfold store_pocket, pocket_tags. cbn [snd].
  destruct item as [| | | |s|l|d]; try discriminate.
  - destruct (Py.contains "tags" s); discriminate.
  - destruct (existsb (PyObj.is_str "tags") l); discriminate.
  - cbn [PyObj.contains bind]. unfold PyObj.has_key. cbn [PyObj.getitem].
    destruct (PyObj.lookup "tags" d) as [t|]; cbn [bind];
      [|eexists; reflexivity].
    destruct (PyObj.truthy t); [|eexists; reflexivity].
    destruct t; cbn [is_dict andb negb] in H; try discriminate.
    eexists. reflexivity.
Qed.

Lemma iter_len : forall v records,
  PyObj.iter v = Ok records -> PyObj.len v = Ok (List.length records).
Proof.
  intros v records H.
  destruct v; try discriminate; cbn in H; inversion H; subst; cbn.
  - f_equal. induction s; cbn; auto.
  - reflexivity.
  - now rewrite length_map.
Qed.

Lemma iter_raise_len : forall v e,
  PyObj.iter v = Raise e -> PyObj.len v = Raise e.
Proof.
  intros v e H.
  destruct v; try discriminate; cbn in *; now inversion H.
Qed.

Lemma html_follows : forall file dry_run w,
  follows (fst (import_html_bookmarks bookmarks_dir clock unquote
                                      file dry_run w))
          (html_verdict unquote file).
Proof.
  intros file dry_run w. unfold import_html_bookmarks, html_verdict.
  destruct file as [content|e]; [|reflexivity].
  pose proof (guarded_loop_follows
                Parsed (store_html bookmarks_dir clock) (fun _ => None)
                dry_run (_parse_html_bookmarks unquote content) w) as H.
  unfold loop_verdict in H. rewrite first_error_never in H.
  destruct dry_run; apply H; try discriminate;
    intros w0 x _; eexists; reflexivity.
Qed.

Lemma json_follows : forall file dry_run w,
  follows (fst (import_json_bookmarks bookmarks_dir clock json_loads
                                      file dry_run w))
          (json_verdict json_loads file dry_run).
Proof.
  intros file dry_run w. unfold import_json_bookmarks, json_verdict.
  destruct file as [content|e]; cbn [bind]; [|reflexivity].
  destruct (json_loads content) as [data|e]; [|reflexivity].
  destruct (PyObj.iter (json_records data)) as [records|e] eqn:Ei.
  - rewrite (iter_len _ _ Ei). cbn [bind].
    apply guarded_loop_follows.
    + apply record_error_raises.
    + apply record_error_stores.
  - rewrite (iter_raise_len _ _ Ei). reflexivity.
Qed.

Lemma csv_follows : forall file dry_run w,
  follows (fst (import_csv_bookmarks bookmarks_dir clock csv_DictReader
                                     file dry_run w))
          (csv_verdict csv_DictReader file).
Proof.
  intros file dry_run w. unfold import_csv_bookmarks, csv_verdict.
  destruct file as [content|e]; [|reflexivity].
  destruct (csv_DictReader content) as [rows stop].
  destruct (loop_ends Raw (store_record bookmarks_dir clock) record_error
              true dry_run (map PDict rows) empty_results w)
    as (r' & w' & Hrun).
  { intros w0 x. apply record_error_stores. }
  { right. apply first_error_of_rows. }
  rewrite Hrun. destruct stop as [e|]; [reflexivity|].
  cbn [guarded fst follows].
  pose proof (loop_total _ _ _ _ _ _ _ _ _ Hrun) as Ht.
  pose proof (loop_counts _ _ _ _ _ _ _ _ _ Hrun eq_refl) as C.
  unfold counts_add_up in C. rewrite length_map in Ht. cbn in Ht.
  split; [exact Ht|now rewrite C].
Qed.

Lemma pocket_follows : forall file dry_run w,
  follows (fst (import_pocket_export bookmarks_dir clock json_loads
                                     file dry_run w))
          (pocket_verdict json_loads file dry_run).
Proof.
  intros file dry_run w. unfold import_pocket_export, pocket_verdict.
  destruct file as [content|e]; cbn [bind]; [|reflexivity].
  destruct (json_loads content) as [data|e]; cbn [bind]; [|reflexivity].
  destruct (pocket_items data) as [items|e]; cbn [bind]; [|reflexivity].
  destruct (PyObj.len items) as [n|e] eqn:En; cbn [bind]; [|reflexivity].
  destruct (PyObj.items items) as [pairs|e] eqn:Ep; cbn [bind];
    [|reflexivity].
  rewrite <- (len_items _ _ _ En Ep).
  apply guarded_loop_follows.
  - apply item_error_raises.
  - apply item_error_stores.
Qed.

(** C1, as amended. Each of the four importers, and [import_file] over
    them, returns a result whose counters add up, [success + failed =
    total], unless the import was given up: then the result is [total =
    0, success = 0, failed = 1] with one error entry. When an import is
    given up is told by its verdict. The HTML importer gives up on a
    file it cannot read, and only then. The JSON importer gives up on a
    file it cannot read, on a text that is no JSON, on records that
    cannot be gone through and, unless it is a dry run, on the first
    record that is no object. The CSV importer gives up on a file it
    cannot read and on an error of the reader. The Pocket importer gives
    up on a file it cannot read, on a text that is no JSON, on a
    document or a list that is no object and, unless it is a dry run, on
    the first item that cannot be stored. [import_file] gives up on a
    path that does not exist and on a format that is none of the four,
    and answers as the importer of the format otherwise. In every other
    case [total] is the number of records and the counters add up. *)
Theorem import_counts : forall file_path file format dry_run w,
  let html := fst (import_html_bookmarks bookmarks_dir clock unquote
                                         (text file) dry_run w) in
  let json := fst (import_json_bookmarks bookmarks_dir clock json_loads
                                         (text file) dry_run w) in
  let csv := fst (import_csv_bookmarks bookmarks_dir clock csv_DictReader
                                       (text file) dry_run w) in
  let pocket := fst (import_pocket_export bookmarks_dir clock json_loads
                                          (text file) dry_run w) in
  let whole := fst (import_file bookmarks_dir clock unquote json_loads
                                csv_DictReader file_path file format
                                dry_run w) in
  (given_up html \/ counts_add_up html)
  /\ (given_up json \/ counts_add_up json)
  /\ (given_up csv \/ counts_add_up csv)
  /\ (given_up pocket \/ counts_add_up pocket)
  /\ (given_up whole \/ counts_add_up whole)
  /\ (forall content, text file = Ok content -> counts_add_up html)
  /\ follows html (html_verdict unquote (text file))
  /\ follows json (json_verdict json_loads (text file) dry_run)
  /\ follows csv (csv_verdict csv_DictReader (text file))
  /\ follows pocket (pocket_verdict json_loads (text file) dry_run)
  /\ follows whole (file_verdict unquote json_loads csv_DictReader
                                 file_path file format dry_run).
Proof.
  intros file_path file format dry_run w.
  pose proof (html_counts (text file) dry_run w) as [Hh Hh'].
  pose proof (json_counts (text file) dry_run w) as Hj.
  pose proof (csv_counts (text file) dry_run w) as Hc.
  pose proof (pocket_counts (text file) dry_run w) as Hp.
  pose proof (html_follows (text file) dry_run w) as Fh.
  pose proof (json_follows (text file) dry_run w) as Fj.
  pose proof (csv_follows (text file) dry_run w) as Fc.
  pose proof (pocket_follows (text file) dry_run w) as Fp.
  cbv zeta in *. repeat split; auto.
  - unfold import_file.
    destruct (negb (present file)); [left; apply failure_given_up|].
    match goal with
    | |- context [String.eqb ?g "html"] => generalize g; intros f
    end.
    destruct (String.eqb f "html"); [exact Hh|].
    destruct (String.eqb f "json"); [exact Hj|].
    destruct (String.eqb f "csv"); [exact Hc|].
    destruct (String.eqb f "pocket"); [exact Hp|].
    left. apply failure_given_up.
  - unfold import_file, file_verdict.
    destruct (negb (present file)); [reflexivity|].
    change (match format with
            | Some f0 =>
                if Py.nonempty f0 then f0
                else detect_file_format json_loads (sample file)
            | None => detect_file_format json_loads (sample file)
            end) with (chosen_format json_loads file format).
    generalize (chosen_format json_loads file format). intros f.
    destruct (String.eqb f "html"); [exact Fh|].
    destruct (String.eqb f "json"); [exact Fj|].
    destruct (String.eqb f "csv"); [exact Fc|].
    destruct (String.eqb f "pocket"); [exact Fp|].
    reflexivity.
Qed.

(** C7. A dry run of any of the four importers, or of [import_file],
    leaves the bookmark tree as it was and reports [success = total];
    this holds for every input, so in particular when all records are
    well formed. *)
Theorem dry_run_creates_nothing : forall file_path file format w,
  let html := import_html_bookmarks bookmarks_dir clock unquote
                                    (text file) true w in
  let json := import_json_bookmarks bookmarks_dir clock json_loads
                                    (text file) true w in
  let csv := import_csv_bookmarks bookmarks_dir clock csv_DictReader
                                  (text file) true w in
  let pocket := import_pocket_export bookmarks_dir clock json_loads
                                     (text file) true w in
  let whole := import_file bookmarks_dir clock unquote json_loads
                           csv_DictReader file_path file format true w in
  (snd html = w /\ success (fst html) = total (fst html))
  /\ (snd json = w /\ success (fst json) = total (fst json))
  /\ (snd csv = w /\ success (fst csv) = total (fst csv))
  /\ (snd pocket = w /\ success (fst pocket) = total (fst pocket))
  /\ (snd whole = w /\ success (fst whole) = total (fst whole)).
Proof.
  intros file_path file format w.
  assert (Hh : let html := import_html_bookmarks bookmarks_dir clock unquote
                             (text file) true w in
               snd html = w /\ success (fst html) = total (fst html)).
  { unfold import_html_bookmarks.
    destruct (text file) as [content|e]; [|split; reflexivity].
    pose (bs := _parse_html_bookmarks unquote content). fold bs.
    destruct (loop_dry_run Parsed (store_html bookmarks_dir clock) false bs
                (with_total (List.length bs) empty_results) w)
      as (r' & -> & Hs & Ht).
    cbn [guarded fst snd]. split; [reflexivity|].
    rewrite Hs, Ht. reflexivity. }
  assert (Hj : let json := import_json_bookmarks bookmarks_dir clock
                             json_loads (text file) true w in
               snd json = w /\ success (fst json) = total (fst json)).
  { unfold import_json_bookmarks.
    destruct (content <- text file ;; json_loads content) as [data|];
      [|split; reflexivity].
    match goal with
    | |- context [match ?m with Ok _ => _ | Raise _ => _ end] =>
        destruct m as [[n records]|] eqn:E
    end; [|split; reflexivity].
    apply json_records_counted in E. subst n.
    destruct (loop_dry_run Raw (store_record bookmarks_dir clock) false
                records
                (with_total (List.length records) empty_results) w)
      as (r' & -> & Hs & Ht).
    cbn [guarded fst snd]. split; [reflexivity|].
    rewrite Hs, Ht. reflexivity. }
  assert (Hc : let csv := import_csv_bookmarks bookmarks_dir clock
                            csv_DictReader (text file) true w in
               snd csv = w /\ success (fst csv) = total (fst csv)).
  { unfold import_csv_bookmarks.
    destruct (text file) as [content|]; [|split; reflexivity].
    destruct (csv_DictReader content) as [rows stop].
    destruct (loop_dry_run Raw (store_record bookmarks_dir clock) true
                (map PDict rows) empty_results w)
      as (r' & -> & Hs & Ht).
    destruct stop; cbn [guarded fst snd]; [split; reflexivity|].
    split; [reflexivity|]. rewrite Hs, Ht. reflexivity. }
  assert (Hp : let pocket := import_pocket_export bookmarks_dir clock
                               json_loads (text file) true w in
               snd pocket = w /\ success (fst pocket) = total (fst pocket)).
  { unfold import_pocket_export.
    match goal with
    | |- context [match ?m with Ok _ => _ | Raise _ => _ end] =>
        destruct m as [[n pairs]|] eqn:E
    end; [|split; reflexivity].
    apply pocket_items_counted in E. subst n.
    destruct (loop_dry_run (fun entry => Raw (snd entry))
                (store_pocket bookmarks_dir clock) false pairs
                (with_total (List.length pairs) empty_results) w)
      as (r' & -> & Hs & Ht).
    cbn [guarded fst snd]. split; [reflexivity|].
    rewrite Hs, Ht. reflexivity. }
  cbv zeta in *. repeat split; try tauto; unfold import_file;
    (destruct (negb (present file)); [reflexivity|]);
    match goal with
    | |- context [String.eqb ?g "html"] => generalize g; intros f
    end;
    (destruct (String.eqb f "html"); [tauto|]);
    (destruct (String.eqb f "json"); [tauto|]);
    (destruct (String.eqb f "csv"); [tauto|]);
    (destruct (String.eqb f "pocket"); [tauto|]); reflexivity.
Qed.
End Counters.

(* ===================================================================== *)
(** ** The file tree *)
(* ===================================================================== *)

Lemma find_put_same : forall k n fs, Os.find k (Os.put k n fs) = Some n.
Proof.
  intros k n fs. induction fs as [|[q m] fs IH]; cbn [Os.put Os.find].
  - now rewrite String.eqb_refl.
  - destruct (String.eqb q k) eqn:E; cbn [Os.find]; now rewrite E.
Qed.

Lemma find_put_other : forall k k' n fs,
  k <> k' -> Os.find k' (Os.put k n fs) = Os.find k' fs.
Proof.
  intros k k' n fs Hk. induction fs as [|[q m] fs IH]; cbn [Os.put Os.find].
  - destruct (String.eqb k k') eqn:E; [|reflexivity].
    apply String.eqb_eq in E. contradiction.
  - destruct (String.eqb q k) eqn:E; cbn [Os.find].
    + apply String.eqb_eq in E. subst q.
      destruct (String.eqb k k') eqn:E'; [|reflexivity].
      apply String.eqb_eq in E'. contradiction.
    + now rewrite IH.
Qed.

(** Making directories adds entries and changes none. *)
Lemma mkdir_chain_keeps : forall ds fs k n,
  Os.find k fs = Some n -> Os.find k (fst (Os.mkdir_chain fs ds)) = Some n.
Proof.
  induction ds as [|d ds IH]; intros fs k n H; [exact H|].
  cbn [Os.mkdir_chain]. destruct (Os.find d fs) as [[c|]|] eqn:E.
  - exact H.
  - now apply IH.
  - apply IH. rewrite find_put_other; [exact H|].
    intros ->. congruence.
Qed.

Lemma makedirs_keeps : forall fs p k n,
  Os.find k fs = Some n -> Os.find k (fst (Os.makedirs fs p)) = Some n.
Proof. intros. now apply mkdir_chain_keeps. Qed.

(** What a new entry of a made chain is: one of the chain. *)
Lemma mkdir_chain_new : forall ds fs k,
  Os.find k fs = None ->
  Os.find k (fst (Os.mkdir_chain fs ds)) <> None -> In k ds.
Proof.
  induction ds as [|d ds IH]; intros fs k Hk Hn; [contradiction|].
  cbn [Os.mkdir_chain] in Hn. destruct (Os.find d fs) as [[c|]|] eqn:E.
  - contradiction.
  - right. now apply (IH fs).
  - destruct (string_dec d k) as [->|Hd]; [now left|right].
    apply (IH (Os.put d Os.Dir fs)); [|exact Hn].
    now rewrite find_put_other.
Qed.

Lemma rstrip_by_length : forall p s,
  String.length (Py.rstrip_by p s) <= String.length s.
Proof.
  intros p s. induction s as [|c s IH]; [apply Nat.le_refl|].
  cbn [Py.rstrip_by].
  destruct (Py.rstrip_by p s); [destruct (p c)|]; cbn [String.length] in *; lia.
Qed.

Lemma key_length : forall p, String.length (Os.key p) <= String.length p.
Proof. intros p. apply rstrip_by_length. Qed.

Lemma append_length : forall a b,
  String.length (a ++ b) = String.length a + String.length b.
Proof. induction a as [|c a IH]; intros b; cbn; [reflexivity|now rewrite IH]. Qed.

Lemma chain_length : forall rest acc k,
  In k (Os.chain acc rest) ->
  String.length k <= String.length acc + String.length rest.
Proof.
  induction rest as [|c rest IH]; intros acc k H.
  - cbn [Os.chain] in H. destruct (Py.nonempty (Os.key acc)); [|contradiction].
    destruct H as [<-|[]]. pose proof (key_length acc). cbn. lia.
  - cbn [Os.chain] in H. destruct (Ascii.eqb c "/").
    + apply in_app_or in H as [H|H].
      * destruct (Py.nonempty (Os.key acc)); [|contradiction].
        destruct H as [<-|[]]. pose proof (key_length acc). cbn. lia.
      * apply IH in H. rewrite append_length in H. cbn in *. lia.
    + apply IH in H. rewrite append_length in H. cbn in *. lia.
Qed.

(** A path that ends in [.md] is its own key. *)
Lemma rstrip_md : forall p x, Py.mem_char "d" p = false ->
  Py.rstrip_by (fun c => Py.mem_char c p) (x ++ ".md") = x ++ ".md".
Proof.
  intros p x Hp. induction x as [|c x IH].
  - cbn. now rewrite Hp.
  - cbn [String.append Py.rstrip_by]. rewrite IH.
    destruct x; reflexivity.
Qed.

Lemma key_md : forall x, Os.key (x ++ ".md") = x ++ ".md".
Proof. intros x. unfold Os.key, Py.rstrip_chars. now apply rstrip_md. Qed.

Lemma append_assoc : forall a b c : string, (a ++ b) ++ c = a ++ (b ++ c).
Proof. induction a as [|x a IH]; intros b c; cbn; [reflexivity|now rewrite IH]. Qed.

(** Joining a directory and a relative name puts a fixed prefix before the
    name. *)
Lemma path_join_relative : forall a b,
  Py.startswith b "/" = false ->
  exists pre, Os.path_join a b = pre ++ b
              /\ String.length a <= String.length pre
              /\ (forall b', Py.startswith b' "/" = false ->
                             Os.path_join a b' = pre ++ b').
Proof.
  intros a b Hb. unfold Os.path_join. rewrite Hb.
  destruct (negb (Py.nonempty a) || Py.endswith a "/").
  - exists a. repeat split; [lia|]. intros b' ->. reflexivity.
  - exists (a ++ "/"). rewrite append_assoc. repeat split.
    + rewrite append_length. lia.
    + intros b' ->. now rewrite append_assoc.
Qed.

(* ===================================================================== *)
(** ** The file writer of the importer *)
(* ===================================================================== *)

Section WriterFacts.
Import BookmarksImporter.
Variable bookmarks_dir : string.

Lemma alnum_not_slash : forall c, alnum c = true -> Ascii.eqb c "/" = false.
Proof. intros c; each_char c. Qed.

Lemma slug_name_relative : forall x rest,
  Py.startswith rest "/" = false ->
  Py.startswith (slugify x ++ rest) "/" = false.
Proof.
  intros x rest Hr. destruct (importer_slug_shape x) as [E|S].
  - now rewrite E.
  - destruct (slugify x) as [|c s]; [discriminate|].
    unfold slug_shape in S. rewrite slug_shape_cons in S.
    destruct (Ascii.eqb c "-") eqn:E; [discriminate|].
    apply andb_prop in S as [Hc _]. apply alnum_not_slash in Hc.
    unfold Py.startswith. cbn [String.append Py.starts].
    rewrite Ascii.eqb_sym, Hc. reflexivity.
Qed.

(** The two candidate paths lie under the same prefix. *)
Lemma paths_share_prefix : forall category title now,
  exists pre,
    plain_path bookmarks_dir category title
    = pre ++ slugify (sanitize_filename title) ++ ".md"
    /\ stamped_path bookmarks_dir category title now
       = pre ++ slugify (sanitize_filename title) ++ "_"
             ++ Os.strftime now ++ ".md"
    /\ String.length (category_dir bookmarks_dir category)
       <= String.length pre.
Proof.
  intros category title now. unfold plain_path, stamped_path.
  destruct (path_join_relative (category_dir bookmarks_dir category)
              (slugify (sanitize_filename title) ++ ".md"))
    as (pre & Hp & Hl & Hall); [now apply slug_name_relative|].
  exists pre. repeat split; [exact Hp| |exact Hl].
  apply Hall. now apply slug_name_relative.
Qed.

Lemma append_inj_l : forall a b c : string, a ++ b = a ++ c -> b = c.
Proof.
  induction a as [|x a IH]; intros b c H; [exact H|].
  cbn in H. inversion H. now apply IH.
Qed.

Lemma plain_not_stamped : forall category title now,
  plain_path bookmarks_dir category title
  <> stamped_path bookmarks_dir category title now.
Proof.
  intros category title now H.
  destruct (paths_share_prefix category title now) as (pre & Hp & Hs & _).
  rewrite Hp, Hs in H. apply append_inj_l, append_inj_l in H.
  apply (f_equal String.length) in H.
  rewrite !append_length in H. cbn in H. lia.
Qed.

Lemma plain_key : forall category title,
  Os.key (plain_path bookmarks_dir category title)
  = plain_path bookmarks_dir category title.
Proof.
  intros category title.
  destruct (paths_share_prefix category title noon) as (pre & -> & _).
  rewrite <- append_assoc. apply key_md.
Qed.

Lemma stamped_key : forall category title now,
  Os.key (stamped_path bookmarks_dir category title now)
  = stamped_path bookmarks_dir category title now.
Proof.
  intros category title now.
  destruct (paths_share_prefix category title now) as (pre & _ & -> & _).
  rewrite <- !append_assoc. apply key_md.
Qed.

(** No directory on the way to the category is the plain path. *)
Lemma plain_not_in_chain : forall category title,
  ~ In (plain_path bookmarks_dir category title)
       (Os.chain EmptyString (category_dir bookmarks_dir category)).
Proof.
  intros category title H. apply chain_length in H.
  destruct (paths_share_prefix category title noon) as (pre & Hp & _ & Hl).
  rewrite Hp, !append_length in H. cbn in H. lia.
Qed.

(** What a successful call did. *)
Lemma created_inversion :
  forall fs now title uri category tags add_date last_modified
         p t u c g fs',
    create_bookmark_file bookmarks_dir fs now title uri category tags
                         add_date last_modified
    = (Created p t u c g, fs') ->
    strip_or title "Untitled" = Ok t
    /\ strip_or uri EmptyString = Ok u
    /\ strip_or category "unsorted" = Ok c
    /\ strip_or tags EmptyString = Ok g
    /\ exists fs1,
        Os.makedirs fs (category_dir bookmarks_dir c) = (fs1, None)
        /\ p = (if Os.path_exists fs1 (plain_path bookmarks_dir c t)
                then stamped_path bookmarks_dir c t now
                else plain_path bookmarks_dir c t)
        /\ Os.write_file fs1 p (file_text t u g add_date last_modified)
           = Ok fs'.
Proof.
  intros fs now title uri category tags add_date last_modified
         p t u c g fs' H.
  unfold create_bookmark_file in H.
  destruct (strip_or title "Untitled") as [t'|]; [|discriminate].
  destruct (strip_or uri EmptyString) as [u'|]; [|discriminate].
  destruct (strip_or category "unsorted") as [c'|]; [|discriminate].
  destruct (strip_or tags EmptyString) as [g'|]; [|discriminate].
  destruct (Os.makedirs fs (category_dir bookmarks_dir c'))
    as [fs1 [e|]] eqn:Em; [discriminate|].
  match type of H with
  | match ?m with _ => _ end = _ => destruct m as [fs2|] eqn:Ew
  end; [|discriminate].
  inversion H; subst. repeat split; try reflexivity.
  exists fs1. repeat split; auto.
Qed.

Lemma write_file_result : forall fs p content fs',
  Os.write_file fs p content = Ok fs' ->
  fs' = Os.put (Os.key p) (Os.File content) fs.
Proof.
  intros fs p content fs' H. unfold Os.write_file in H.
  destruct (Os.find (Os.key p) fs) as [[x|]|];
    try discriminate;
    destruct (Py.nonempty (Os.key (Os.dirname p))
              && negb (Os.isdir fs (Os.dirname p)));
    try discriminate; now inversion H.
Qed.

Lemma written_is_read : forall fs p content fs',
  Os.write_file fs p content = Ok fs' -> Os.read_file fs' p = Ok content.
Proof.
  intros fs p content fs' H. apply write_file_result in H. subst fs'.
  unfold Os.read_file. now rewrite find_put_same.
Qed.

Lemma exists_after_makedirs : forall fs p q,
  Os.path_exists fs q = true ->
  Os.path_exists (fst (Os.makedirs fs p)) q = true.
Proof.
  intros fs p q H. unfold Os.path_exists in *.
  destruct (Os.find (Os.key q) fs) as [n|] eqn:E; [|discriminate].
  now rewrite (makedirs_keeps fs p _ n E).
Qed.

Lemma exists_after_write : forall fs p content fs' q,
  Os.write_file fs p content = Ok fs' ->
  Os.path_exists fs q = true -> Os.path_exists fs' q = true.
Proof.
  intros fs p content fs' q H Hq. apply write_file_result in H. subst fs'.
  unfold Os.path_exists in *.
  destruct (string_dec (Os.key p) (Os.key q)) as [E|E].
  - rewrite <- E. now rewrite find_put_same.
  - now rewrite find_put_other.
Qed.

(** A successful call leaves the plain path taken. *)
Lemma created_takes_plain :
  forall fs now title uri category tags add_date last_modified
         p t u c g fs',
    create_bookmark_file bookmarks_dir fs now title uri category tags
                         add_date last_modified
    = (Created p t u c g, fs') ->
    Os.path_exists fs' (plain_path bookmarks_dir c t) = true.
Proof.
  intros fs now title uri category tags add_date last_modified
         p t u c g fs' H.
  apply created_inversion in H
    as (_ & _ & _ & _ & fs1 & Hm & Hp & Hw).
  destruct (Os.path_exists fs1 (plain_path bookmarks_dir c t)) eqn:E.
  - eapply exists_after_write; eauto.
  - subst p. apply write_file_result in Hw. subst fs'.
    unfold Os.path_exists. now rewrite find_put_same.
Qed.

Lemma plain_free_after_makedirs : forall fs c t fs1,
  Os.path_exists fs (plain_path bookmarks_dir c t) = false ->
  Os.makedirs fs (category_dir bookmarks_dir c) = (fs1, None) ->
  Os.path_exists fs1 (plain_path bookmarks_dir c t) = false.
Proof.
  intros fs c t fs1 Hfree Hm. unfold Os.path_exists in *.
  rewrite plain_key in *.
  destruct (Os.find (plain_path bookmarks_dir c t) fs) eqn:E;
    [discriminate|].
  destruct (Os.find (plain_path bookmarks_dir c t) fs1) eqn:E1;
    [|reflexivity].
  exfalso. apply (plain_not_in_chain c t).
  apply (mkdir_chain_new _ fs); [exact E|].
  unfold Os.makedirs in Hm. rewrite Hm. cbn [fst]. congruence.
Qed.

Lemma digit_is_digit : forall n,
  is_digit_string (Os.digit n) = true.
Proof.
  intros n. unfold Os.digit, is_digit_string. cbn [all_chars].
  rewrite andb_true_r.
  pose proof (Nat.mod_upper_bound n 10 ltac:(lia)) as H.
  destruct (n mod 10) as [|[|[|[|[|[|[|[|[|[|k]]]]]]]]]];
    try reflexivity; lia.
Qed.

Lemma digit_length : forall n, String.length (Os.digit n) = 1.
Proof. reflexivity. Qed.

Lemma digit_char : forall n,
  exists c, Os.digit n = String c EmptyString /\ Py.is_digit c = true.
Proof.
  intros n. pose proof (digit_is_digit n) as H. unfold Os.digit in *.
  eexists. split; [reflexivity|].
  unfold is_digit_string in H. cbn [all_chars] in H.
  now apply andb_prop in H as [H _].
Qed.

(** The suffix the second name carries has the form [_YYYYMMDD_HHMMSS]. *)
Lemma stamp_suffix_shape : forall now,
  is_stamp_suffix ("_" ++ Os.strftime now) = true.
Proof.
  intros now. unfold Os.strftime, Os.fmt4, Os.fmt2.
  repeat match goal with
         | |- context [Os.digit ?n] =>
             let c := fresh "c" in
             let E := fresh "E" in
             let D := fresh "D" in
             destruct (digit_char n) as (c & E & D); rewrite E; clear E
         end.
  cbn. repeat match goal with D : Py.is_digit _ = true |- _ =>
                rewrite D; clear D end.
  reflexivity.
Qed.

(** C5, as amended. Two bookmarks with the same title and category,
    written one after the other: the second file is named by the slug
    followed by a stamp of the form [_YYYYMMDD_HHMMSS]; when the plain
    name was free before the first write, the first file has the plain
    name, the two paths differ and both files are in the tree, each with
    its own text. A write that finds the plain name taken uses the
    stamped name whether or not that one exists too: it tries no third
    name, returns the usual record, and the file of that name holds the
    new text. So when the plain name was taken before the first write,
    both files are stamped, and two writes within the same second give
    one path and leave one file, which holds the second text. *)
Theorem collision_gets_timestamp :
  forall fs now1 now2 title category
         uri1 tags1 add1 mod1 uri2 tags2 add2 mod2
         p1 t u1 c g1 fs1 p2 t2 u2 c2 g2 fs2,
    create_bookmark_file bookmarks_dir fs now1 title uri1 category tags1
                         add1 mod1
    = (Created p1 t u1 c g1, fs1) ->
    create_bookmark_file bookmarks_dir fs1 now2 title uri2 category tags2
                         add2 mod2
    = (Created p2 t2 u2 c2 g2, fs2) ->
    (p2 = Os.path_join (category_dir bookmarks_dir c)
                       (slugify (sanitize_filename t)
                          ++ ("_" ++ Os.strftime now2) ++ ".md")
     /\ is_stamp_suffix ("_" ++ Os.strftime now2) = true)
    /\ (Os.path_exists fs (plain_path bookmarks_dir c t) = false ->
        p1 = plain_path bookmarks_dir c t
        /\ p1 <> p2
        /\ Os.read_file fs2 p1 = Ok (file_text t u1 g1 add1 mod1)
        /\ Os.read_file fs2 p2 = Ok (file_text t u2 g2 add2 mod2))
    /\ (forall fs0 now0 uri0 tags0 add0 mod0 p0 u0 g0 fs0',
           create_bookmark_file bookmarks_dir fs0 now0 title uri0 category
                                tags0 add0 mod0
           = (Created p0 t u0 c g0, fs0') ->
           Os.path_exists fs0 (plain_path bookmarks_dir c t) = true ->
           p0 = stamped_path bookmarks_dir c t now0
           /\ Os.read_file fs0' p0 = Ok (file_text t u0 g0 add0 mod0))
    /\ (Os.path_exists fs (plain_path bookmarks_dir c t) = true ->
        p1 = stamped_path bookmarks_dir c t now1
        /\ p2 = stamped_path bookmarks_dir c t now2
        /\ (Os.strftime now1 = Os.strftime now2 ->
            p1 = p2
            /\ Os.read_file fs2 p1 = Ok (file_text t u2 g2 add2 mod2))).
Proof.
  intros fs now1 now2 title category
         uri1 tags1 add1 mod1 uri2 tags2 add2 mod2
         p1 t u1 c g1 fs1 p2 t2 u2 c2 g2 fs2 H1 H2.
  pose proof (created_takes_plain _ _ _ _ _ _ _ _ _ _ _ _ _ _ H1) as Htaken.
  apply created_inversion in H1
    as (Ht & _ & Hc & _ & fsa & Hma & Hp1 & Hw1).
  apply created_inversion in H2
    as (Ht2 & _ & Hc2 & _ & fsb & Hmb & Hp2 & Hw2).
  assert (t2 = t) by congruence. assert (c2 = c) by congruence. subst t2 c2.
  assert (Eb : Os.path_exists fsb (plain_path bookmarks_dir c t) = true).
  { pose proof (exists_after_makedirs fs1 (category_dir bookmarks_dir c)
                  _ Htaken) as E.
    now rewrite Hmb in E. }
  rewrite Eb in Hp2.
  split; [|split; [|split]].
  - split; [|apply stamp_suffix_shape].
    rewrite Hp2. unfold stamped_path. now rewrite <- !append_assoc.
  - intros Hfree.
    rewrite (plain_free_after_makedirs fs c t fsa Hfree Hma) in Hp1.
    assert (Hne : p1 <> p2).
    { rewrite Hp1, Hp2. apply plain_not_stamped. }
    repeat split; [exact Hp1|exact Hne| |].
    + apply write_file_result in Hw2. subst fs2. unfold Os.read_file.
      assert (Hk : Os.key p2 <> Os.key p1).
      { rewrite Hp1, Hp2, plain_key, stamped_key.
        intros E. symmetry in E. revert E. apply plain_not_stamped. }
      rewrite find_put_other by exact Hk.
      apply written_is_read in Hw1. unfold Os.read_file in Hw1.
      destruct (Os.find (Os.key p1) fs1) as [[x|]|] eqn:E1;
        try discriminate.
      pose proof (makedirs_keeps fs1 (category_dir bookmarks_dir c) _ _ E1)
        as K.
      rewrite Hmb in K. cbn [fst] in K. now rewrite K.
    + now apply written_is_read in Hw2.
  - intros fs0 now0 uri0 tags0 add0 mod0 p0 u0 g0 fs0' H0 Hex.
    apply created_inversion in H0
      as (_ & _ & _ & _ & fsc & Hmc & Hp0 & Hw0).
    pose proof (exists_after_makedirs fs0 (category_dir bookmarks_dir c)
                  _ Hex) as E.
    rewrite Hmc in E. cbn [fst] in E. rewrite E in Hp0.
    split; [exact Hp0|]. now apply written_is_read in Hw0.
  - intros Hex.
    pose proof (exists_after_makedirs fs (category_dir bookmarks_dir c)
                  _ Hex) as E.
    rewrite Hma in E. cbn [fst] in E. rewrite E in Hp1.
    split; [exact Hp1|]. split; [exact Hp2|].
    intros Hsame.
    assert (Epath : p1 = p2).
    { rewrite Hp1, Hp2. unfold stamped_path. now rewrite Hsame. }
    split; [exact Epath|].
    rewrite Epath. now apply written_is_read in Hw2.
Qed.

Lemma strip_or_missing : forall x default,
  PyObj.truthy x = false -> strip_or x default = Ok default.
Proof. intros x default H. unfold strip_or. now rewrite H. Qed.


(** A title that is missing or empty is replaced by [Untitled]. *)
Lemma missing_title_is_untitled :
  forall fs now title uri category tags add_date last_modified
         p t u c g fs',
    create_bookmark_file bookmarks_dir fs now title uri category tags
                         add_date last_modified
    = (Created p t u c g, fs') ->
    PyObj.truthy title = false ->
    t = "Untitled"
    /\ Os.read_file fs' p = Ok (file_text "Untitled" u g add_date last_modified).
Proof.
  intros fs now title uri category tags add_date last_modified
         p t u c g fs' H Hf.
  apply created_inversion in H as (Ht & _ & _ & _ & fs1 & _ & _ & Hw).
  rewrite strip_or_missing in Ht by exact Hf. inversion Ht; subst t.
  split; [reflexivity|]. now apply written_is_read in Hw.
Qed.
End WriterFacts.

(* ===================================================================== *)
(** ** The format detector *)
(* ===================================================================== *)

Section Detector.
Import BookmarksImporter.

Lemma lower_newline : forall c,
  Ascii.eqb (Py.lower_char c) newline = Ascii.eqb c newline.
Proof. intros c; each_char c. Qed.

Lemma lower_drop : forall n s, Py.lower (Py.drop n s) = Py.drop n (Py.lower s).
Proof.
  induction n as [|n IH]; intros s; [now destruct s|].
  destruct s as [|c s]; [reflexivity|]. cbn. apply IH.
Qed.

(** A literal word under [re.IGNORECASE] matches the lower-cased text. *)
Lemma literal_ignoring_case :
  forall (A : Type) w s gs (k : string -> list string -> option A),
    lower_fixed w = true ->
    Re.rmatch true (Re.lit w) s gs k
    = if Py.starts w (Py.lower s)
      then k (Py.drop (String.length w) s) gs else None.
Proof.
  intros A w. induction w as [|c w IH]; intros s gs k Hw.
  - cbn. now destruct s.
  - unfold lower_fixed in Hw. cbn [all_chars] in Hw.
    apply andb_prop in Hw as [Hc Hw]. apply Ascii.eqb_eq in Hc.
    cbn [Re.lit Re.rmatch]. destruct s as [|d s]; [reflexivity|].
    unfold Re.chr_eq. rewrite Hc.
    cbn [Py.lower Py.map_chars Py.starts String.length Py.drop].
    destruct (Ascii.eqb c (Py.lower_char d)); [|reflexivity].
    cbn [andb]. now apply IH.
Qed.

Lemma found_literal : forall w s,
  lower_fixed w = true -> Re.found true (Re.lit w) s = mentions w s.
Proof.
  intros w s Hw. unfold Re.found, mentions.
  induction s as [|c s IH].
  - cbn [Re.search]. unfold Re.match_at.
    rewrite literal_ignoring_case by exact Hw. cbn.
    destruct (Py.starts w EmptyString); reflexivity.
  - cbn [Re.search]. unfold Re.match_at.
    rewrite literal_ignoring_case by exact Hw.
    cbn [Py.lower Py.map_chars Py.contains].
    fold (Py.lower s).
    destruct (Py.starts w (String (Py.lower_char c) (Py.lower s)));
      [reflexivity|exact IH].
Qed.

Lemma star_until_word :
  forall (A : Type) w u (k : string -> option A),
    (forall x, is_some (k x) = Py.starts w (Py.lower x)) ->
    is_some (Re.star Re.dot u k) = on_first_line w (Py.lower u).
Proof.
  intros A w u k Hk. induction u as [|c u IH].
  - cbn. rewrite Hk. cbn. now rewrite orb_false_r.
  - cbn [Re.star Py.lower Py.map_chars on_first_line]. fold (Py.lower u).
    rewrite lower_newline. unfold Re.dot at 1, Re.any_but.
    change (ascii_of_nat 10) with newline.
    specialize (Hk (String c u)).
    cbn [Py.lower Py.map_chars] in Hk. fold (Py.lower u) in Hk.
    rewrite <- Hk, <- IH.
    destruct (Ascii.eqb c newline); cbn [negb andb].
    + now rewrite orb_false_r.
    + destruct (Re.star Re.dot u k); cbn [is_some].
      * now rewrite orb_true_r.
      * now rewrite orb_false_r.
Qed.

Lemma anchor_match : forall s,
  is_some (Re.match_at true anchor_marker s)
  = Py.starts "<dt><a" (Py.lower s)
    && on_first_line "href=" (Py.drop 6 (Py.lower s)).
Proof.
  intros s. unfold Re.match_at, anchor_marker, Re.seq.
  cbn [fold_right]. cbn [Re.rmatch].
  rewrite literal_ignoring_case by reflexivity.
  destruct (Py.starts "<dt><a" (Py.lower s)); [|reflexivity].
  cbn [andb String.length]. rewrite <- lower_drop.
  apply star_until_word. intros x.
  rewrite literal_ignoring_case by reflexivity.
  now destruct (Py.starts "href=" (Py.lower x)).
Qed.

Lemma found_anchor : forall s,
  Re.found true anchor_marker s = anchor_with_href (Py.lower s).
Proof.
  intros s. unfold Re.found. induction s as [|c s IH].
  - cbn [Re.search]. pose proof (anchor_match EmptyString) as M.
    destruct (Re.match_at true anchor_marker EmptyString) as [[gs n]|];
      cbn [is_some] in M; cbn [Py.lower Py.map_chars anchor_with_href] in *;
      rewrite <- M; reflexivity.
  - cbn [Re.search]. pose proof (anchor_match (String c s)) as M.
    cbn [Py.lower Py.map_chars anchor_with_href] in *. fold (Py.lower s) in *.
    rewrite <- M.
    destruct (Re.match_at true anchor_marker (String c s)) as [[gs n]|];
      cbn [is_some orb]; [reflexivity|exact IH].
Qed.

Lemma split_head : forall s,
  hd EmptyString (Py.split newline s) = first_line s.
Proof.
  induction s as [|c s IH]; [reflexivity|].
  cbn [Py.split first_line].
  destruct (Ascii.eqb c newline); [reflexivity|].
  destruct (Py.split newline s); cbn [hd] in *; now rewrite <- IH.
Qed.

Lemma split_nonempty : forall c s, Py.split c s <> [].
Proof.
  intros c s. destruct s as [|d s]; [discriminate|].
  cbn [Py.split]. destruct (Ascii.eqb d c); [discriminate|].
  destruct (Py.split c s); discriminate.
Qed.

Lemma split_at_separator : forall s,
  Py.contains nl s = true ->
  Nat.ltb 1 (List.length (Py.split newline s)) = true.
Proof.
  induction s as [|c s IH]; intros H; [discriminate|].
  cbn [Py.contains Py.split] in *. unfold nl in H at 1.
  cbn [Py.starts] in H. fold nl in H.
  change (ascii_of_nat 10) with newline in H.
  rewrite Ascii.eqb_sym in H.
  destruct (Ascii.eqb c newline).
  - pose proof (split_nonempty newline s).
    destruct (Py.split newline s); [contradiction|reflexivity].
  - cbn [andb orb] in H. apply IH in H.
    destruct (Py.split newline s); [discriminate|exact H].
Qed.

Lemma sniff_csv_is_comma_separated : forall content,
  sniff_csv content = comma_separated content.
Proof.
  intros content. unfold sniff_csv, comma_separated.
  destruct (Py.contains "," content); [|reflexivity].
  destruct (Py.contains nl content) eqn:E; [|reflexivity].
  cbn [andb]. now rewrite split_at_separator, split_head.
Qed.

(** C3, as amended. [detect_file_format] follows the decision list on the
    first 1024 characters, the first rule that applies winning: [html]
    when the sample mentions a folder marker, or an anchor with an
    [href=] further on the same line, in any letter case; else, when the
    trimmed sample starts with a brace or a bracket and parses, [pocket]
    if the text of the sample contains the quoted word [list] or
    [given_url] (as a key or not) and [json] otherwise; a decode error
    leads on, any other error of the parse gives [unknown]; else [csv]
    when the sample has a comma and a newline and a comma on its first
    line; else [unknown], as for a file that cannot be read. *)
Theorem detect_follows_rules : forall json_loads file,
  detect_file_format json_loads file = detect_by_rules json_loads file.
Proof.
  intros json_loads [whole|e]; [|reflexivity].
  unfold detect_file_format, detect_by_rules, html_marked, folder_marker.
  rewrite found_literal by reflexivity. rewrite found_anchor.
  destruct (mentions "<dt><h3" (Py.take 1024 whole)
            || anchor_with_href (Py.lower (Py.take 1024 whole)));
    [reflexivity|].
  unfold sniff_json, bracketed, csv_or_unknown.
  rewrite sniff_csv_is_comma_separated.
  destruct (Py.startswith (Py.strip (Py.take 1024 whole)) "{"
            || Py.startswith (Py.strip (Py.take 1024 whole)) "[");
    [|reflexivity].
  destruct (json_loads (Py.take 1024 whole)) as [v|[]]; try reflexivity.
  destruct (Py.contains list_token (Py.take 1024 whole)
            || Py.contains given_url_token (Py.take 1024 whole));
    reflexivity.
Qed.
End Detector.

(** C3, counterexample: a JSON array holding the string [list] has no key
    at all, so the claim makes it [json]; the detector finds the quoted
    word in the text and answers [pocket]. *)
Lemma quoted_word_is_taken_for_key :
  let sample := "[" ++ dquote ++ "list" ++ dquote ++ "]" in
  Json.loads sample = Ok (PList [PStr "list"])
  /\ BookmarksImporter.detect_file_format Json.loads (Ok sample) = "pocket"
  /\ detect_as_claimed Json.loads (Ok sample) = "json".
Proof. cbv zeta. split; [|split]; vm_compute; reflexivity. Qed.

(* ===================================================================== *)
(** ** The manager: manual bookmarks and the search *)
(* ===================================================================== *)

Section ManagerFacts.
Import BookmarksManager.
Variable bookmarks_dir : string.
Variable getcwd : string.
Variable expanduser : string -> string.
Variable realpath : string -> string.
Variable readable : string -> bool.

Lemma slug_char_not_comma : forall c,
  Ascii.eqb c "-" || alnum c = true -> Ascii.eqb c "," = false.
Proof. intros c; each_char c. Qed.

Lemma split_before_separator : forall sep c rest,
  all_chars (fun x => negb (Ascii.eqb x sep)) c = true ->
  Py.split sep (c ++ String sep rest) = c :: Py.split sep rest.
Proof.
  intros sep c rest. induction c as [|x c IH]; intros H.
  - cbn. now rewrite Ascii.eqb_refl.
  - cbn [all_chars] in H. apply andb_prop in H as [Hx Hc].
    cbn [String.append Py.split].
    destruct (Ascii.eqb x sep); [discriminate|].
    now rewrite IH.
Qed.

Lemma split_without_separator : forall sep c,
  all_chars (fun x => negb (Ascii.eqb x sep)) c = true ->
  Py.split sep c = [c].
Proof.
  intros sep c. induction c as [|x c IH]; intros H; [reflexivity|].
  cbn [all_chars] in H. apply andb_prop in H as [Hx Hc].
  cbn [Py.split]. destruct (Ascii.eqb x sep); [discriminate|].
  now rewrite IH.
Qed.

Lemma slug_has_no_comma : forall x,
  all_chars (fun c => negb (Ascii.eqb c ",")) (slugify x) = true.
Proof.
  intros x. destruct (manager_slug_shape x) as [E|S]; [now rewrite E|].
  apply shape_slug_chars in S. unfold slug_chars in S.
  induction (slugify x) as [|c s IH]; [reflexivity|].
  cbn [all_chars] in *. apply andb_prop in S as [Hc Hs].
  now rewrite (slug_char_not_comma c Hc), IH.
Qed.

(** C10. A bookmark created by [create_bookmark] stores the slug of its
    category as the first of its tags: the tags are the category alone
    when none were given, and the category, a comma and the given tags
    otherwise; the file that is written holds them between the brackets
    of its [tags:] line, the third line of its front matter, after the
    lines of the title and of the address. *)
Theorem manual_bookmark_tags :
  forall network fs title uri category tags name force f t u c g fs',
    create_bookmark bookmarks_dir getcwd expanduser realpath readable
                    network fs title uri category tags name force
    = (BookmarkCreated f t u c g, fs') ->
    (exists chosen,
        c = slugify chosen
        /\ (Py.nonempty category = true -> chosen = category))
    /\ g = (if Py.nonempty tags then c ++ "," ++ tags else c)
    /\ hd EmptyString (Py.split "," g) = c
    /\ Os.read_file fs' f
       = Ok ("---" ++ nl
             ++ "title: " ++ t ++ nl
             ++ "uri: " ++ u ++ nl
             ++ "tags: [" ++ g ++ "]" ++ nl
             ++ "---" ++ nl
             ++ "[" ++ t ++ "](" ++ u ++ ")" ++ nl).
Proof.
  intros network fs title uri category tags name force f t u c g fs' H.
  unfold create_bookmark in H.
  destruct (negb (Py.nonempty uri)); [discriminate|].
  set (uri1 := if is_file uri then realpath (expand_path getcwd expanduser uri)
               else uri) in H.
  set (uri2 := if is_url uri1 then get_final_uri (network 0) uri1
               else uri1) in H.
  destruct (negb (is_uri_accessible getcwd expanduser readable
                                    (network 1) uri2)); [discriminate|].
  set (chosen := if negb (Py.nonempty category)
                 then (if is_local_file uri2 then "files" else "unsorted")
                 else category) in H.
  set (title1 := if negb (Py.nonempty title)
                 then get_title_from_uri getcwd expanduser (network 2) uri2
                 else title) in H.
  set (title2 := if negb (Py.nonempty title1)
                 then Os.basename (Py.rstrip_chars "/" uri2)
                 else title1) in H.
  set (name1 := if negb (Py.nonempty name) then title2 else name) in H.
  destruct (negb (Py.nonempty title2)); [discriminate|].
  destruct (negb (Py.nonempty chosen)); [discriminate|].
  destruct (Os.makedirs fs (Os.path_join bookmarks_dir (slugify chosen)))
    as [fs1 [e|]]; [discriminate|].
  destruct (Os.path_exists fs1 _ && negb force); [discriminate|].
  match type of H with
  | match ?m with _ => _ end = _ => destruct m as [fs2|] eqn:Ew
  end; [|discriminate].
  inversion H; subst. clear H.
  split; [|split; [|split]].
  - exists chosen. split; [reflexivity|].
    intros Hc. unfold chosen. now rewrite Hc.
  - reflexivity.
  - destruct (Py.nonempty tags).
    + change (slugify chosen ++ "," ++ tags)
        with (slugify chosen ++ String "," tags).
      rewrite split_before_separator by apply slug_has_no_comma.
      reflexivity.
    + rewrite split_without_separator by apply slug_has_no_comma.
      reflexivity.
  - apply written_is_read in Ew. exact Ew.
Qed.
End ManagerFacts.

Lemma manual_bookmark_witness :
  (exists chosen,
      "test" = BookmarksManager.slugify chosen
      /\ (Py.nonempty "test" = true -> chosen = "test"))
  /\ "test,docker" = (if Py.nonempty "docker" then "test" ++ "," ++ "docker"
                      else "test")
  /\ hd EmptyString (Py.split "," "test,docker") = "test"
  /\ Os.read_file
       (snd (BookmarksManager.create_bookmark
               default_dir "/root" home same all_readable online
               fresh_store "Test Bookmark" "https://example.com" "test"
               "docker" EmptyString false))
       "/data/bookmarks/test/test-bookmark.md"
     = Ok ("---" ++ nl
           ++ "title: " ++ "Test Bookmark" ++ nl
           ++ "uri: " ++ "https://example.com" ++ nl
           ++ "tags: [" ++ "test,docker" ++ "]" ++ nl
           ++ "---" ++ nl
           ++ "[" ++ "Test Bookmark" ++ "](" ++ "https://example.com" ++ ")"
           ++ nl).
Proof.
  apply (manual_bookmark_tags default_dir "/root" home same
           all_readable online fresh_store "Test Bookmark"
           "https://example.com" "test" "docker" EmptyString false
           "/data/bookmarks/test/test-bookmark.md" "Test Bookmark"
           "https://example.com" "test" "test,docker").
  vm_compute. reflexivity.
Defined.

(* ===================================================================== *)
(** ** What a search finds *)
(* ===================================================================== *)

Section ScanFacts.
Import BookmarksManager.
Variable md5_hex : string -> string.
Variable fs : Os.filesystem.
Variable query_lower : string.
Variable limit : Z.

Lemma scan_files_grows : forall root files results e,
  In e results ->
  In e (scan_files md5_hex fs query_lower limit root files results).
Proof.
  intros root files. induction files as [|f files IH]; intros results e H;
    [exact H|].
  cbn [scan_files]. destruct (Py.endswith f ".md"); [|now apply IH].
  destruct (Os.read_text fs (Os.path_join root f)) as [content|];
    [|now apply IH].
  destruct (Py.contains query_lower (Py.lower content)); [|now apply IH].
  assert (H' : In e (results
                       ++ [entry md5_hex root (Os.path_join root f) content])).
  { apply in_or_app. now left. }
  destruct (full limit _); [exact H'|now apply IH].
Qed.

(** A matching file of a directory is in the results, unless the scan
    stopped at the limit. *)
Lemma scan_files_finds : forall root files results file content,
  In file files ->
  Py.endswith file ".md" = true ->
  Os.read_text fs (Os.path_join root file) = Ok content ->
  Py.contains query_lower (Py.lower content) = true ->
  full limit (scan_files md5_hex fs query_lower limit root files results)
  = true
  \/ In (entry md5_hex root (Os.path_join root file) content)
        (scan_files md5_hex fs query_lower limit root files results).
Proof.
  intros root files. induction files as [|f files IH];
    intros results file content Hin Hmd Hread Hq; [contradiction|].
  cbn [scan_files]. destruct Hin as [->|Hin].
  - rewrite Hmd, Hread, Hq.
    destruct (full limit
                (results
                   ++ [entry md5_hex root (Os.path_join root file) content]))
      eqn:F; [now left|right].
    apply scan_files_grows, in_or_app. right. now left.
  - destruct (Py.endswith f ".md"); [|now apply IH].
    destruct (Os.read_text fs (Os.path_join root f)) as [c|];
      [|now apply IH].
    destruct (Py.contains query_lower (Py.lower c)); [|now apply IH].
    destruct (full limit
                (results ++ [entry md5_hex root (Os.path_join root f) c]))
      eqn:F; [now left|now apply IH].
Qed.

Lemma scan_dirs_grows : forall dirs results e,
  In e results ->
  In e (scan_dirs md5_hex fs query_lower limit dirs results).
Proof.
  induction dirs as [|[[root ds] files] dirs IH]; intros results e H;
    [exact H|].
  cbn [scan_dirs].
  pose proof (scan_files_grows root files results e H) as H'.
  destruct (full limit _); [exact H'|now apply IH].
Qed.

Lemma scan_dirs_finds : forall dirs results root ds files file content,
  In (root, ds, files) dirs ->
  In file files ->
  Py.endswith file ".md" = true ->
  Os.read_text fs (Os.path_join root file) = Ok content ->
  Py.contains query_lower (Py.lower content) = true ->
  full limit (scan_dirs md5_hex fs query_lower limit dirs results) = true
  \/ In (entry md5_hex root (Os.path_join root file) content)
        (scan_dirs md5_hex fs query_lower limit dirs results).
Proof.
  induction dirs as [|[[r0 d0] f0] dirs IH];
    intros results root ds files file content Hd Hin Hmd Hread Hq;
    [contradiction|].
  cbn [scan_dirs]. destruct Hd as [E|Hd].
  - inversion E; subst.
    destruct (scan_files_finds root files results file content
                Hin Hmd Hread Hq) as [F|F].
    + rewrite F. now left.
    + destruct (full limit
                  (scan_files md5_hex fs query_lower limit root files
                              results)) eqn:F';
        [now right|right].
      now apply scan_dirs_grows.
  - destruct (full limit
                (scan_files md5_hex fs query_lower limit r0 f0 results))
      eqn:F; [now left|].
    eapply IH; eauto.
Qed.
End ScanFacts.

Section WalkFacts.
Variable fs : Os.filesystem.

Lemma find_in : forall k n, Os.find k fs = Some n -> In (k, n) fs.
Proof.
  induction fs as [|[q m] rest IH]; intros k n H; [discriminate|].
  cbn [Os.find] in H. destruct (String.eqb q k) eqn:E.
  - apply String.eqb_eq in E. inversion H; subst. now left.
  - right. now apply IH.
Qed.

Lemma listdir_has : forall k n dir,
  In (k, n) fs ->
  Os.key (Os.dirname k) = Os.key dir ->
  Py.nonempty (Os.basename k) = true ->
  In (Os.basename k) (Os.listdir fs dir).
Proof.
  intros k n dir Hin Hd Hb. unfold Os.listdir.
  apply (in_map (fun e => Os.basename (fst e)) _ (k, n)).
  apply filter_In. split; [exact Hin|].
  cbn [fst]. rewrite Hd, String.eqb_refl, Hb. reflexivity.
Qed.

(** The walk of a directory starts with its own files ... *)
Lemma walk_lists_file : forall fuel top k content,
  Os.isdir fs top = true ->
  Os.find k fs = Some (Os.File content) ->
  Os.key (Os.dirname k) = Os.key top ->
  Py.nonempty (Os.basename k) = true ->
  Os.key (Os.path_join top (Os.basename k)) = k ->
  exists dirs files,
    In (top, dirs, files) (Os.walk_from (S fuel) fs top)
    /\ In (Os.basename k) files.
Proof.
  intros fuel top k content Hdir Hk Hd Hb Hj.
  cbn [Os.walk_from]. rewrite Hdir.
  eexists. eexists. split; [now left|].
  apply filter_In. split.
  - apply (listdir_has k (Os.File content) top);
      [now apply find_in|exact Hd|exact Hb].
  - unfold Os.isdir. now rewrite Hj, Hk.
Qed.

(** ... and goes on into its directories. *)
Lemma walk_enters : forall fuel top k x,
  Os.isdir fs top = true ->
  Os.find k fs = Some Os.Dir ->
  Os.key (Os.dirname k) = Os.key top ->
  Py.nonempty (Os.basename k) = true ->
  Os.key (Os.path_join top (Os.basename k)) = k ->
  In x (Os.walk_from fuel fs (Os.path_join top (Os.basename k))) ->
  In x (Os.walk_from (S fuel) fs top).
Proof.
  intros fuel top k x Hdir Hk Hd Hb Hj Hx.
  cbn [Os.walk_from]. rewrite Hdir. right.
  apply in_flat_map. exists (Os.basename k). split; [|exact Hx].
  apply filter_In. split.
  - apply (listdir_has k Os.Dir top);
      [now apply find_in|exact Hd|exact Hb].
  - unfold Os.isdir. now rewrite Hj, Hk.
Qed.
End WalkFacts.

Lemma mkdir_chain_made : forall ds fs fs' d,
  Os.mkdir_chain fs ds = (fs', None) -> In d ds ->
  Os.find d fs' = Some Os.Dir.
Proof.
  induction ds as [|x ds IH]; intros fs fs' d H Hin; [contradiction|].
  cbn [Os.mkdir_chain] in H.
  assert (Hkeep : forall fs0, Os.find x fs0 = Some Os.Dir ->
                    Os.mkdir_chain fs0 ds = (fs', None) ->
                    Os.find d fs' = Some Os.Dir).
  { intros fs0 Hx Hrun. destruct Hin as [->|Hin]; [|now apply (IH fs0)].
    pose proof (mkdir_chain_keeps ds fs0 _ _ Hx) as K.
    now rewrite Hrun in K. }
  destruct (Os.find x fs) as [[c|]|] eqn:E.
  - discriminate.
  - now apply (Hkeep fs).
  - apply (Hkeep (Os.put x Os.Dir fs)); [apply find_put_same|exact H].
Qed.

(** *** Names without a slash *)

Lemma no_slash_basename : forall name,
  Py.contains "/" name = false -> Os.basename name = name.
Proof.
  intros [|c name] H; [reflexivity|]. cbn [Os.basename]. now rewrite H.
Qed.

Lemma slash_found : forall pre name,
  Py.contains "/" (pre ++ String "/" name) = true.
Proof.
  induction pre as [|c pre IH]; intros name; [reflexivity|].
  cbn [String.append Py.contains]. rewrite IH. apply orb_true_r.
Qed.

Lemma basename_cons : forall c s,
  Os.basename (String c s)
  = if Py.contains "/" (String c s) then Os.basename s else String c s.
Proof. reflexivity. Qed.

Lemma basename_of_joined : forall pre name,
  Py.contains "/" name = false ->
  Os.basename (pre ++ String "/" name) = name.
Proof.
  induction pre as [|c pre IH]; intros name H.
  - change (EmptyString ++ String "/" name) with (String "/" name).
    rewrite basename_cons.
    pose proof (slash_found EmptyString name) as F.
    change (EmptyString ++ String "/" name) with (String "/" name) in F.
    rewrite F. now apply no_slash_basename.
  - change (String c pre ++ String "/" name)
      with (String c (pre ++ String "/" name)).
    rewrite basename_cons.
    pose proof (slash_found (String c pre) name) as F.
    change (String c pre ++ String "/" name)
      with (String c (pre ++ String "/" name)) in F.
    rewrite F. now apply IH.
Qed.

Lemma take_prefix : forall a b,
  Py.take (String.length a) (a ++ b) = a.
Proof.
  induction a as [|c a IH]; intros b; [now destruct b|].
  cbn. now rewrite IH.
Qed.

Lemma dirname_of_joined : forall pre name,
  Py.contains "/" name = false ->
  Os.dirname (pre ++ String "/" name)
  = if Py.nonempty (Py.rstrip_chars "/" (pre ++ "/"))
    then Py.rstrip_chars "/" (pre ++ "/") else pre ++ "/".
Proof.
  intros pre name H. unfold Os.dirname.
  rewrite basename_of_joined by exact H.
  replace (String.length (pre ++ String "/" name) - String.length name)
    with (String.length (pre ++ "/")).
  - change (pre ++ String "/" name) with (pre ++ "/" ++ name).
    rewrite <- append_assoc, take_prefix. reflexivity.
  - rewrite !append_length. cbn [String.length]. lia.
Qed.

Lemma all_chars_app : forall p a b,
  all_chars p (a ++ b) = all_chars p a && all_chars p b.
Proof.
  intros p a b. induction a as [|c a IH]; [reflexivity|].
  cbn [String.append all_chars]. now rewrite IH, andb_assoc.
Qed.

Lemma no_slash_chars : forall s,
  all_chars (fun c => negb (Ascii.eqb c "/")) s = true ->
  Py.contains "/" s = false.
Proof.
  induction s as [|c s IH]; intros H; [reflexivity|].
  cbn [all_chars] in H. apply andb_prop in H as [Hc Hs].
  cbn [Py.contains Py.starts]. rewrite Ascii.eqb_sym.
  destruct (Ascii.eqb c "/"); [discriminate|]. cbn [andb orb]. now apply IH.
Qed.

Lemma digit_no_slash : forall n,
  all_chars (fun c => negb (Ascii.eqb c "/")) (Os.digit n) = true.
Proof.
  intros n. destruct (digit_char n) as (c & -> & D).
  cbn [all_chars]. rewrite andb_true_r. revert D. clear. each_char c.
Qed.

Lemma stamp_no_slash : forall now,
  all_chars (fun c => negb (Ascii.eqb c "/")) (Os.strftime now) = true.
Proof.
  intros now. unfold Os.strftime, Os.fmt4, Os.fmt2.
  repeat rewrite all_chars_app. repeat rewrite digit_no_slash. reflexivity.
Qed.

Lemma endswith_suffix : forall a b, Py.endswith (a ++ b) b = true.
Proof.
  induction a as [|c a IH]; intros b.
  - destruct b; cbn [String.append Py.endswith];
      now rewrite String.eqb_refl.
  - cbn [String.append Py.endswith]. rewrite IH. apply orb_true_r.
Qed.

(* ===================================================================== *)
(** ** The round trip through writer and search *)
(* ===================================================================== *)

Lemma test_paths : forall now,
  BookmarksImporter.plain_path default_dir "test" "Test"
  = "/data/bookmarks/test" ++ String "/" "test.md"
  /\ BookmarksImporter.stamped_path default_dir "test" "Test" now
     = "/data/bookmarks/test"
         ++ String "/" ("test_" ++ Os.strftime now ++ ".md").
Proof.
  intros now. split; [vm_compute; reflexivity|].
  unfold BookmarksImporter.stamped_path, BookmarksImporter.category_dir.
  replace (BookmarksImporter.slugify
             (BookmarksImporter.sanitize_filename "Test"))
    with "test" by (vm_compute; reflexivity).
  replace (Os.path_join default_dir (BookmarksImporter.slugify "test"))
    with "/data/bookmarks/test" by (vm_compute; reflexivity).
  reflexivity.
Qed.

(** Where the writer puts the bookmark of the round trip. *)
Lemma test_file_name : forall fs now p t u c g fs',
  BookmarksImporter.create_bookmark_file
    default_dir fs now (PStr "Test") (PStr "https://example.com")
    (PStr "test") (PStr EmptyString) EmptyString EmptyString
  = (BookmarksImporter.Created p t u c g, fs') ->
  exists name,
    p = "/data/bookmarks/test" ++ String "/" name
    /\ Py.contains "/" name = false
    /\ Py.endswith name ".md" = true
    /\ Py.nonempty name = true
    /\ Os.find "/data/bookmarks" fs' = Some Os.Dir
    /\ Os.find "/data/bookmarks/test" fs' = Some Os.Dir
    /\ Os.find p fs' = Some (Os.File test_text)
    /\ Os.key p = p.
Proof.
  intros fs now p t u c g fs' H.
  apply created_inversion in H
    as (Ht & Hu & Hc & Hg & fs1 & Hm & Hp & Hw).
  vm_compute in Ht, Hu, Hc, Hg.
  inversion Ht; inversion Hu; inversion Hc; inversion Hg; subst t u c g.
  clear Ht Hu Hc Hg.
  destruct (test_paths now) as [Eplain Estamp].
  assert (Hname : exists name,
             p = "/data/bookmarks/test" ++ String "/" name
             /\ Py.contains "/" name = false
             /\ Py.endswith name ".md" = true
             /\ Py.nonempty name = true).
  { destruct (Os.path_exists fs1 _) in Hp.
    - exists ("test_" ++ Os.strftime now ++ ".md"). rewrite Hp, Estamp.
      split; [reflexivity|]. split; [|split; [|reflexivity]].
      + apply no_slash_chars. rewrite !all_chars_app, stamp_no_slash.
        reflexivity.
      + rewrite <- append_assoc. apply endswith_suffix.
    - exists "test.md". rewrite Hp, Eplain. repeat split. }
  destruct Hname as (name & Ep & Hslash & Hmd & Hne).
  assert (Hk : Os.key p = p).
  { destruct (Os.path_exists fs1 _) in Hp; subst p.
    - apply stamped_key.
    - apply plain_key. }
  assert (Hlen : 20 < String.length p).
  { rewrite Ep, append_length. cbn [String.length]. lia. }
  assert (Hdirs : forall d,
             In d (Os.chain EmptyString "/data/bookmarks/test") ->
             Os.find d fs' = Some Os.Dir).
  { intros d Hd. pose proof Hw as Hput.
    apply write_file_result in Hput. subst fs'.
    rewrite find_put_other.
    - now apply (mkdir_chain_made
                   (Os.chain EmptyString "/data/bookmarks/test") fs fs1).
    - rewrite Hk. intros E. rewrite E in Hlen.
      vm_compute in Hd.
      destruct Hd as [<-|[<-|[<-|[]]]]; cbn [String.length] in Hlen; lia. }
  exists name. repeat split; try assumption.
  - apply Hdirs. vm_compute. tauto.
  - apply Hdirs. vm_compute. tauto.
  - apply write_file_result in Hw. subst fs'.
    rewrite Hk. apply find_put_same.
Qed.

Lemma isdir_found : forall fs k,
  Os.find k fs = Some Os.Dir -> Os.key k = k -> Os.isdir fs k = true.
Proof. intros fs k H K. unfold Os.isdir. now rewrite K, H. Qed.

Lemma full_is_limit : forall limit (results : list BookmarksManager.search_result),
  BookmarksManager.full limit results = true ->
  (limit <= Z.of_nat (List.length results))%Z.
Proof. intros limit results H. now apply Z.leb_le. Qed.

(** The search reaches the stored bookmark, whatever else is in the tree. *)
Lemma search_reaches_test :
  forall md5_hex fs now limit query p t u c g fs',
    BookmarksImporter.create_bookmark_file
      default_dir fs now (PStr "Test") (PStr "https://example.com")
      (PStr "test") (PStr EmptyString) EmptyString EmptyString
    = (BookmarksImporter.Created p t u c g, fs') ->
    query = "test" \/ query = "example.com" ->
    found_or_full (test_entry md5_hex p) limit
      (BookmarksManager.search_bookmarks default_dir md5_hex fs' query limit).
Proof.
  intros md5_hex fs now limit query p t u c g fs' H Hq.
  destruct (test_file_name _ _ _ _ _ _ _ _ H)
    as (name & Ep & Hslash & Hmd & Hne & Hroot & Hdir & Hfile & Hkp).
  assert (Hjoin : Os.path_join "/data/bookmarks/test" name = p).
  { unfold Os.path_join.
    assert (S : Py.startswith name "/" = false).
    { destruct name as [|x name]; [discriminate|].
      cbn [Py.contains Py.starts] in Hslash.
      apply orb_false_elim in Hslash as [Hs _].
      unfold Py.startswith. cbn [Py.starts]. exact Hs. }
    rewrite S. rewrite Ep. reflexivity. }
  assert (Hwalk : exists dirs files,
             In ("/data/bookmarks/test", dirs, files)
                (Os.walk fs' default_dir)
             /\ In name files).
  { unfold Os.walk.
    destruct fs' as [|e0 rest]; [discriminate|]. cbn [List.length].
    destruct (walk_lists_file (e0 :: rest) (List.length rest)
                "/data/bookmarks/test" p test_text)
      as (dirs & files & Hin & Hf).
    - now apply isdir_found.
    - exact Hfile.
    - rewrite Ep, dirname_of_joined by exact Hslash. reflexivity.
    - rewrite Ep, basename_of_joined by exact Hslash. exact Hne.
    - rewrite Ep, basename_of_joined by exact Hslash.
      rewrite <- Ep. now rewrite Hjoin.
    - exists dirs, files. split.
      + apply (walk_enters (e0 :: rest) (S (List.length rest))
                 default_dir "/data/bookmarks/test").
        * now apply isdir_found.
        * exact Hdir.
        * reflexivity.
        * reflexivity.
        * reflexivity.
        * exact Hin.
      + rewrite Ep, basename_of_joined in Hf by exact Hslash. exact Hf. }
  destruct Hwalk as (dirs & files & Hin & Hf).
  unfold BookmarksManager.search_bookmarks.
  assert (Hlong : Nat.ltb (String.length query) 3 = false)
    by (destruct Hq as [-> | ->]; reflexivity).
  rewrite Hlong.
  assert (Hmatch : Py.contains (Py.lower query) (Py.lower test_text) = true)
    by (destruct Hq as [-> | ->]; vm_compute; reflexivity).
  destruct (scan_dirs_finds md5_hex fs' (Py.lower query) limit
              (Os.walk fs' default_dir) [] "/data/bookmarks/test" dirs files
              name test_text Hin Hf Hmd)
    as [F|F].
  - unfold Os.read_text, Os.read_file. now rewrite Hjoin, Hkp, Hfile.
  - exact Hmatch.
  - right. now apply full_is_limit.
  - left. rewrite Hjoin in F.
    replace (test_entry md5_hex p)
      with (BookmarksManager.entry md5_hex "/data/bookmarks/test" p test_text);
      [exact F|].
    unfold BookmarksManager.entry, test_entry. f_equal; vm_compute; reflexivity.
Qed.

(** C8, as amended. After the writer has stored the bookmark with title
    [Test], address [https://example.com] and category [test], in any
    tree, a search for [test] and a search for [example.com] each answer
    with a result for that bookmark, unless the search stopped at its
    limit before reaching the file; the result has category [test], the
    title and the address, and no tags: the writer stores the tags it is
    given and does not add the category to them. *)
Theorem writer_then_search :
  forall md5_hex fs now limit p t u c g fs',
    BookmarksImporter.create_bookmark_file
      default_dir fs now (PStr "Test") (PStr "https://example.com")
      (PStr "test") (PStr EmptyString) EmptyString EmptyString
    = (BookmarksImporter.Created p t u c g, fs') ->
    let found :=
      {| BookmarksManager.r_id := md5_hex p;
         BookmarksManager.r_url := "https://example.com";
         BookmarksManager.r_title := "Test";
         BookmarksManager.r_tags := [];
         BookmarksManager.r_category := "test" |} in
    found_or_full found limit
      (BookmarksManager.search_bookmarks default_dir md5_hex fs'
         "test" limit)
    /\ found_or_full found limit
         (BookmarksManager.search_bookmarks default_dir md5_hex fs'
            "example.com" limit).
Proof.
  intros md5_hex fs now limit p t u c g fs' H found.
  split; eapply (search_reaches_test md5_hex); eauto.
Qed.

Lemma writer_then_search_witness :
  let found :=
    {| BookmarksManager.r_id := "/data/bookmarks/test/test.md";
       BookmarksManager.r_url := "https://example.com";
       BookmarksManager.r_title := "Test";
       BookmarksManager.r_tags := [];
       BookmarksManager.r_category := "test" |} in
  found_or_full found 20
    (BookmarksManager.search_bookmarks default_dir same
       (store_with_test noon) "test" 20)
  /\ found_or_full found 20
       (BookmarksManager.search_bookmarks default_dir same
          (store_with_test noon) "example.com" 20).
Proof.
  apply (writer_then_search same fresh_store noon 20
           "/data/bookmarks/test/test.md" "Test" "https://example.com"
           "test" EmptyString (store_with_test noon)).
  vm_compute. reflexivity.
Defined.

(** In a tree that holds nothing else the search answers with exactly that
    result. *)
Lemma search_after_write : forall md5_hex now (n : positive) query,
  query = "test" \/ query = "example.com" ->
  BookmarksManager.search_bookmarks default_dir md5_hex
    (store_with_test now) query (Z.pos n)
  = [test_entry md5_hex "/data/bookmarks/test/test.md"].
Proof.
  intros md5_hex now n query Hq.
  assert (E : store_with_test now
              = (fresh_store
                   ++ [("/data/bookmarks/test", Os.Dir);
                       ("/data/bookmarks/test/test.md",
                        Os.File test_text)])%list).
  { vm_compute. reflexivity. }
  rewrite E.
  destruct Hq as [-> | ->]; destruct n as [n|n|]; vm_compute; reflexivity.
Qed.

(** C8, counterexample: in a tree that holds nothing else, the one result
    found for the bookmark has no tags, so [test] is not among them. *)
Lemma found_bookmark_has_no_tags :
  BookmarksManager.search_bookmarks default_dir same
    (store_with_test noon) "test" 20
  = [test_entry same "/data/bookmarks/test/test.md"]
  /\ ~ (forall md5_hex,
          exists r,
            In r (BookmarksManager.search_bookmarks default_dir md5_hex
                    (store_with_test noon) "test" 20)
            /\ BookmarksManager.r_category r = "test"
            /\ In "test" (BookmarksManager.r_tags r)).
Proof.
  pose proof (search_after_write same noon 20 "test" (or_introl eq_refl)) as E.
  change (Z.pos 20) with 20%Z in E.
  split; [exact E|].
  intros H. destruct (H same) as (r & Hin & _ & Htag).
  rewrite E in Hin.
  destruct Hin as [E'|[]]. rewrite <- E' in Htag. exact Htag.
Qed.

(* ===================================================================== *)
(** ** Concrete runs *)
(* ===================================================================== *)

Lemma folder_stack_witness :
  (exists rest,
      categories (BookmarksImporter._parse_html_bookmarks
                    (fun s => s) (Py.join nl nested_export))
      = "a" :: "a/b" :: categories rest
      /\ Forall (fun b => BookmarksImporter.b_category b = "unsorted") rest
      /\ BookmarksImporter.path_parts
           (BookmarksImporter.parse_lines
              (fun s => s)
              (Py.split BookmarksImporter.newline
                        (Py.join nl nested_export))) = [])
  /\ (forall content shorter before close after,
         Py.split BookmarksImporter.newline content
         = (before ++ close :: after)%list ->
         Py.split BookmarksImporter.newline shorter
         = (before ++ after)%list ->
         forallb (fun l => negb (is_folder_open l)) before = true ->
         classify close = FolderClose ->
         BookmarksImporter._parse_html_bookmarks (fun s => s) content
         = BookmarksImporter._parse_html_bookmarks (fun s => s) shorter)
  /\ (forall st line,
         classify line = FolderClose ->
         BookmarksImporter.path_parts st = [] ->
         BookmarksImporter.parse_line (fun s => s) st line = st).
Proof.
  apply (folder_stack_categories
           (fun s => s) (Py.join nl nested_export)
           (nth 1 nested_export EmptyString) (nth 3 nested_export EmptyString)
           (nth 4 nested_export EmptyString) (nth 6 nested_export EmptyString)
           (nth 7 nested_export EmptyString) (nth 8 nested_export EmptyString)
           [nth 9 nested_export EmptyString; nth 10 nested_export EmptyString]
           "A" "B");
    vm_compute; reflexivity.
Defined.

Example nested_export_categories :
  categories (BookmarksImporter._parse_html_bookmarks
                (fun s => s) (Py.join nl nested_export))
  = ["a"; "a/b"; "unsorted"].
Proof. vm_compute. reflexivity. Qed.

(** C1, counterexample: a JSON file that does not parse. The JSON importer
    returns [total = 0, success = 0, failed = 1], whose counters do not add
    up, and this is none of the two cases of [import_file]. *)
Lemma importer_counts_counterexample :
  let r := fst (BookmarksImporter.import_json_bookmarks
                  default_dir ticking Json.loads
                  (Ok "{") false fresh_world) in
  r = BookmarksImporter.failure (BookmarksImporter.Exception JSONDecodeError)
  /\ BookmarksImporter.success r + BookmarksImporter.failed r
     <> BookmarksImporter.total r.
Proof. vm_compute. split; [reflexivity|discriminate]. Qed.



(** C9, at the failing input: a title of one space is not replaced by
    [Untitled]; the record and the file carry an empty title, and the file
    is named by its extension alone. *)
Theorem blank_title_is_stored_empty :
  BookmarksImporter.create_bookmark_file
    "/data/bookmarks" fresh_store noon
    (PStr " ") (PStr "https://example.com") (PStr "test")
    (PStr EmptyString) EmptyString EmptyString
  = (BookmarksImporter.Created "/data/bookmarks/test/.md"
       EmptyString "https://example.com" "test" EmptyString,
     (fresh_store
        ++ [("/data/bookmarks/test", Os.Dir);
            ("/data/bookmarks/test/.md",
             Os.File (BookmarksImporter.file_text EmptyString
                        "https://example.com" EmptyString EmptyString
                        EmptyString))])%list)
  /\ fst (BookmarksImporter.create_bookmark_file
            "/data/bookmarks" fresh_store noon
            (PStr EmptyString) (PStr "https://example.com") (PStr "test")
            (PStr EmptyString) EmptyString EmptyString)
     = BookmarksImporter.Created "/data/bookmarks/test/untitled.md"
         "Untitled" "https://example.com" "test" EmptyString
  /\ fst (BookmarksImporter.create_bookmark_file
            "/data/bookmarks" fresh_store noon
            PNone (PStr "https://example.com") (PStr "test")
            (PStr EmptyString) EmptyString EmptyString)
     = BookmarksImporter.Created "/data/bookmarks/test/untitled.md"
         "Untitled" "https://example.com" "test" EmptyString.
Proof.
  split; [vm_compute; reflexivity|]. split; vm_compute; reflexivity.
Qed.

(** Two writes of the same bookmark a second apart, in an empty store. *)
Lemma collision_witness :
  let first :=
    BookmarksImporter.create_bookmark_file
      "/data/bookmarks" fresh_store (ticking 0)
      (PStr "Test") (PStr "https://example.com") (PStr "test")
      (PStr EmptyString) EmptyString EmptyString in
  let second :=
    BookmarksImporter.create_bookmark_file
      "/data/bookmarks" (snd first) (ticking 1)
      (PStr "Test") (PStr "https://example.org") (PStr "test")
      (PStr EmptyString) EmptyString EmptyString in
  fst first = BookmarksImporter.Created "/data/bookmarks/test/test.md"
                "Test" "https://example.com" "test" EmptyString
  /\ fst second
     = BookmarksImporter.Created
         "/data/bookmarks/test/test_20240517_120001.md"
         "Test" "https://example.org" "test" EmptyString
  /\ Os.read_file (snd second) "/data/bookmarks/test/test.md"
     = Ok (BookmarksImporter.file_text "Test" "https://example.com"
             EmptyString EmptyString EmptyString)
  /\ Os.read_file (snd second) "/data/bookmarks/test/test_20240517_120001.md"
     = Ok (BookmarksImporter.file_text "Test" "https://example.org"
             EmptyString EmptyString EmptyString).
Proof.
  pose proof (collision_gets_timestamp "/data/bookmarks" fresh_store
                (ticking 0) (ticking 1) (PStr "Test") (PStr "test")
                (PStr "https://example.com") (PStr EmptyString)
                EmptyString EmptyString
                (PStr "https://example.org") (PStr EmptyString)
                EmptyString EmptyString
                "/data/bookmarks/test/test.md" "Test" "https://example.com"
                "test" EmptyString
                (snd (BookmarksImporter.create_bookmark_file
                        "/data/bookmarks" fresh_store (ticking 0)
                        (PStr "Test") (PStr "https://example.com")
                        (PStr "test") (PStr EmptyString)
                        EmptyString EmptyString))
                "/data/bookmarks/test/test_20240517_120001.md" "Test"
                "https://example.org" "test" EmptyString
                (snd (BookmarksImporter.create_bookmark_file
                        "/data/bookmarks"
                        (snd (BookmarksImporter.create_bookmark_file
                                "/data/bookmarks" fresh_store (ticking 0)
                                (PStr "Test") (PStr "https://example.com")
                                (PStr "test") (PStr EmptyString)
                                EmptyString EmptyString))
                        (ticking 1)
                        (PStr "Test") (PStr "https://example.org")
                        (PStr "test") (PStr EmptyString)
                        EmptyString EmptyString))
                ltac:(vm_compute; reflexivity) ltac:(vm_compute; reflexivity))
    as (_ & Htwo & _).
  destruct (Htwo ltac:(vm_compute; reflexivity)) as (_ & _ & R1 & R2).
  cbv zeta. split; [vm_compute; reflexivity|].
  split; [vm_compute; reflexivity|]. split; [exact R1|exact R2].
Defined.

(** The formats of four plain files. *)
Example detected_formats :
  map (fun content => BookmarksImporter.detect_file_format Json.loads
                        (Ok content))
      [Py.join nl nested_export; pocket_export; json_array; csv_file;
       "nothing of the kind"]
  = ["html"; "pocket"; "json"; "csv"; "unknown"].
Proof. vm_compute. reflexivity. Qed.

(** An import of the JSON array: the second record carries its tags as a
    list, which the writer cannot strip, so it fails and the first one is
    stored. *)
Example json_import_counts :
  let r := fst (BookmarksImporter.import_file
                  default_dir ticking same Json.loads no_rows
                  "/tmp/upload" (uploaded json_array) None false
                  fresh_world) in
  (BookmarksImporter.total r, BookmarksImporter.success r,
   BookmarksImporter.failed r) = (2, 1, 1)
  /\ BookmarksImporter.errors r
     = [BookmarksImporter.ItemFailed
          (BookmarksImporter.Failed AttributeError (PStr "Two")
             (PStr "https://two.example/"))].
Proof. cbv zeta. split; vm_compute; reflexivity. Qed.

(** The tags of a Pocket item are the keys of its mapping, in their order. *)
Example pocket_import_tags :
  BookmarksImporter.imported
    (fst (BookmarksImporter.import_file
            default_dir ticking same Json.loads no_rows
            "/tmp/upload" (uploaded pocket_export) None false fresh_world))
  = [BookmarksImporter.Written
       (BookmarksImporter.Created "/data/bookmarks/pocket/pocketed.md"
          "Pocketed" "https://pocket.example/" "pocket" "x,y")].
Proof. vm_compute. reflexivity. Qed.

(** C5, counterexample: three writes of one title and category, the last
    two in the same second. The name without a stamp is taken by the
    first, so the second and the third both take the stamped name of
    that second: the two writes give one path, not two distinct files;
    the third replaces the text of the second and the tree gains no
    entry. *)
Lemma second_collision_overwrites :
  let write fs n address :=
    BookmarksImporter.create_bookmark_file
      default_dir fs (ticking n) (PStr "Test") (PStr address) (PStr "test")
      (PStr EmptyString) EmptyString EmptyString in
  let first := write fresh_store 0 "https://first.example/" in
  let second := write (snd first) 1 "https://second.example/" in
  let third := write (snd second) 1 "https://third.example/" in
  fst second
  = BookmarksImporter.Created "/data/bookmarks/test/test_20240517_120001.md"
      "Test" "https://second.example/" "test" EmptyString
  /\ fst third
     = BookmarksImporter.Created
         "/data/bookmarks/test/test_20240517_120001.md"
         "Test" "https://third.example/" "test" EmptyString
  /\ Os.read_file (snd third) "/data/bookmarks/test/test_20240517_120001.md"
     = Ok (BookmarksImporter.file_text "Test" "https://third.example/"
             EmptyString EmptyString EmptyString)
  /\ List.length (snd third) = List.length (snd second).
Proof. cbv zeta. split; [|split; [|split]]; vm_compute; reflexivity. Qed.
(* ===================================================================== *)
(** ** Further properties of the file writer *)
(* ===================================================================== *)

Lemma map_chars_length : forall f s,
  String.length (Py.map_chars f s) = String.length s.
Proof.
  intros f s. induction s as [|c s IH]; [reflexivity|].
  cbn [Py.map_chars String.length]. now rewrite IH.
Qed.

Lemma take_length : forall n s,
  String.length (Py.take n s) = Nat.min n (String.length s).
Proof.
  induction n as [|n IH]; intros s; [reflexivity|].
  destruct s as [|c s]; [reflexivity|].
  cbn [Py.take String.length]. now rewrite IH.
Qed.

Lemma take_short : forall n s, String.length s <= n -> Py.take n s = s.
Proof.
  induction n as [|n IH]; intros s H.
  - destruct s; [reflexivity|]. cbn [String.length] in H. lia.
  - destruct s as [|c s]; [reflexivity|].
    cbn [String.length] in H. cbn [Py.take]. rewrite IH by lia. reflexivity.
Qed.

Lemma take_all_chars : forall p n s,
  all_chars p s = true -> all_chars p (Py.take n s) = true.
Proof.
  intros p. induction n as [|n IH]; intros s H; [reflexivity|].
  destruct s as [|c s]; [reflexivity|].
  cbn [all_chars] in H. apply andb_prop in H as [Hc Hs].
  cbn [Py.take all_chars]. now rewrite Hc, IH.
Qed.

Lemma underscore_is_safe : forall c,
  negb (BookmarksImporter.unsafe_char
          (if BookmarksImporter.unsafe_char c then "_"%char else c)) = true.
Proof. intros c; each_char c. Qed.

Lemma replaced_is_safe : forall s,
  safe_name (Py.map_chars
               (fun c => if BookmarksImporter.unsafe_char c then "_"%char
                         else c) s) = true.
Proof.
  unfold safe_name. induction s as [|c s IH]; [reflexivity|].
  cbn [Py.map_chars all_chars]. now rewrite underscore_is_safe, IH.
Qed.

Lemma safe_is_kept : forall s,
  safe_name s = true ->
  Py.map_chars (fun c => if BookmarksImporter.unsafe_char c then "_"%char
                         else c) s = s.
Proof.
  unfold safe_name. induction s as [|c s IH]; intros H; [reflexivity|].
  cbn [all_chars] in H. apply andb_prop in H as [Hc Hs].
  cbn [Py.map_chars]. rewrite (IH Hs).
  destruct (BookmarksImporter.unsafe_char c); [discriminate|reflexivity].
Qed.

Lemma sanitize_steps : forall filename,
  BookmarksImporter.sanitize_filename filename
  = Py.take 200 (Py.map_chars
                   (fun c => if BookmarksImporter.unsafe_char c then "_"%char
                             else c) filename).
Proof.
  intros filename. unfold BookmarksImporter.sanitize_filename.
  rewrite sub_class_is_map.
  destruct (Nat.ltb_spec 200 (String.length
              (Py.map_chars
                 (fun c => if BookmarksImporter.unsafe_char c then "_"%char
                           else c) filename))) as [H|H]; [reflexivity|].
  symmetry. now apply take_short.
Qed.

(** X1. The name [sanitize_filename] returns holds none of the characters
    it replaces, is the first 200 characters of a text as long as the
    given one, and is left as it is by a second pass. *)
Theorem sanitize_filename_safe : forall filename,
  safe_name (BookmarksImporter.sanitize_filename filename) = true
  /\ String.length (BookmarksImporter.sanitize_filename filename)
     = Nat.min 200 (String.length filename)
  /\ BookmarksImporter.sanitize_filename
       (BookmarksImporter.sanitize_filename filename)
     = BookmarksImporter.sanitize_filename filename.
Proof.
  intros filename.
  assert (Hsafe : safe_name (BookmarksImporter.sanitize_filename filename)
                  = true).
  { rewrite sanitize_steps. apply take_all_chars, replaced_is_safe. }
  assert (Hlen : String.length (BookmarksImporter.sanitize_filename filename)
                 = Nat.min 200 (String.length filename)).
  { rewrite sanitize_steps, take_length, map_chars_length. reflexivity. }
  split; [exact Hsafe|]. split; [exact Hlen|].
  rewrite (sanitize_steps (BookmarksImporter.sanitize_filename filename)).
  rewrite safe_is_kept by exact Hsafe.
  apply take_short. rewrite Hlen. apply Nat.le_min_l.
Qed.

Section WriterExtras.
Import BookmarksImporter.
Variable bookmarks_dir : string.

Lemma slug_char_is_stem_char : forall c,
  Ascii.eqb c "-" || alnum c = true -> stem_char c = true.
Proof. intros c; each_char c. Qed.

Lemma digit_is_stem_char : forall c,
  Py.is_digit c = true -> stem_char c = true.
Proof. intros c; each_char c. Qed.

Lemma all_chars_weaken : forall (p q : ascii -> bool) s,
  (forall c, p c = true -> q c = true) ->
  all_chars p s = true -> all_chars q s = true.
Proof.
  intros p q s Hpq. induction s as [|c s IH]; intros H; [reflexivity|].
  cbn [all_chars] in *. apply andb_prop in H as [Hc Hs].
  now rewrite (Hpq c Hc), IH.
Qed.

Lemma slug_is_slug_chars : forall x, slug_chars (slugify x) = true.
Proof.
  intros x. destruct (importer_slug_shape x) as [E|S].
  - now rewrite E.
  - now apply shape_slug_chars in S.
Qed.

Lemma slug_is_stem : forall x, all_chars stem_char (slugify x) = true.
Proof.
  intros x. apply (all_chars_weaken (fun c => Ascii.eqb c "-" || alnum c)).
  - apply slug_char_is_stem_char.
  - apply slug_is_slug_chars.
Qed.

Lemma digit_is_stem : forall n, all_chars stem_char (Os.digit n) = true.
Proof.
  intros n. destruct (digit_char n) as (c & -> & D).
  cbn [all_chars]. now rewrite (digit_is_stem_char c D).
Qed.

Lemma stamp_is_stem : forall now,
  all_chars stem_char (Os.strftime now) = true.
Proof.
  intros now. unfold Os.strftime, Os.fmt4, Os.fmt2.
  repeat rewrite all_chars_app. repeat rewrite digit_is_stem. reflexivity.
Qed.

(** X2. The file of a successful write lies in the directory named by
    the slug of the category, directly below the bookmark directory, and
    is named by a stem and [.md]; the slug holds only lower-case letters,
    digits and hyphens, the stem these and the underscore: neither the
    title nor the category can direct the file elsewhere. *)
Theorem written_file_stays_in_category :
  forall fs now title uri category tags add_date last_modified
         p t u c g fs',
    create_bookmark_file bookmarks_dir fs now title uri category tags
                         add_date last_modified
    = (Created p t u c g, fs') ->
    exists stem,
      p = Os.path_join (Os.path_join bookmarks_dir (slugify c))
                       (stem ++ ".md")
      /\ all_chars stem_char stem = true
      /\ slug_chars (slugify c) = true
      /\ Py.contains "/" (slugify c) = false
      /\ Py.contains "/" (stem ++ ".md") = false.
Proof.
  intros fs now title uri category tags add_date last_modified
         p t u c g fs' H.
  apply created_inversion in H as (_ & _ & _ & _ & fs1 & _ & Hp & _).
  assert (Hstem : forall stem, all_chars stem_char stem = true ->
            Py.contains "/" (stem ++ ".md") = false).
  { intros stem Hs. apply no_slash_chars. rewrite all_chars_app.
    rewrite (all_chars_weaken stem_char _ stem); [reflexivity| |exact Hs].
    intros x; each_char x. }
  assert (Hslug : Py.contains "/" (slugify c) = false).
  { apply no_slash_chars.
    apply (all_chars_weaken stem_char); [|apply slug_is_stem].
    intros x; each_char x. }
  destruct (Os.path_exists fs1 (plain_path bookmarks_dir c t)).
  - exists (slugify (sanitize_filename t) ++ "_" ++ Os.strftime now).
    assert (Hs : all_chars stem_char
                   (slugify (sanitize_filename t) ++ "_" ++ Os.strftime now)
                 = true).
    { rewrite !all_chars_app, slug_is_stem, stamp_is_stem. reflexivity. }
    repeat split; auto using slug_is_slug_chars.
    rewrite Hp. unfold stamped_path, category_dir.
    now rewrite !append_assoc.
  - exists (slugify (sanitize_filename t)).
    repeat split; auto using slug_is_slug_chars, slug_is_stem.
Qed.

Lemma mkdir_chain_adds_dirs : forall ds fs k n,
  Os.find k (fst (Os.mkdir_chain fs ds)) = Some n ->
  Os.find k fs = Some n \/ (Os.find k fs = None /\ n = Os.Dir).
Proof.
  induction ds as [|d ds IH]; intros fs k n H; [now left|].
  cbn [Os.mkdir_chain] in H. destruct (Os.find d fs) as [[x|]|] eqn:E.
  - now left.
  - now apply IH.
  - apply IH in H. destruct (string_dec d k) as [->|Hd].
    + right. split; [exact E|].
      rewrite find_put_same in H. destruct H as [H|[H _]]; congruence.
    + rewrite find_put_other in H by exact Hd. exact H.
Qed.

(** X3. What a call of the writer that succeeds does to the tree: the
    file it returns holds the text of the bookmark; every other entry
    that was there is still there, unchanged; and every other entry
    that is there afterwards was there before or is a new directory.
    A successful write removes nothing and writes one file. *)
Theorem write_changes_one_file :
  forall fs now title uri category tags add_date last_modified
         p t u c g fs' k n,
    create_bookmark_file bookmarks_dir fs now title uri category tags
                         add_date last_modified
    = (Created p t u c g, fs') ->
    k <> p ->
    (Os.find k fs = Some n -> Os.find k fs' = Some n)
    /\ (Os.find k fs' = Some n ->
        Os.find k fs = Some n \/ (Os.find k fs = None /\ n = Os.Dir))
    /\ Os.find p fs'
       = Some (Os.File (file_text t u g add_date last_modified)).
Proof.
  intros fs now title uri category tags add_date last_modified
         p t u c g fs' k n H Hk.
  apply created_inversion in H
    as (_ & _ & _ & _ & fs1 & Hm & Hp & Hw).
  assert (Hkey : Os.key p = p).
  { rewrite Hp. destruct (Os.path_exists fs1 _);
      [apply stamped_key|apply plain_key]. }
  apply write_file_result in Hw. subst fs'. rewrite Hkey.
  assert (K : Os.find k fs = Some n -> Os.find k fs1 = Some n).
  { intros F.
    pose proof (makedirs_keeps fs (category_dir bookmarks_dir c) k n F)
      as M.
    now rewrite Hm in M. }
  assert (K' : Os.find k fs1 = Some n ->
               Os.find k fs = Some n \/ (Os.find k fs = None /\ n = Os.Dir)).
  { intros F. apply (mkdir_chain_adds_dirs
                       (Os.chain EmptyString
                                 (category_dir bookmarks_dir c))).
    unfold Os.makedirs in Hm. now rewrite Hm. }
  assert (Hne : p <> k) by (intros E; now apply Hk).
  rewrite find_put_other by exact Hne.
  split; [exact K|]. split; [exact K'|]. apply find_put_same.
Qed.

Lemma strip_or_unusable : forall x default,
  unusable x = true -> strip_or x default = Raise AttributeError.
Proof.
  intros x default H. unfold unusable in H.
  apply andb_prop in H as [Ht Hs]. unfold strip_or. rewrite Ht.
  destruct x; try reflexivity. discriminate.
Qed.

Lemma strip_or_cases : forall x default,
  (exists s, strip_or x default = Ok s)
  \/ strip_or x default = Raise AttributeError.
Proof.
  intros x default. unfold strip_or.
  destruct (PyObj.truthy x); [|left; eexists; reflexivity].
  destruct x; cbn [PyObj.strip]; try (now right); left; eexists; reflexivity.
Qed.

(** X4. A title, an address, a category or tags that count as present
    (a number other than zero, [True], a list or a dictionary that is not
    empty) but are no string stop the writer: it answers with the failure
    record for an [AttributeError], and the tree is as it was. *)
Theorem non_text_field_fails :
  forall fs now title uri category tags add_date last_modified,
    existsb unusable [title; uri; category; tags] = true ->
    exists t u,
      create_bookmark_file bookmarks_dir fs now title uri category tags
                           add_date last_modified
      = (Failed AttributeError t u, fs).
Proof.
  intros fs now title uri category tags add_date last_modified H.
  unfold create_bookmark_file.
  destruct (strip_or_cases title "Untitled") as [[t' Et]|Et]; rewrite Et;
    [|eexists; eexists; reflexivity].
  destruct (strip_or_cases uri EmptyString) as [[u' Eu]|Eu]; rewrite Eu;
    [|eexists; eexists; reflexivity].
  destruct (strip_or_cases category "unsorted") as [[c' Ec]|Ec]; rewrite Ec;
    [|eexists; eexists; reflexivity].
  destruct (strip_or_cases tags EmptyString) as [[g' Eg]|Eg]; rewrite Eg;
    [|eexists; eexists; reflexivity].
  exfalso. cbn [existsb] in H.
  repeat (apply orb_prop in H as [H|H]); try discriminate.
  - rewrite (strip_or_unusable _ _ H) in Et. discriminate.
  - rewrite (strip_or_unusable _ _ H) in Eu. discriminate.
  - rewrite (strip_or_unusable _ _ H) in Ec. discriminate.
  - rewrite (strip_or_unusable _ _ H) in Eg. discriminate.
Qed.
End WriterExtras.

(* ===================================================================== *)
(** ** Further properties of the Netscape parser *)
(* ===================================================================== *)

Section ParserExtras.
Import BookmarksImporter.
Variable unquote : string -> string.

Lemma parse_from_counts : forall lines st,
  List.length (bookmarks (parse_from unquote st lines))
  = List.length (bookmarks st)
    + List.length (filter is_bookmark_line lines).
Proof.
  unfold parse_from, is_bookmark_line.
  induction lines as [|l lines IH]; intros st; [cbn; lia|].
  cbn [fold_left filter]. rewrite IH.
  destruct (classify l) eqn:E.
  - rewrite (line_folder_open unquote st l name E). reflexivity.
  - destruct (line_bookmark unquote st l E) as (b & -> & _).
    cbn [bookmarks List.length]. rewrite length_app. cbn [List.length]. lia.
  - rewrite (line_folder_close unquote st l E).
    destruct (path_parts st); reflexivity.
  - rewrite (line_other unquote st l E). reflexivity.
Qed.

(** X5. The parser yields one bookmark for every line that holds an
    anchor and no folder heading, whatever else the line holds (a second
    anchor on the line is not read), and nothing for any other line: so
    never more bookmarks than there are lines. *)
Theorem one_bookmark_per_line : forall html_content,
  List.length (_parse_html_bookmarks unquote html_content)
  = List.length (filter is_bookmark_line (Py.split newline html_content))
  /\ List.length (_parse_html_bookmarks unquote html_content)
     <= List.length (Py.split newline html_content).
Proof.
  intros html_content. unfold _parse_html_bookmarks, parse_lines.
  fold (parse_from unquote start (Py.split newline html_content)).
  rewrite parse_from_counts. cbn [start bookmarks List.length plus].
  split; [reflexivity|apply filter_length_le].
Qed.






End ParserExtras.

(* ===================================================================== *)
(** ** Further properties of the importers *)
(* ===================================================================== *)

Section ImporterExtras.
Import BookmarksImporter.
Variable bookmarks_dir : string.
Variable clock : nat -> Os.datetime.
Variable unquote : string -> string.
Variable json_loads : string -> result pyval.
Variable csv_DictReader : string -> list pydict * option exn.

Lemma failure_lists_match : forall entry, lists_match (failure entry).
Proof. intros entry. split; reflexivity. Qed.

Section AnyLoopLists.
Context {I : Type}.
Variable plan : I -> imported_entry.
Variable store : world -> I -> result (write_result * world).

Lemma loop_lists_match : forall count dry_run records results w r' w',
  loop plan store count dry_run records results w = (Ok r', w') ->
  lists_match results -> lists_match r'.
Proof.
  intros count dry_run records.
  induction records as [|x rest IH]; intros results w r' w' Hrun Hinv.
  - cbn [loop] in Hrun. now inversion Hrun; subst.
  - cbn [loop] in Hrun.
    set (results1 := if count then with_total (S (total results)) results
                     else results) in Hrun.
    assert (H1 : lists_match results1).
    { unfold results1. destruct count; [|exact Hinv].
      destruct Hinv as [Hi He]. split; assumption. }
    destruct H1 as [Hi He].
    destruct dry_run.
    + apply IH in Hrun; [exact Hrun|].
      split; cbn [preview imported success errors failed];
        [|exact He].
      rewrite length_app. cbn [List.length]. lia.
    + destruct (store w x) as [[r w1]|e]; [|discriminate].
      apply IH in Hrun; [exact Hrun|].
      unfold tally. destruct (succeeded r);
        split; cbn [imported success errors failed]; auto;
        rewrite length_app; cbn [List.length]; lia.
Qed.

(** The world after a loop over the records does not depend on the
    counters it started from, nor does its ending in an error. *)
Lemma loop_world : forall count dry_run records results1 results2 w,
  snd (loop plan store count dry_run records results1 w)
  = snd (loop plan store count dry_run records results2 w)
  /\ (forall e,
         fst (loop plan store count dry_run records results1 w) = Raise e
         -> fst (loop plan store count dry_run records results2 w)
            = Raise e).
Proof.
  intros count dry_run records.
  induction records as [|x rest IH]; intros results1 results2 w.
  - cbn [loop fst snd]. split; [reflexivity|discriminate].
  - cbn [loop]. destruct dry_run; [apply IH|].
    destruct (store w x) as [[r w1]|e]; [apply IH|].
    cbn [fst snd]. split; [reflexivity|auto].
Qed.

(** A record whose writer call raises ends the loop there: the records
    before it have been written, those after it are not looked at. *)
Lemma loop_stops_at_error : forall count good bad rest e results w,
  (forall w0 x, In x good -> exists rw, store w0 x = Ok rw) ->
  (forall w0, store w0 bad = Raise e) ->
  exists r1 w1,
    loop plan store count false good results w = (Ok r1, w1)
    /\ loop plan store count false (good ++ bad :: rest) results w
       = (Raise e, w1).
Proof.
  intros count good bad rest e.
  induction good as [|x good IH]; intros results w Hgood Hbad.
  - exists results, w. cbn [loop app]. now rewrite Hbad.
  - destruct (Hgood w x (or_introl eq_refl)) as [[r w0] Hx].
    cbn [loop app]. rewrite Hx. apply IH; [|exact Hbad].
    intros w2 y Hy. apply Hgood. now right.
Qed.

Lemma loop_dry_run_lists : forall count records results w,
  loop plan store count true records results w
  = (Ok {| total := (if count then total results + List.length records
                     else total results);
           success := success results + List.length records;
           failed := failed results;
           errors := errors results;
           imported := (imported results ++ map plan records)%list |}, w).
Proof.
  intros count records.
  induction records as [|x rest IH]; intros results w.
  - cbn [loop List.length map]. rewrite app_nil_r, !Nat.add_0_r.
    destruct results, count; reflexivity.
  - cbn [loop]. rewrite IH. f_equal. f_equal.
    cbn [List.length map preview total success failed errors imported].
    rewrite <- app_assoc. cbn [app].
    destruct count; cbn [with_total total success failed errors imported];
      f_equal; lia.
Qed.
End AnyLoopLists.

Lemma guarded_lists_match : forall run,
  (forall r w, run = (Ok r, w) -> lists_match r) ->
  lists_match (fst (guarded run)).
Proof.
  intros [[r|e] w] H; cbn [guarded fst].
  - now apply (H r w).
  - apply failure_lists_match.
Qed.

Lemma empty_lists_match : forall n, lists_match (with_total n empty_results).
Proof. intros n. split; reflexivity. Qed.

(** X7. In the result of every import the list [imported] has [success]
    entries and the list [errors] has [failed] entries: for the four
    importers and for [import_file], dry run or not, also when the
    import was given up. *)
Theorem result_lists_match_counters :
  forall file_path file format dry_run w,
    lists_match (fst (import_html_bookmarks bookmarks_dir clock unquote
                                            (text file) dry_run w))
    /\ lists_match (fst (import_json_bookmarks bookmarks_dir clock
                                               json_loads
                                               (text file) dry_run w))
    /\ lists_match (fst (import_csv_bookmarks bookmarks_dir clock
                                              csv_DictReader
                                              (text file) dry_run w))
    /\ lists_match (fst (import_pocket_export bookmarks_dir clock
                                              json_loads
                                              (text file) dry_run w))
    /\ lists_match (fst (import_file bookmarks_dir clock unquote json_loads
                                     csv_DictReader file_path file format
                                     dry_run w)).
Proof.
  intros file_path file format dry_run w.
  assert (Hh : lists_match
                 (fst (import_html_bookmarks bookmarks_dir clock unquote
                                             (text file) dry_run w))).
  { unfold import_html_bookmarks. apply guarded_lists_match.
    intros r w' Hrun. destruct (text file) as [content|]; [|discriminate].
    eapply loop_lists_match; [exact Hrun|apply empty_lists_match]. }
  assert (Hj : lists_match
                 (fst (import_json_bookmarks bookmarks_dir clock json_loads
                                             (text file) dry_run w))).
  { unfold import_json_bookmarks. apply guarded_lists_match.
    intros r w' Hrun.
    destruct (content <- text file ;; json_loads content) as [data|];
      [|discriminate].
    match type of Hrun with
    | match ?m with _ => _ end = _ => destruct m as [[n records]|]
    end; [|discriminate].
    eapply loop_lists_match; [exact Hrun|apply empty_lists_match]. }
  assert (Hc : lists_match
                 (fst (import_csv_bookmarks bookmarks_dir clock
                                            csv_DictReader
                                            (text file) dry_run w))).
  { unfold import_csv_bookmarks. apply guarded_lists_match.
    intros r w' Hrun. destruct (text file) as [content|]; [|discriminate].
    destruct (csv_DictReader content) as [rows stop].
    match type of Hrun with
    | match ?m with _ => _ end = _ => destruct m as [[r1|] w1] eqn:E
    end; [|discriminate].
    destruct stop; [discriminate|]. inversion Hrun; subst.
    eapply loop_lists_match; [exact E|]. split; reflexivity. }
  assert (Hp : lists_match
                 (fst (import_pocket_export bookmarks_dir clock json_loads
                                            (text file) dry_run w))).
  { unfold import_pocket_export. apply guarded_lists_match.
    intros r w' Hrun.
    match type of Hrun with
    | match ?m with _ => _ end = _ => destruct m as [[n pairs]|]
    end; [|discriminate].
    eapply loop_lists_match; [exact Hrun|apply empty_lists_match]. }
  repeat split; try apply Hh; try apply Hj; try apply Hc; try apply Hp;
    unfold import_file;
    (destruct (negb (present file)); [reflexivity|]);
    match goal with
    | |- context [String.eqb ?g "html"] => generalize g; intros f
    end;
    (destruct (String.eqb f "html"); [apply Hh|]);
    (destruct (String.eqb f "json"); [apply Hj|]);
    (destruct (String.eqb f "csv"); [apply Hc|]);
    (destruct (String.eqb f "pocket"); [apply Hp|]); reflexivity.
Qed.

Lemma store_record_of_dict : forall w d,
  exists rw, store_record bookmarks_dir clock w (PDict d) = Ok rw.
Proof. intros w d. eexists. reflexivity. Qed.

Lemma store_record_of_other : forall w v,
  is_dict v = false ->
  store_record bookmarks_dir clock w v = Raise AttributeError.
Proof. intros w v H. destruct v; try reflexivity. discriminate. Qed.

(** X8. An import is not undone when it stops. When a JSON list holds,
    after records that are dictionaries, an entry that is none, the
    importer reports the import as given up (nothing counted, one
    error), yet the tree is the one the import of the records before
    that entry leaves behind: their files stay written. *)
Theorem failed_import_keeps_earlier_files :
  forall content earlier good bad rest w,
    json_loads content = Ok (PList (good ++ bad :: rest)) ->
    json_loads earlier = Ok (PList good) ->
    forallb is_dict good = true ->
    is_dict bad = false ->
    import_json_bookmarks bookmarks_dir clock json_loads
                          (Ok content) false w
    = (failure (Exception AttributeError),
       snd (import_json_bookmarks bookmarks_dir clock json_loads
                                  (Ok earlier) false w)).
Proof.
  intros content earlier good bad rest w Hall Hgood Hdicts Hbad.
  unfold import_json_bookmarks. cbn [bind]. rewrite Hall, Hgood.
  cbn [json_records PyObj.len PyObj.iter bind].
  destruct (loop_stops_at_error Raw (store_record bookmarks_dir clock)
              false good bad rest AttributeError
              (with_total (List.length (good ++ bad :: rest)) empty_results)
              w) as (r1 & w1 & Hrun1 & Hrun).
  { intros w0 x Hx. rewrite forallb_forall in Hdicts.
    specialize (Hdicts x Hx). destruct x; try discriminate.
    apply store_record_of_dict. }
  { intros w0. now apply store_record_of_other. }
  rewrite Hrun. cbn [guarded]. f_equal.
  pose proof (loop_world Raw (store_record bookmarks_dir clock) false false
                good
                (with_total (List.length (good ++ bad :: rest)) empty_results)
                (with_total (List.length good) empty_results) w)
    as [Hw He].
  rewrite Hrun1 in Hw. cbn [snd] in Hw.
  destruct (loop Raw (store_record bookmarks_dir clock) false false good
                 (with_total (List.length good) empty_results) w)
    as [[r2|e2] w2] eqn:E2; cbn [snd] in Hw; cbn [guarded snd]; congruence.
Qed.

(** X9. A dry run answers with the records themselves, in the order of
    the file: the bookmarks the Netscape parser read; the entries of the
    JSON document; the rows of the CSV reader, when it read the file to
    its end; the items of the Pocket list. Every record counts as a
    success and there is no error entry. *)
Theorem dry_run_previews_records : forall content w,
  import_html_bookmarks bookmarks_dir clock unquote (Ok content) true w
  = (preview_of (map Parsed (_parse_html_bookmarks unquote content)), w)
  /\ (forall data records,
         json_loads content = Ok data ->
         PyObj.iter (json_records data) = Ok records ->
         import_json_bookmarks bookmarks_dir clock json_loads
                               (Ok content) true w
         = (preview_of (map Raw records), w))
  /\ (forall rows,
         csv_DictReader content = (rows, None) ->
         import_csv_bookmarks bookmarks_dir clock csv_DictReader
                              (Ok content) true w
         = (preview_of (map Raw (map PDict rows)), w))
  /\ (forall data items,
         json_loads content = Ok data ->
         pocket_items data = Ok (PDict items) ->
         import_pocket_export bookmarks_dir clock json_loads
                              (Ok content) true w
         = (preview_of (map (fun entry => Raw (snd entry)) items), w)).
Proof.
  intros content w. unfold preview_of. repeat split.
  - unfold import_html_bookmarks. rewrite loop_dry_run_lists.
    cbn [guarded with_total empty_results total success failed errors
         imported app plus]. now rewrite length_map.
  - intros data records Hd Hi. unfold import_json_bookmarks.
    cbn [bind]. rewrite Hd, Hi.
    assert (Hn : PyObj.len (json_records data)
                 = Ok (List.length records)).
    { destruct (json_records data); try discriminate; cbn in Hi |- *;
        inversion Hi; subst; f_equal.
      - clear. induction s; cbn; auto.
      - now rewrite length_map. }
    rewrite Hn. cbn [bind]. rewrite loop_dry_run_lists.
    cbn [guarded with_total empty_results total success failed errors
         imported app plus]. now rewrite length_map.
  - intros rows Hr. unfold import_csv_bookmarks. rewrite Hr.
    rewrite loop_dry_run_lists.
    cbn [guarded with_total empty_results total success failed errors
         imported app plus]. now rewrite !length_map.
  - intros data items Hd Hi. unfold import_pocket_export.
    cbn [bind]. rewrite Hd. cbn [bind]. rewrite Hi.
    cbn [bind PyObj.len PyObj.items]. rewrite loop_dry_run_lists.
    cbn [guarded with_total empty_results total success failed errors
         imported app plus]. now rewrite length_map.
Qed.

(** X10. A Pocket export has to be a JSON object. For a document that
    is anything else (a list, a string, a number, [true], [false],
    [null]) the Pocket importer gives the import up with one error,
    dry run or not, and leaves the tree alone. *)
Theorem pocket_export_must_be_object : forall content data dry_run w,
  json_loads content = Ok data ->
  is_dict data = false ->
  exists e,
    import_pocket_export bookmarks_dir clock json_loads
                         (Ok content) dry_run w
    = (failure (Exception e), w).
Proof.
  intros content data dry_run w Hd Hn.
  unfold import_pocket_export. cbn [bind]. rewrite Hd. cbn [bind].
  unfold pocket_items.
  destruct data as [| | | |s|l|d]; try discriminate;
    cbn [PyObj.contains bind];
    try (eexists; reflexivity).
  - destruct (Py.contains "list" s); cbn [PyObj.getitem bind PyObj.len
                                            PyObj.items guarded];
      eexists; reflexivity.
  - destruct (existsb (PyObj.is_str "list") l);
      cbn [PyObj.getitem bind PyObj.len PyObj.items guarded];
      eexists; reflexivity.
Qed.
End ImporterExtras.

(* ===================================================================== *)
(** ** Further properties of the manager *)
(* ===================================================================== *)

Section ManagerExtras.
Import BookmarksManager.
Variable bookmarks_dir : string.
Variable getcwd : string.
Variable expanduser : string -> string.
Variable realpath : string -> string.
Variable readable : string -> bool.

(** X11. An address that is neither an [http://] or [https://] URL nor
    a file (a path starting with a slash, a tilde or a dot, or a
    [file://] URI) is refused as not accessible, without a request being
    made and without touching the tree. *)
Theorem other_address_is_refused :
  forall network fs title uri category tags name force,
    Py.nonempty uri = true ->
    is_url uri = false ->
    is_file uri = false ->
    create_bookmark bookmarks_dir getcwd expanduser realpath readable
                    network fs title uri category tags name force
    = (BookmarkError (NotAccessible uri), fs).
Proof.
  intros network fs title uri category tags name force Hne Hurl Hfile.
  unfold create_bookmark. rewrite Hne, Hfile, Hurl. cbn [negb].
  unfold is_uri_accessible. now rewrite Hurl, Hfile.
Qed.

Lemma joined_md_key : forall a x,
  Os.key (Os.path_join a (x ++ ".md")) = Os.path_join a (x ++ ".md").
Proof.
  intros a x. unfold Os.path_join.
  destruct (Py.startswith (x ++ ".md") "/"); [apply key_md|].
  destruct (negb (Py.nonempty a) || Py.endswith a "/").
  - rewrite <- append_assoc. apply key_md.
  - rewrite <- !append_assoc. apply key_md.
Qed.

(** X12. Unless [force] is set, [create_bookmark] changes no entry of
    the tree, whatever its outcome: what was there is still there with
    the same content. With [force] set the same holds for every entry
    but the file the call returns. *)
Theorem create_bookmark_overwrites_only_when_forced :
  forall network fs title uri category tags name force r fs' k n,
    create_bookmark bookmarks_dir getcwd expanduser realpath readable
                    network fs title uri category tags name force
    = (r, fs') ->
    Os.find k fs = Some n ->
    force = false \/ created_path r <> Some k ->
    Os.find k fs' = Some n.
Proof.
  intros network fs title uri category tags name force r fs' k n H Hk Hf.
  unfold create_bookmark in H.
  destruct (negb (Py.nonempty uri)); [now inversion H; subst|].
  set (uri1 := if is_file uri then realpath (expand_path getcwd expanduser uri)
               else uri) in H.
  set (uri2 := if is_url uri1 then get_final_uri (network 0) uri1
               else uri1) in H.
  destruct (negb (is_uri_accessible getcwd expanduser readable
                                    (network 1) uri2));
    [now inversion H; subst|].
  set (chosen := if negb (Py.nonempty category)
                 then (if is_local_file uri2 then "files" else "unsorted")
                 else category) in H.
  set (title1 := if negb (Py.nonempty title)
                 then get_title_from_uri getcwd expanduser (network 2) uri2
                 else title) in H.
  set (title2 := if negb (Py.nonempty title1)
                 then Os.basename (Py.rstrip_chars "/" uri2)
                 else title1) in H.
  set (name1 := if negb (Py.nonempty name) then title2 else name) in H.
  destruct (negb (Py.nonempty title2)); [now inversion H; subst|].
  destruct (negb (Py.nonempty chosen)); [now inversion H; subst|].
  pose proof (makedirs_keeps fs (Os.path_join bookmarks_dir (slugify chosen))
                k n Hk) as K.
  destruct (Os.makedirs fs (Os.path_join bookmarks_dir (slugify chosen)))
    as [fs1 [e|]]; cbn [fst] in K; [now inversion H; subst|].
  set (filename := Os.path_join (Os.path_join bookmarks_dir (slugify chosen))
                                (slugify name1 ++ ".md")) in H.
  assert (Hkey : Os.key filename = filename) by apply joined_md_key.
  destruct (Os.path_exists fs1 filename) eqn:Ex; destruct force;
    cbn [negb andb] in H; try (now inversion H; subst).
  - destruct (Os.write_file fs1 filename _) as [fs2|e] eqn:Ew;
      [|now inversion H; subst].
    inversion H; subst r fs'. cbn [created_path] in Hf.
    destruct Hf as [Hf|Hf]; [discriminate|].
    apply write_file_result in Ew. subst fs2.
    rewrite find_put_other; [exact K|].
    rewrite Hkey. intros E. apply Hf. now rewrite E.
  - destruct (Os.write_file fs1 filename _) as [fs2|e] eqn:Ew;
      [|now inversion H; subst].
    inversion H; subst r fs'. cbn [created_path] in Hf.
    destruct Hf as [Hf|Hf]; [discriminate|].
    apply write_file_result in Ew. subst fs2.
    rewrite find_put_other; [exact K|].
    rewrite Hkey. intros E. apply Hf. now rewrite E.
  - destruct (Os.write_file fs1 filename _) as [fs2|e] eqn:Ew;
      [|now inversion H; subst].
    inversion H; subst r fs'.
    apply write_file_result in Ew. subst fs2.
    rewrite find_put_other; [exact K|].
    rewrite Hkey. intros E. unfold Os.path_exists in Ex.
    rewrite Hkey, E, K in Ex. discriminate.
Qed.

(** For an address that is a string: the error for an empty address is
    answered exactly for the empty string, and the error for an empty
    category never. *)
Lemma string_address_errors :
  forall network fs title uri category tags name force,
    let r := fst (create_bookmark bookmarks_dir getcwd expanduser realpath
                                  readable network fs title uri category
                                  tags name force) in
    (r = BookmarkError UriEmpty <-> uri = EmptyString)
    /\ (forall t, r <> BookmarkError (CategoryEmpty t)).
Proof.
  intros network fs title uri category tags name force.
  unfold create_bookmark.
  destruct uri as [|x uri].
  { cbn. split; [tauto|discriminate]. }
  cbn [Py.nonempty negb].
  set (uri1 := if is_file (String x uri)
               then realpath (expand_path getcwd expanduser (String x uri))
               else String x uri).
  set (uri2 := if is_url uri1 then get_final_uri (network 0) uri1
               else uri1).
  destruct (negb (is_uri_accessible getcwd expanduser readable
                                    (network 1) uri2)).
  { cbn [fst]. split; [split; discriminate|discriminate]. }
  set (chosen := if negb (Py.nonempty category)
                 then (if is_local_file uri2 then "files" else "unsorted")
                 else category).
  assert (Hchosen : Py.nonempty chosen = true).
  { unfold chosen. destruct (Py.nonempty category) eqn:E;
      [exact E|]. cbn [negb]. now destruct (is_local_file uri2). }
  set (title1 := if negb (Py.nonempty title)
                 then get_title_from_uri getcwd expanduser (network 2) uri2
                 else title).
  set (title2 := if negb (Py.nonempty title1)
                 then Os.basename (Py.rstrip_chars "/" uri2)
                 else title1).
  destruct (negb (Py.nonempty title2)).
  { cbn [fst]. split; [split; discriminate|discriminate]. }
  rewrite Hchosen. cbn [negb].
  destruct (Os.makedirs fs (Os.path_join bookmarks_dir (slugify chosen)))
    as [fs1 [e|]].
  { cbn [fst]. split; [split; discriminate|discriminate]. }
  match goal with
  | |- context [if ?b then _ else _] => destruct b
  end.
  { cbn [fst]. split; [split; discriminate|discriminate]. }
  match goal with
  | |- context [Os.write_file ?a ?b ?c] => destruct (Os.write_file a b c)
  end; cbn [fst]; (split; [split; discriminate|discriminate]).
Qed.

(** X13. The errors of [create_bookmark], whatever value it is given as
    address: it answers that the address is empty exactly when the
    value counts as false (the empty string, none, zero, [False], an
    empty list or dictionary), and never that the category is empty,
    since a category that is not given is replaced before it is
    checked. *)
Theorem create_bookmark_error_cases :
  forall network fs title uri category tags name force,
    let r := fst (create_bookmark_value
                    bookmarks_dir getcwd expanduser realpath readable
                    network fs title uri category tags name force) in
    (r = BookmarkError UriEmpty <-> PyObj.truthy uri = false)
    /\ (forall t, r <> BookmarkError (CategoryEmpty t)).
Proof.
  intros network fs title uri category tags name force.
  unfold create_bookmark_value.
  destruct (PyObj.truthy uri) eqn:T; cbn [negb].
  - destruct uri as [| | | |s| |];
      try (cbn [fst]; split; [split; discriminate|discriminate]).
    pose proof (string_address_errors network fs title s category tags
                  name force) as [Hu Hc].
    cbv zeta in Hu, Hc. cbv zeta. split; [|exact Hc].
    split; [|discriminate]. intros E. apply Hu in E. subst s.
    discriminate.
  - cbn [fst]. split; [tauto|discriminate].
Qed.

Lemma absolute_is_local : forall p,
  Py.startswith p "/" = true -> is_local_file p = true.
Proof. intros p H. unfold is_local_file. now rewrite H. Qed.

Lemma absolute_is_no_url : forall p,
  Py.startswith p "/" = true -> is_url p = false.
Proof.
  intros [|c p] H; [discriminate|].
  unfold Py.startswith in H. cbn [Py.starts] in H.
  apply andb_prop in H as [H _]. apply Ascii.eqb_eq in H. subst c.
  reflexivity.
Qed.

Lemma absolute_expands_to_itself : forall p,
  Py.startswith p "/" = true -> expand_path getcwd expanduser p = p.
Proof.
  intros [|c p] H; [discriminate|].
  unfold Py.startswith in H. cbn [Py.starts] in H.
  apply andb_prop in H as [H _]. apply Ascii.eqb_eq in H. subst c.
  reflexivity.
Qed.

(** X14. A [file://] address is stored as the real path of its file:
    when that path is absolute, as [realpath] makes it, a bookmark that
    is created carries the path as its address, the file was found
    readable, and a category that is not given becomes [files]. *)
Theorem file_uri_is_stored_as_path :
  forall network fs title path category tags name force f t u c g fs',
    Py.startswith (realpath path) "/" = true ->
    create_bookmark bookmarks_dir getcwd expanduser realpath readable
                    network fs title ("file://" ++ path) category tags
                    name force
    = (BookmarkCreated f t u c g, fs') ->
    u = realpath path
    /\ readable (realpath path) = true
    /\ (category = EmptyString -> c = "files").
Proof.
  intros network fs title path category tags name force f t u c g fs'
         Habs H.
  unfold create_bookmark in H.
  change (Py.nonempty ("file://" ++ path)) with true in H.
  change (is_file ("file://" ++ path)) with true in H.
  change (expand_path getcwd expanduser ("file://" ++ path)) with path in H.
  cbn [negb] in H.
  rewrite (absolute_is_no_url _ Habs) in H.
  unfold is_uri_accessible in H.
  rewrite (absolute_is_no_url _ Habs) in H.
  unfold is_file in H at 1.
  rewrite (absolute_is_local _ Habs) in H. cbn [orb] in H.
  rewrite (absolute_expands_to_itself _ Habs) in H.
  destruct (readable (realpath path)); [|discriminate]. cbn [negb] in H.
  set (chosen := if negb (Py.nonempty category) then "files"
                 else category) in H.
  match type of H with
  | (if ?b then _ else _) = _ => destruct b; [discriminate|]
  end.
  destruct (negb (Py.nonempty chosen)); [discriminate|].
  destruct (Os.makedirs fs (Os.path_join bookmarks_dir (slugify chosen)))
    as [fs1 [e|]]; [discriminate|].
  match type of H with
  | (if ?b then _ else _) = _ => destruct b; [discriminate|]
  end.
  match type of H with
  | match ?m with _ => _ end = _ => destruct m as [fs2|]
  end; [|discriminate].
  inversion H; subst. repeat split.
  intros ->. reflexivity.
Qed.
End ManagerExtras.

(* ===================================================================== *)
(** ** Further properties of the search *)
(* ===================================================================== *)

Section SearchExtras.
Import BookmarksManager.
Variable bookmarks_dir : string.
Variable md5_hex : string -> string.
Variable fs : Os.filesystem.

Lemma scan_files_bound : forall q limit root files results,
  (Z.of_nat (List.length results) < Z.max 1 limit)%Z ->
  (Z.of_nat (List.length (scan_files md5_hex fs q limit root files results))
   <= Z.max 1 limit)%Z.
Proof.
  intros q limit root files.
  induction files as [|f files IH]; intros results H; cbn [scan_files];
    [lia|].
  destruct (Py.endswith f ".md"); [|now apply IH].
  destruct (Os.read_text fs (Os.path_join root f)) as [content|];
    [|now apply IH].
  destruct (Py.contains q (Py.lower content)); [|now apply IH].
  set (results1 := (results ++ [entry md5_hex root (Os.path_join root f)
                                      content])%list).
  assert (L : Z.of_nat (List.length results1)
              = (Z.of_nat (List.length results) + 1)%Z).
  { unfold results1. rewrite length_app. cbn [List.length]. lia. }
  destruct (full limit results1) eqn:F; [lia|].
  apply IH. unfold full in F. apply Z.leb_gt in F. lia.
Qed.

Lemma scan_dirs_bound : forall q limit dirs results,
  (Z.of_nat (List.length results) < Z.max 1 limit)%Z ->
  (Z.of_nat (List.length (scan_dirs md5_hex fs q limit dirs results))
   <= Z.max 1 limit)%Z.
Proof.
  intros q limit dirs.
  induction dirs as [|[[root ds] files] dirs IH]; intros results H;
    cbn [scan_dirs]; [lia|].
  pose proof (scan_files_bound q limit root files results H) as B.
  destruct (full limit (scan_files md5_hex fs q limit root files results))
    eqn:F; [exact B|].
  apply IH. unfold full in F. apply Z.leb_gt in F. lia.
Qed.

(** X15. A search answers with at most [limit] results; with a limit
    below one it still answers with one result at most, the first it
    meets. *)
Theorem search_respects_limit : forall query limit,
  (Z.of_nat (List.length (search_bookmarks bookmarks_dir md5_hex fs
                                           query limit))
   <= Z.max 1 limit)%Z.
Proof.
  intros query limit. unfold search_bookmarks.
  destruct (Nat.ltb (String.length query) 3); [cbn; lia|].
  apply scan_dirs_bound. cbn. lia.
Qed.

Lemma scan_files_sound : forall q limit root files results r,
  In r (scan_files md5_hex fs q limit root files results) ->
  In r results
  \/ exists file content,
       In file files
       /\ Py.endswith file ".md" = true
       /\ Os.read_text fs (Os.path_join root file) = Ok content
       /\ Py.contains q (Py.lower content) = true
       /\ r = entry md5_hex root (Os.path_join root file) content.
Proof.
  intros q limit root files.
  induction files as [|f files IH]; intros results r H; cbn [scan_files] in H;
    [now left|].
  assert (Hrest : forall results0,
             In r (scan_files md5_hex fs q limit root files results0) ->
             In r results0
             \/ exists file content,
                  In file (f :: files)
                  /\ Py.endswith file ".md" = true
                  /\ Os.read_text fs (Os.path_join root file) = Ok content
                  /\ Py.contains q (Py.lower content) = true
                  /\ r = entry md5_hex root (Os.path_join root file) content).
  { intros results0 H0. destruct (IH results0 r H0)
      as [Hin|(file & content & Hf & Hrest)]; [now left|right].
    exists file, content. split; [now right|exact Hrest]. }
  destruct (Py.endswith f ".md") eqn:Emd; [|now apply Hrest].
  destruct (Os.read_text fs (Os.path_join root f)) as [content|] eqn:Er;
    [|now apply Hrest].
  destruct (Py.contains q (Py.lower content)) eqn:Eq; [|now apply Hrest].
  assert (Hnew : In r (results ++ [entry md5_hex root (Os.path_join root f)
                                         content]) ->
                 In r results
                 \/ exists file content0,
                      In file (f :: files)
                      /\ Py.endswith file ".md" = true
                      /\ Os.read_text fs (Os.path_join root file)
                         = Ok content0
                      /\ Py.contains q (Py.lower content0) = true
                      /\ r = entry md5_hex root (Os.path_join root file)
                                   content0).
  { intros Hin. apply in_app_or in Hin as [Hin|[<-|[]]]; [now left|right].
    exists f, content. repeat split; auto. now left. }
  destruct (full limit _) in H; [now apply Hnew|].
  destruct (Hrest _ H) as [Hin|Hex]; [now apply Hnew|now right].
Qed.

Lemma scan_dirs_sound : forall q limit dirs results r,
  In r (scan_dirs md5_hex fs q limit dirs results) ->
  In r results
  \/ exists root ds files file content,
       In (root, ds, files) dirs
       /\ In file files
       /\ Py.endswith file ".md" = true
       /\ Os.read_text fs (Os.path_join root file) = Ok content
       /\ Py.contains q (Py.lower content) = true
       /\ r = entry md5_hex root (Os.path_join root file) content.
Proof.
  intros q limit dirs.
  induction dirs as [|[[root ds] files] dirs IH]; intros results r H;
    cbn [scan_dirs] in H; [now left|].
  assert (Hhere : In r (scan_files md5_hex fs q limit root files results) ->
                  In r results
                  \/ exists root0 ds0 files0 file content,
                       In (root0, ds0, files0) ((root, ds, files) :: dirs)
                       /\ In file files0
                       /\ Py.endswith file ".md" = true
                       /\ Os.read_text fs (Os.path_join root0 file)
                          = Ok content
                       /\ Py.contains q (Py.lower content) = true
                       /\ r = entry md5_hex root0 (Os.path_join root0 file)
                                    content).
  { intros Hin. apply scan_files_sound in Hin
      as [Hin|(file & content & Hrest)]; [now left|right].
    exists root, ds, files, file, content. split; [now left|exact Hrest]. }
  destruct (full limit _) in H; [now apply Hhere|].
  apply IH in H as [Hin|(root0 & ds0 & files0 & file & content & Hd & Hrest)];
    [now apply Hhere|right].
  exists root0, ds0, files0, file, content. split; [now right|exact Hrest].
Qed.

(** X16. Every result of a search stands for a file of the walk: a file
    whose name ends in [.md], that could be read, and whose text, as
    a read in text mode hands it over, holds the query when both are
    put in lower case; the result carries the
    digest of its path, the fields read from its text and, as category,
    the name of its directory. A query has at least three characters
    when there is a result. *)
Theorem search_result_is_matching_file : forall query limit r,
  In r (search_bookmarks bookmarks_dir md5_hex fs query limit) ->
  3 <= String.length query
  /\ exists root dirs files file content,
       In (root, dirs, files) (Os.walk fs bookmarks_dir)
       /\ In file files
       /\ Py.endswith file ".md" = true
       /\ Os.read_text fs (Os.path_join root file) = Ok content
       /\ Py.contains (Py.lower query) (Py.lower content) = true
       /\ r = {| r_id := md5_hex (Os.path_join root file);
                 r_url := field (field_re "uri") content;
                 r_title := field (field_re "title") content;
                 r_tags := parse_tags (field tags_re content);
                 r_category := Os.basename root |}.
Proof.
  intros query limit r H. unfold search_bookmarks in H.
  destruct (Nat.ltb_spec (String.length query) 3) as [L|L];
    [contradiction|].
  split; [exact L|].
  apply scan_dirs_sound in H as [[]|H]. exact H.
Qed.

Lemma all_chars_lstrip : forall q p s,
  all_chars q s = true -> all_chars q (Py.lstrip_by p s) = true.
Proof.
  intros q p s. induction s as [|c s IH]; intros H; [reflexivity|].
  cbn [Py.lstrip_by]. destruct (p c); [|exact H].
  cbn [all_chars] in H. apply andb_prop in H as [_ H]. now apply IH.
Qed.

Lemma all_chars_rstrip : forall q p s,
  all_chars q s = true -> all_chars q (Py.rstrip_by p s) = true.
Proof.
  intros q p s. induction s as [|c s IH]; intros H; [reflexivity|].
  cbn [all_chars] in H. apply andb_prop in H as [Hc Hs].
  cbn [Py.rstrip_by]. specialize (IH Hs).
  destruct (Py.rstrip_by p s) as [|d r].
  - destruct (p c); [reflexivity|]. cbn [all_chars]. now rewrite Hc.
  - cbn [all_chars] in *. now rewrite Hc, IH.
Qed.

Lemma all_chars_strip : forall q p s,
  all_chars q s = true -> all_chars q (Py.strip_by p s) = true.
Proof.
  intros q p s H. unfold Py.strip_by.
  now apply all_chars_rstrip, all_chars_lstrip.
Qed.

Lemma rstrip_twice : forall p s,
  Py.rstrip_by p (Py.rstrip_by p s) = Py.rstrip_by p s.
Proof.
  intros p s. induction s as [|c s IH]; [reflexivity|].
  cbn [Py.rstrip_by]. destruct (Py.rstrip_by p s) as [|d r] eqn:E.
  - destruct (p c) eqn:Ec; [reflexivity|]. cbn [Py.rstrip_by]. now rewrite Ec.
  - change (Py.rstrip_by p (String c (String d r)))
      with (match Py.rstrip_by p (String d r) with
            | EmptyString => if p c then EmptyString
                             else String c EmptyString
            | r' => String c r'
            end).
    now rewrite IH.
Qed.

Lemma lstrip_head : forall p s,
  Py.lstrip_by p s = EmptyString
  \/ exists c t, Py.lstrip_by p s = String c t /\ p c = false.
Proof.
  intros p s. induction s as [|c s IH]; [now left|].
  cbn [Py.lstrip_by]. destruct (p c) eqn:E; [exact IH|right].
  now exists c, s.
Qed.

Lemma strip_twice : forall p s,
  Py.strip_by p (Py.strip_by p s) = Py.strip_by p s.
Proof.
  intros p s. unfold Py.strip_by.
  destruct (lstrip_head p s) as [E|(c & t & E & Hc)]; rewrite E.
  - reflexivity.
  - assert (L : Py.lstrip_by p (Py.rstrip_by p (String c t))
                = Py.rstrip_by p (String c t)).
    { cbn [Py.rstrip_by]. destruct (Py.rstrip_by p t); rewrite ?Hc;
        cbn [Py.lstrip_by]; now rewrite Hc. }
    rewrite L. apply rstrip_twice.
Qed.

Lemma split_pieces : forall sep s x,
  In x (Py.split sep s) ->
  all_chars (fun c => negb (Ascii.eqb c sep)) x = true.
Proof.
  intros sep s. induction s as [|c s IH]; intros x H.
  - destruct H as [<-|[]]. reflexivity.
  - cbn [Py.split] in H. destruct (Ascii.eqb c sep) eqn:E.
    + destruct H as [<-|H]; [reflexivity|now apply IH].
    + destruct (Py.split sep s) as [|h t] eqn:Es.
      * destruct H as [<-|[]]. cbn [all_chars]. now rewrite E.
      * destruct H as [<-|H].
        -- cbn [all_chars]. rewrite E. cbn [negb andb].
           apply IH. now left.
        -- apply IH. now right.
Qed.

Lemma without_char : forall x s,
  all_chars (fun c => negb (Ascii.eqb c x)) s = true ->
  Py.contains (String x EmptyString) s = false.
Proof.
  intros x s. induction s as [|c s IH]; intros H; [reflexivity|].
  cbn [all_chars] in H. apply andb_prop in H as [Hc Hs].
  cbn [Py.contains Py.starts]. rewrite Ascii.eqb_sym.
  destruct (Ascii.eqb c x); [discriminate|]. cbn [andb orb]. now apply IH.
Qed.

Lemma parse_tags_clean : forall tags_str tag,
  In tag (parse_tags tags_str) ->
  Py.nonempty tag = true
  /\ Py.strip tag = tag
  /\ Py.contains "," tag = false.
Proof.
  intros tags_str tag H. unfold parse_tags in H.
  destruct (Py.nonempty tags_str); [|contradiction].
  apply in_map_iff in H as (piece & <- & H).
  apply filter_In in H as [Hpiece Hne].
  repeat split; [exact Hne|apply strip_twice|].
  apply without_char. apply all_chars_strip.
  now apply (split_pieces "," tags_str).
Qed.

(** X17. The tags of every result of a search are clean: none is
    empty, none has white space around it, none holds a comma. *)
Theorem search_result_tags_are_clean : forall query limit r tag,
  In r (search_bookmarks bookmarks_dir md5_hex fs query limit) ->
  In tag (r_tags r) ->
  Py.nonempty tag = true
  /\ Py.strip tag = tag
  /\ Py.contains "," tag = false.
Proof.
  intros query limit r tag H Ht. unfold search_bookmarks in H.
  destruct (Nat.ltb (String.length query) 3); [contradiction|].
  apply scan_dirs_sound
    in H as [[]|(root & ds & files & file & content & _ & _ & _ & _ & _ & ->)].
  cbn [entry r_tags] in Ht. now apply parse_tags_clean in Ht.
Qed.
End SearchExtras.

(* ===================================================================== *)
(** ** The two [slugify] functions on plain text *)
(* ===================================================================== *)

Lemma space_becomes_hyphen : forall c,
  Py.isspace c = true -> BookmarksImporter.not_slug_char c = true.
Proof. intros c; each_char c. Qed.

Lemma classes_agree_on_lower : forall c,
  (if BookmarksManager.not_alnum (Py.lower_char c) then "-"%char
   else Py.lower_char c)
  = (if BookmarksImporter.not_slug_char (Py.lower_char c) then "-"%char
     else Py.lower_char c).
Proof. intros c; each_char c. Qed.

Lemma ascii_text_nfkd : forall s,
  ascii_text s = true -> BookmarksManager.nfkd_ascii s = s.
Proof.
  unfold ascii_text. induction s as [|c s IH]; intros H; [reflexivity|].
  cbn [all_chars] in H. apply andb_prop in H as [Hc Hs].
  cbn [BookmarksManager.nfkd_ascii].
  unfold BookmarksManager.nfkd_ascii_char. rewrite Hc.
  cbn [String.append]. now rewrite IH.
Qed.

Lemma map_chars_app : forall f a b,
  Py.map_chars f (a ++ b) = Py.map_chars f a ++ Py.map_chars f b.
Proof.
  intros f a b. induction a as [|c a IH]; [reflexivity|].
  cbn [String.append Py.map_chars]. now rewrite IH.
Qed.

Lemma lstrip_squeeze : forall p s b,
  is_hyphen p ->
  Py.lstrip_by p (squeeze b s) = squeeze false (Py.lstrip_by p s).
Proof.
  intros p s b Hp. revert b. induction s as [|c s IH]; intros b; [reflexivity|].
  cbn [squeeze Py.lstrip_by]. rewrite Hp.
  destruct (Ascii.eqb c "-") eqn:E.
  - destruct b; [apply IH|]. cbn [Py.lstrip_by]. rewrite Hp, E. apply IH.
  - cbn [Py.lstrip_by squeeze]. now rewrite Hp, E.
Qed.

Lemma rstrip_squeeze_hyphen : forall p s b,
  is_hyphen p ->
  Py.rstrip_by p (squeeze b (s ++ "-")) = Py.rstrip_by p (squeeze b s).
Proof.
  intros p s b Hp. revert b. induction s as [|c s IH]; intros b.
  - cbn. destruct b; [reflexivity|]. cbn. now rewrite Hp.
  - cbn [String.append squeeze]. destruct (Ascii.eqb c "-").
    + destruct b; [apply IH|]. cbn [Py.rstrip_by]. now rewrite IH.
    + cbn [Py.rstrip_by]. now rewrite IH.
Qed.

Lemma lstrip_app : forall p a b,
  Py.lstrip_by p (a ++ b)
  = match Py.lstrip_by p a with
    | EmptyString => Py.lstrip_by p b
    | r => r ++ b
    end.
Proof.
  intros p a b. induction a as [|c a IH]; [reflexivity|].
  cbn [String.append Py.lstrip_by]. destruct (p c); [exact IH|reflexivity].
Qed.

Lemma finish_steps : forall s,
  finish s
  = Py.rstrip_by (fun c => Py.mem_char c "-")
      (squeeze false (Py.lstrip_by (fun c => Py.mem_char c "-") s)).
Proof.
  intros s. unfold finish, Py.strip_chars, Py.strip_by.
  rewrite sub_run_squeeze. now rewrite lstrip_squeeze by apply mem_hyphen.
Qed.

Lemma finish_after_hyphen : forall s, finish (String "-" s) = finish s.
Proof. intros s. now rewrite !finish_steps. Qed.

Lemma finish_before_hyphen : forall s, finish (s ++ "-") = finish s.
Proof.
  intros s. rewrite !finish_steps, lstrip_app.
  destruct (Py.lstrip_by (fun c => Py.mem_char c "-") s) as [|c r] eqn:E.
  - reflexivity.
  - apply rstrip_squeeze_hyphen, mem_hyphen.
Qed.

Lemma append_empty : forall s : string, s ++ EmptyString = s.
Proof. induction s as [|c s IH]; cbn; [reflexivity|now rewrite IH]. Qed.

Lemma finish_before_hyphens : forall h s,
  all_chars (fun c => Ascii.eqb c "-") h = true -> finish (s ++ h) = finish s.
Proof.
  induction h as [|c h IH]; intros s H.
  - now rewrite append_empty.
  - cbn [all_chars] in H. apply andb_prop in H as [Hc Hh].
    apply Ascii.eqb_eq in Hc. subst c.
    change (s ++ String "-" h) with (s ++ "-" ++ h).
    rewrite <- append_assoc, IH by exact Hh. apply finish_before_hyphen.
Qed.

Lemma finish_after_hyphens : forall h s,
  all_chars (fun c => Ascii.eqb c "-") h = true -> finish (h ++ s) = finish s.
Proof.
  induction h as [|c h IH]; intros s H; [reflexivity|].
  cbn [all_chars] in H. apply andb_prop in H as [Hc Hh].
  apply Ascii.eqb_eq in Hc. subst c.
  cbn [String.append]. rewrite finish_after_hyphen. now apply IH.
Qed.

Lemma lstrip_splits : forall p s,
  exists pre, s = pre ++ Py.lstrip_by p s /\ all_chars p pre = true.
Proof.
  intros p s. induction s as [|c s (pre & E & H)].
  - now exists EmptyString.
  - cbn [Py.lstrip_by]. destruct (p c) eqn:Ec.
    + exists (String c pre). cbn [String.append all_chars].
      split; [congruence|now rewrite Ec, H].
    + now exists EmptyString.
Qed.

Lemma rstrip_splits : forall p s,
  exists post, s = Py.rstrip_by p s ++ post /\ all_chars p post = true.
Proof.
  intros p s. induction s as [|c s (post & E & H)].
  - now exists EmptyString.
  - cbn [Py.rstrip_by]. destruct (Py.rstrip_by p s) as [|d r] eqn:Er.
    + cbn [String.append] in E. destruct (p c) eqn:Ec.
      * exists (String c post). cbn [String.append all_chars].
        split; [congruence|now rewrite Ec, H].
      * exists post. cbn [String.append]. split; [congruence|exact H].
    + exists post. cbn [String.append] in *. split; [congruence|exact H].
Qed.

Lemma spaces_become_hyphens : forall s,
  all_chars Py.isspace s = true ->
  all_chars (fun c => Ascii.eqb c "-")
    (Py.map_chars (fun c => if BookmarksImporter.not_slug_char c
                            then "-"%char else c) s) = true.
Proof.
  induction s as [|c s IH]; intros H; [reflexivity|].
  cbn [all_chars] in H. apply andb_prop in H as [Hc Hs].
  cbn [Py.map_chars all_chars].
  now rewrite (space_becomes_hyphen c Hc), IH.
Qed.

Lemma finish_of_stripped : forall s,
  finish (Py.map_chars (fun c => if BookmarksImporter.not_slug_char c
                                 then "-"%char else c) (Py.strip s))
  = finish (Py.map_chars (fun c => if BookmarksImporter.not_slug_char c
                                   then "-"%char else c) s).
Proof.
  intros s. unfold Py.strip, Py.strip_by.
  destruct (lstrip_splits Py.isspace s) as (pre & E1 & H1).
  destruct (rstrip_splits Py.isspace (Py.lstrip_by Py.isspace s))
    as (post & E2 & H2).
  rewrite E1 at 2. rewrite E2 at 2.
  rewrite !map_chars_app.
  rewrite finish_after_hyphens by now apply spaces_become_hyphens.
  rewrite finish_before_hyphens by now apply spaces_become_hyphens.
  reflexivity.
Qed.

Lemma classes_agree : forall s,
  Py.map_chars (fun c => if BookmarksManager.not_alnum c then "-"%char else c)
               (Py.lower s)
  = Py.map_chars (fun c => if BookmarksImporter.not_slug_char c
                           then "-"%char else c) (Py.lower s).
Proof.
  unfold Py.lower. induction s as [|c s IH]; [reflexivity|].
  cbn [Py.map_chars]. now rewrite classes_agree_on_lower, IH.
Qed.

(** X18. On a text of characters below 128 the [slugify] of the importer
    and the [slugify] of the manager give the same slug: a category or a
    title of such characters names the same directory or file in both
    classes. *)
Theorem slugify_functions_agree : forall text,
  ascii_text text = true ->
  BookmarksImporter.slugify text = BookmarksManager.slugify text.
Proof.
  intros text H.
  rewrite importer_slugify_steps, manager_slugify_steps.
  destruct (negb (Py.nonempty text)); [reflexivity|].
  rewrite (ascii_text_nfkd text H), classes_agree.
  apply finish_of_stripped.
Qed.

(* ===================================================================== *)
(** ** The parameters of a request *)
(* ===================================================================== *)

Section RequestParameters.
Import Server.

Lemma char_found : forall x pre rest,
  Py.contains (String x EmptyString) (pre ++ String x rest) = true.
Proof.
  intros x pre rest. induction pre as [|c pre IH].
  - cbn [String.append Py.contains Py.starts]. now rewrite Ascii.eqb_refl.
  - cbn [String.append Py.contains]. rewrite IH. apply orb_true_r.
Qed.

Lemma never_found : forall x s,
  Py.contains (String x EmptyString) s = false ->
  all_chars (fun c => negb (Ascii.eqb c x)) s = true.
Proof.
  intros x s. induction s as [|c s IH]; intros H; [reflexivity|].
  cbn [Py.contains Py.starts] in H. rewrite Ascii.eqb_sym in H.
  cbn [all_chars]. destruct (Ascii.eqb c x); [discriminate|].
  cbn [andb orb negb] in *. now apply IH.
Qed.

Lemma all_chars_join : forall p sep parts,
  all_chars p sep = true ->
  Forall (fun x => all_chars p x = true) parts ->
  all_chars p (Py.join sep parts) = true.
Proof.
  intros p sep parts Hsep H. induction H as [|x parts Hx Hparts IH];
    [reflexivity|].
  cbn [Py.join]. destruct parts as [|y parts]; [exact Hx|].
  now rewrite !all_chars_app, Hx, Hsep, IH.
Qed.

Lemma split_join : forall sep parts,
  parts <> [] ->
  Forall (fun x => all_chars (fun c => negb (Ascii.eqb c sep)) x = true)
         parts ->
  Py.split sep (Py.join (String sep EmptyString) parts) = parts.
Proof.
  intros sep parts Hne H. induction H as [|x parts Hx Hparts IH];
    [contradiction|].
  cbn [Py.join]. destruct parts as [|y parts].
  - now apply split_without_separator.
  - change (x ++ String sep EmptyString ++ Py.join (String sep EmptyString)
                                                  (y :: parts))
      with (x ++ String sep (Py.join (String sep EmptyString) (y :: parts))).
    rewrite split_before_separator by exact Hx.
    rewrite IH by discriminate. reflexivity.
Qed.

Lemma split_once_at : forall sep k v,
  all_chars (fun c => negb (Ascii.eqb c sep)) k = true ->
  split_once sep (k ++ String sep v) = (k, v).
Proof.
  intros sep k v. induction k as [|c k IH]; intros H.
  - cbn. now rewrite Ascii.eqb_refl.
  - cbn [all_chars] in H. apply andb_prop in H as [Hc Hk].
    cbn [String.append split_once].
    destruct (Ascii.eqb c sep); [discriminate|]. now rewrite IH.
Qed.

Lemma key_text_parts : forall k,
  key_text k = true ->
  all_chars (fun c => negb (Ascii.eqb c "&")) k = true
  /\ all_chars (fun c => negb (Ascii.eqb c "?")) k = true
  /\ all_chars (fun c => negb (Ascii.eqb c "=")) k = true.
Proof.
  unfold key_text. intros k H.
  repeat split; (eapply all_chars_weaken; [|exact H]);
    intros c; cbn [Py.mem_char]; rewrite orb_false_r;
    destruct (Ascii.eqb c "&"), (Ascii.eqb c "?"), (Ascii.eqb c "=");
    cbn; congruence.
Qed.

Lemma value_text_parts : forall v,
  value_text v = true ->
  all_chars (fun c => negb (Ascii.eqb c "&")) v = true
  /\ all_chars (fun c => negb (Ascii.eqb c "?")) v = true.
Proof.
  unfold value_text. intros v H.
  repeat split; (eapply all_chars_weaken; [|exact H]);
    intros c; cbn [Py.mem_char]; rewrite orb_false_r;
    destruct (Ascii.eqb c "&"), (Ascii.eqb c "?");
    cbn; congruence.
Qed.

Lemma add_param_pair : forall d k v,
  key_text k = true ->
  add_param d (k ++ "=" ++ v) = set_item k v d.
Proof.
  intros d k v Hk. apply key_text_parts in Hk as (_ & _ & Hk).
  unfold add_param.
  change (k ++ "=" ++ v) with (k ++ String "=" v).
  now rewrite char_found, split_once_at.
Qed.

Lemma fold_pairs : forall pairs d,
  Forall (fun kv => key_text (fst kv) = true) pairs ->
  fold_left add_param (map (fun kv => fst kv ++ "=" ++ snd kv) pairs) d
  = fold_left (fun d kv => set_item (fst kv) (snd kv) d) pairs d.
Proof.
  induction pairs as [|[k v] pairs IH]; intros d H; [reflexivity|].
  inversion H as [|? ? Hk Hrest]; subst. cbn [map fold_left fst snd] in *.
  rewrite add_param_pair by exact Hk. now apply IH.
Qed.

(** X19. Reading back a query string. For parameters whose keys hold no
    [&], [?] or [=] and whose values hold no [&] or [?], the path made
    of a base without [?], a question mark and the pairs [key=value]
    joined by [&] is parsed into the dictionary of these pairs, a later
    pair replacing an earlier one of the same key. A value keeps every
    [=] it holds, and nothing is decoded. *)
Theorem query_string_is_read_back : forall base pairs,
  pairs <> [] ->
  Py.contains "?" base = false ->
  Forall (fun kv => key_text (fst kv) = true
                    /\ value_text (snd kv) = true) pairs ->
  parse_get_params (base ++ "?" ++ query_of pairs) = dict_of pairs.
Proof.
  intros base pairs Hne Hbase Hpairs.
  assert (Hk : Forall (fun kv => key_text (fst kv) = true) pairs).
  { eapply Forall_impl; [|exact Hpairs]. now intros kv [H _]. }
  assert (Hpart : forall x,
             Forall (fun p => all_chars (fun c => negb (Ascii.eqb c x)) p
                              = true)
                    (map (fun kv => fst kv ++ "=" ++ snd kv) pairs)
             <-> Forall (fun kv =>
                           all_chars (fun c => negb (Ascii.eqb c x))
                                     (fst kv ++ "=" ++ snd kv) = true)
                        pairs).
  { intros x. rewrite Forall_map. reflexivity. }
  assert (Hamp : Forall (fun p => all_chars
                                    (fun c => negb (Ascii.eqb c "&")) p
                                  = true)
                        (map (fun kv => fst kv ++ "=" ++ snd kv) pairs)).
  { apply Hpart. eapply Forall_impl; [|exact Hpairs].
    intros [k v] [Hkey Hval]. cbn [fst snd] in *.
    apply key_text_parts in Hkey as (Hkey & _ & _).
    apply value_text_parts in Hval as (Hval & _).
    now rewrite !all_chars_app, Hkey, Hval. }
  assert (Hq : all_chars (fun c => negb (Ascii.eqb c "?")) (query_of pairs)
               = true).
  { unfold query_of. apply all_chars_join; [reflexivity|].
    apply Hpart. eapply Forall_impl; [|exact Hpairs].
    intros [k v] [Hkey Hval]. cbn [fst snd] in *.
    apply key_text_parts in Hkey as (_ & Hkey & _).
    apply value_text_parts in Hval as (_ & Hval).
    now rewrite !all_chars_app, Hkey, Hval. }
  unfold parse_get_params.
  change (base ++ "?" ++ query_of pairs)
    with (base ++ String "?" (query_of pairs)).
  rewrite char_found.
  rewrite (split_before_separator "?" base) by now apply never_found.
  rewrite (split_without_separator "?" (query_of pairs)) by exact Hq.
  cbn [nth]. unfold query_of, dict_of.
  rewrite split_join; [now apply fold_pairs| |exact Hamp].
  destruct pairs; [contradiction|discriminate].
Qed.

Lemma split_single : forall sep s v, Py.split sep s = [v] -> v = s.
Proof.
  intros sep s. induction s as [|c s IH]; intros v H.
  - now inversion H.
  - cbn [Py.split] in H. destruct (Ascii.eqb c sep).
    + inversion H as [[Hv Hs]]. now apply split_nonempty in Hs.
    + destruct (Py.split sep s) as [|h t] eqn:E;
        [now apply split_nonempty in E|].
      inversion H; subst. now rewrite (IH h eq_refl).
Qed.

Lemma split_two : forall sep p k v,
  Py.split sep p = [k; v] ->
  Py.contains (String sep EmptyString) p = true
  /\ split_once sep p = (k, v).
Proof.
  intros sep p. induction p as [|c p IH]; intros k v H; [discriminate|].
  cbn [Py.split] in H. cbn [Py.contains Py.starts split_once].
  rewrite (Ascii.eqb_sym sep c).
  destruct (Ascii.eqb c sep).
  - inversion H as [[Hk Hv]]. apply split_single in Hv. subst.
    split; reflexivity.
  - destruct (Py.split sep p) as [|h t] eqn:E;
      [now apply split_nonempty in E|].
    inversion H; subst. destruct (IH h v eq_refl) as [Hc Hs].
    rewrite Hc, Hs. split; [apply orb_true_r|reflexivity].
Qed.

Lemma fields_lost : forall pieces,
  fold_left add_field pieces None = None.
Proof. induction pieces as [|p pieces IH]; [reflexivity|exact IH]. Qed.

Lemma fields_follow_params : forall pieces d,
  match fold_left add_field pieces (Some d) with
  | Some fields => fields = fold_left add_param pieces d
  | None =>
      exists piece,
        In piece pieces /\ List.length (Py.split "=" piece) <> 2
  end.
Proof.
  induction pieces as [|p pieces IH]; intros d; [reflexivity|].
  cbn [fold_left add_field].
  destruct (Py.split "=" p) as [|k [|v [|x rest]]] eqn:E;
    try (rewrite fields_lost; exists p; split; [now left|];
         rewrite E; cbn [List.length]; lia).
  destruct (split_two "=" p k v E) as [Hc Hs].
  unfold add_param at 2. rewrite Hc, Hs.
  specialize (IH (set_item k v d)).
  destruct (fold_left add_field pieces (Some (set_item k v d)));
    [exact IH|].
  destruct IH as (piece & Hin & Hlen). exists piece. split; [now right|].
  exact Hlen.
Qed.

Lemma fields_need_pairs : forall pieces d piece,
  In piece pieces ->
  List.length (Py.split "=" piece) <> 2 ->
  fold_left add_field pieces d = None.
Proof.
  induction pieces as [|p pieces IH]; intros d piece Hin Hlen;
    [contradiction|].
  cbn [fold_left]. destruct Hin as [->|Hin]; [|now apply (IH _ piece)].
  assert (E : add_field d piece = None).
  { unfold add_field. destruct d as [d|]; [|reflexivity].
    destruct (Py.split "=" piece) as [|k [|v [|x rest]]];
      try reflexivity.
    now contradiction Hlen. }
  rewrite E. apply fields_lost.
Qed.

(** X20. The body of a form is read like a query string, as long as it
    can be read. Building the dictionary of the fields fails exactly
    when some piece between two [&] holds no [=] or more than one; the
    parser of the query string goes on in that case. When it does not
    fail, the fields are the parameters [parse_get_params] reads from
    the same text after a question mark. *)
Theorem form_body_is_read_like_query : forall body,
  Py.contains "?" body = false ->
  (form_fields body = None
   <-> exists piece,
         In piece (Py.split "&" body)
         /\ List.length (Py.split "=" piece) <> 2)
  /\ (forall fields,
         form_fields body = Some fields ->
         fields = parse_get_params ("/add?" ++ body)).
Proof.
  intros body H.
  assert (Hget : parse_get_params ("/add?" ++ body)
                 = fold_left add_param (Py.split "&" body) []).
  { unfold parse_get_params.
    change ("/add?" ++ body) with ("/add" ++ String "?" body).
    rewrite char_found.
    rewrite (split_before_separator "?" "/add") by reflexivity.
    rewrite (split_without_separator "?" body) by now apply never_found.
    reflexivity. }
  assert (F : match form_fields body with
              | Some fields =>
                  fields = fold_left add_param (Py.split "&" body) []
              | None =>
                  exists piece,
                    In piece (Py.split "&" body)
                    /\ List.length (Py.split "=" piece) <> 2
              end)
    by (unfold form_fields; apply fields_follow_params).
  split; [split|].
  - intros E. now rewrite E in F.
  - intros (piece & Hin & Hlen). unfold form_fields.
    now apply (fields_need_pairs _ _ piece).
  - intros fields E. rewrite E in F. now rewrite Hget.
Qed.
End RequestParameters.

(* ===================================================================== *)
(** ** Reading a bookmark file back *)
(* ===================================================================== *)

Section FrontMatter.
Import BookmarksManager.

(** A literal word, matched as it is written. *)
Lemma literal_exact :
  forall (A : Type) w s gs (k : string -> list string -> option A),
    Re.rmatch false (Re.lit w) s gs k
    = if Py.starts w s then k (Py.drop (String.length w) s) gs else None.
Proof.
  intros A w. induction w as [|c w IH]; intros s gs k.
  - cbn. now destruct s.
  - cbn [Re.lit Re.rmatch]. destruct s as [|d s]; [reflexivity|].
    unfold Re.chr_eq. cbn [Py.starts String.length Py.drop].
    destruct (Ascii.eqb c d); [|reflexivity]. cbn [andb]. apply IH.
Qed.

Lemma starts_through : forall w a x b,
  Py.mem_char x w = false ->
  Py.starts w (a ++ String x b) = Py.starts w a.
Proof.
  induction w as [|y w IH]; intros a x b H; [reflexivity|].
  cbn [Py.mem_char] in H. apply orb_false_elim in H as [Hy Hw].
  destruct a as [|c a]; cbn [String.append Py.starts].
  - rewrite Ascii.eqb_sym, Hy. reflexivity.
  - now rewrite IH.
Qed.

Lemma contains_through : forall w a x b,
  w <> EmptyString ->
  Py.mem_char x w = false ->
  Py.contains w (a ++ String x b) = Py.contains w a || Py.contains w b.
Proof.
  intros w a x b Hne H. induction a as [|c a IH].
  - cbn [String.append Py.contains].
    destruct w as [|y w]; [contradiction|].
    cbn [Py.mem_char] in H. apply orb_false_elim in H as [Hy _].
    cbn [Py.starts]. rewrite Ascii.eqb_sym, Hy. reflexivity.
  - cbn [String.append Py.contains].
    change (String c (a ++ String x b)) with (String c a ++ String x b).
    rewrite starts_through by exact H. rewrite IH.
    now rewrite orb_assoc.
Qed.

(** A pattern that begins with a word is not found before the first
    place the word stands at. *)
Lemma search_moves_on : forall w r a x b,
  w <> EmptyString ->
  Py.mem_char x w = false ->
  Py.contains w a = false ->
  Re.search false (Re.Cat (Re.lit w) r) (a ++ String x b)
  = Re.search false (Re.Cat (Re.lit w) r) b.
Proof.
  intros w r a x b Hne Hx. induction a as [|c a IH]; intros Ha.
  - cbn [String.append Re.search]. unfold Re.match_at. cbn [Re.rmatch].
    rewrite literal_exact.
    destruct w as [|y w]; [contradiction|].
    cbn [Py.mem_char] in Hx. apply orb_false_elim in Hx as [Hy _].
    cbn [Py.starts]. rewrite Ascii.eqb_sym, Hy. reflexivity.
  - cbn [Py.contains] in Ha. apply orb_false_elim in Ha as [Hs Ha].
    cbn [String.append Re.search]. unfold Re.match_at. cbn [Re.rmatch].
    rewrite literal_exact.
    change (String c (a ++ String x b)) with (String c a ++ String x b).
    rewrite starts_through by exact Hx. rewrite Hs. now apply IH.
Qed.

(** The greedy star stops where its continuation succeeds after the
    longest run. *)
Lemma star_succeeds : forall (A : Type) p s (k : string -> option A) r,
  k (Py.lstrip_by p s) = Some r -> Re.star p s k = Some r.
Proof.
  intros A p s k r. induction s as [|c s IH]; intros H; [exact H|].
  cbn [Re.star Py.lstrip_by] in *. destruct (p c); [|exact H].
  now rewrite IH.
Qed.

(** A run of the dot backs off to the last bracket of the line. *)
Lemma star_to_bracket :
  forall (A : Type) g tail (k : string -> option A) r,
    all_chars Re.dot g = true ->
    k (String "]" (String BookmarksImporter.newline tail)) = Some r ->
    k (String BookmarksImporter.newline tail) = None ->
    Re.star Re.dot (g ++ String "]" (String BookmarksImporter.newline tail)) k = Some r.
Proof.
  intros A g tail k r Hg Hk Hn. induction g as [|c g IH].
  - cbn [String.append Re.star].
    change (Re.dot "]") with true. cbn iota.
    change (Re.dot BookmarksImporter.newline) with false. cbn iota.
    now rewrite Hn.
  - cbn [all_chars] in Hg. apply andb_prop in Hg as [Hc Hg].
    cbn [String.append Re.star]. rewrite Hc. now rewrite IH.
Qed.

Lemma lstrip_dots : forall g tail,
  all_chars Re.dot g = true ->
  Py.lstrip_by Re.dot (g ++ String BookmarksImporter.newline tail) = String BookmarksImporter.newline tail.
Proof.
  intros g tail. induction g as [|c g IH]; intros H; [reflexivity|].
  cbn [all_chars] in H. apply andb_prop in H as [Hc Hg].
  cbn [String.append Py.lstrip_by]. rewrite Hc. now apply IH.
Qed.

Lemma take_of_rest : forall a b,
  Py.take (String.length (a ++ b) - String.length b) (a ++ b) = a.
Proof.
  intros a b. rewrite append_length.
  replace (String.length a + String.length b - String.length b)
    with (String.length a) by lia.
  apply take_prefix.
Qed.

(** The pattern of the tags at the line of the tags. *)
Lemma tags_line_matches : forall g tail,
  g <> EmptyString ->
  all_chars Re.dot g = true ->
  exists n,
    Re.match_at false tags_re
                ("tags: [" ++ g ++ String "]" (String BookmarksImporter.newline tail))
    = Some ([g], n).
Proof.
  intros g tail Hne Hg. destruct g as [|c g]; [contradiction|].
  cbn [all_chars] in Hg. apply andb_prop in Hg as [Hc Hg].
  unfold Re.match_at, tags_re, Re.seq. cbn [fold_right].
  cbn [Re.rmatch]. rewrite literal_exact.
  cbn [String.append Py.starts Ascii.eqb Bool.eqb andb String.length Py.drop].
  cbn [Re.star]. change (Py.isspace " ") with true. cbn iota.
  change (Py.isspace "[") with false. cbn iota.
  unfold Re.chr_eq. cbn [Ascii.eqb Bool.eqb andb]. rewrite Hc.
  eexists.
  erewrite star_to_bracket; [reflexivity|exact Hg| |reflexivity].
  cbn [Ascii.eqb Bool.eqb andb app].
  change (String c (g ++ String "]" (String BookmarksImporter.newline tail)))
    with (String c g ++ String "]" (String BookmarksImporter.newline tail)).
  rewrite take_of_rest. reflexivity.
Qed.

Lemma starts_prefix : forall w x, Py.starts w (w ++ x) = true.
Proof.
  induction w as [|c w IH]; intros x; [reflexivity|].
  cbn [String.append Py.starts]. now rewrite Ascii.eqb_refl, IH.
Qed.

Lemma drop_prefix : forall w x, Py.drop (String.length w) (w ++ x) = x.
Proof. induction w as [|c w IH]; intros x; [now destruct x|apply IH]. Qed.

Lemma literal_app :
  forall (A : Type) a b s gs (k : string -> list string -> option A),
    Re.rmatch false (Re.lit (a ++ b)) s gs k
    = Re.rmatch false (Re.lit a) s gs
        (fun s' gs' => Re.rmatch false (Re.lit b) s' gs' k).
Proof.
  intros A a b. induction a as [|c a IH]; intros s gs k; [reflexivity|].
  cbn [String.append Re.lit Re.rmatch]. destruct s as [|d s]; [reflexivity|].
  destruct (Re.chr_eq false c d); [apply IH|reflexivity].
Qed.

Lemma field_re_by_word : forall name s,
  Re.match_at false (field_re name) s
  = Re.match_at false (field_word name) s.
Proof.
  intros name s. unfold Re.match_at, field_re, field_word, Re.seq.
  cbn [fold_right Re.rmatch]. rewrite literal_app. reflexivity.
Qed.

Lemma search_by_word : forall name s,
  Re.search false (field_re name) s = Re.search false (field_word name) s.
Proof.
  intros name s. induction s as [|c s IH]; cbn [Re.search];
    rewrite field_re_by_word; [reflexivity|].
  now rewrite IH.
Qed.

(** The pattern of a field at the line of the field: the value without
    the white space before it. *)
Lemma field_line_matches : forall name v tail,
  all_chars Re.dot v = true ->
  Py.lstrip_by Py.isspace v <> EmptyString ->
  exists n,
    Re.match_at false (field_word name)
                ((name ++ ":") ++ String " "
                   (v ++ String BookmarksImporter.newline tail))
    = Some ([Py.lstrip_by Py.isspace v], n).
Proof.
  intros name v tail Hv Hne.
  unfold Re.match_at, field_word, Re.seq. cbn [fold_right Re.rmatch].
  rewrite literal_exact, starts_prefix, drop_prefix.
  eexists. apply star_succeeds.
  cbn [Py.lstrip_by]. change (Py.isspace " ") with true. cbn iota.
  rewrite lstrip_app.
  pose proof (all_chars_lstrip Re.dot Py.isspace v Hv) as Hcore.
  destruct (Py.lstrip_by Py.isspace v) as [|x core]; [contradiction|].
  cbn [all_chars] in Hcore. apply andb_prop in Hcore as [Hx Hcore].
  cbn [String.append]. rewrite Hx.
  rewrite star_longest by discriminate.
  rewrite lstrip_dots by exact Hcore.
  cbn [app].
  change (String x (core ++ String BookmarksImporter.newline tail))
    with (String x core ++ String BookmarksImporter.newline tail).
  rewrite take_of_rest. reflexivity.
Qed.

Lemma search_here : forall r s gs n,
  Re.match_at false r s = Some (gs, n) -> Re.search false r s = Some gs.
Proof. intros r s gs n H. destruct s; cbn [Re.search]; now rewrite H. Qed.

Lemma lstrip_twice : forall p s,
  Py.lstrip_by p (Py.lstrip_by p s) = Py.lstrip_by p s.
Proof.
  intros p s. destruct (lstrip_head p s) as [E|(c & t & E & Hc)]; rewrite E.
  - reflexivity.
  - cbn [Py.lstrip_by]. now rewrite Hc.
Qed.

Lemma strip_of_lstrip : forall s,
  Py.strip (Py.lstrip_by Py.isspace s) = Py.strip s.
Proof.
  intros s. unfold Py.strip, Py.strip_by. now rewrite lstrip_twice.
Qed.

Lemma stripped_is_not_blank : forall s,
  Py.strip s <> EmptyString -> Py.lstrip_by Py.isspace s <> EmptyString.
Proof.
  intros s H E. apply H. unfold Py.strip, Py.strip_by. now rewrite E.
Qed.

Lemma search_absent : forall w r s,
  Py.contains w s = false ->
  Re.search false (Re.Cat (Re.lit w) r) s = None.
Proof.
  intros w r s. induction s as [|c s IH]; intros H.
  - cbn [Re.search]. unfold Re.match_at. cbn [Re.rmatch].
    rewrite literal_exact. cbn [Py.contains] in H.
    apply orb_false_elim in H as [H _]. now rewrite H.
  - cbn [Py.contains] in H. apply orb_false_elim in H as [Hs H].
    cbn [Re.search]. unfold Re.match_at. cbn [Re.rmatch].
    rewrite literal_exact, Hs. now apply IH.
Qed.

(** Between empty brackets the pattern of the tags finds nothing. *)
Lemma empty_tags_line : forall tail,
  Py.contains "tags:" tail = false ->
  Re.search false tags_re
            ("tags: [" ++ String "]" (String BookmarksImporter.newline tail))
  = None.
Proof.
  intros tail H.
  change (Re.search false tags_re
            ("tags: [" ++ String "]"
               (String BookmarksImporter.newline tail)))
    with (match Re.match_at false tags_re
                  ("tags: [" ++ String "]"
                     (String BookmarksImporter.newline tail)) with
          | Some (gs, _) => Some gs
          | None =>
              Re.search false tags_re
                ("ags: [" ++ String "]"
                   (String BookmarksImporter.newline tail))
          end).
  assert (M : Re.match_at false tags_re
                ("tags: [" ++ String "]"
                   (String BookmarksImporter.newline tail)) = None)
    by reflexivity.
  rewrite M.
  change tags_re
    with (Re.Cat (Re.lit "tags:")
                 (Re.seq [Re.Star Py.isspace; Re.Chr "[";
                          Re.Group (Re.Plus Re.dot); Re.Chr "]"])).
  apply search_absent.
  change ("ags: [" ++ String "]" (String BookmarksImporter.newline tail))
    with ("ags: []" ++ String BookmarksImporter.newline tail).
  rewrite contains_through by (discriminate || reflexivity).
  now rewrite H.
Qed.

(** What the three patterns of the search find in a text that begins
    with the front matter both writers write: the line of dashes, the
    title, the address and the tags, each on a line of its own. *)
Lemma fields_of_front_matter : forall t u g tail,
  let content :=
    "---" ++ String BookmarksImporter.newline
      (("title:" ++ String " " t) ++ String BookmarksImporter.newline
         (("uri:" ++ String " " u) ++ String BookmarksImporter.newline
            ("tags: [" ++ g ++ String "]"
               (String BookmarksImporter.newline tail)))) in
  all_chars Re.dot t = true ->
  all_chars Re.dot u = true ->
  all_chars Re.dot g = true ->
  Py.strip t <> EmptyString ->
  Py.strip u <> EmptyString ->
  Py.contains "uri:" t = false ->
  Py.contains "tags:" t = false ->
  Py.contains "tags:" u = false ->
  Py.contains "tags:" tail = false ->
  field (field_re "title") content = Py.strip t
  /\ field (field_re "uri") content = Py.strip u
  /\ field tags_re content = Py.strip g.
Proof.
  intros t u g tail content Ht Hu Hg Hbt Hbu Hut Htt Htu Htail.
  unfold field, content. rewrite !search_by_word. unfold field_word.
  change ("title" ++ ":") with "title:". change ("uri" ++ ":") with "uri:".
  change tags_re
    with (Re.Cat (Re.lit "tags:")
                 (Re.seq [Re.Star Py.isspace; Re.Chr "[";
                          Re.Group (Re.Plus Re.dot); Re.Chr "]"])).
  repeat split.
  - rewrite search_moves_on by (discriminate || reflexivity).
    destruct (field_line_matches "title" t
                (("uri:" ++ String " " u)
                   ++ String BookmarksImporter.newline
                        ("tags: [" ++ g ++ String "]"
                           (String BookmarksImporter.newline tail)))
                Ht (stripped_is_not_blank t Hbt)) as (n & M).
    rewrite (search_here _ _ [Py.lstrip_by Py.isspace t] n) by exact M.
    cbn [Re.group Nat.sub nth]. apply strip_of_lstrip.
  - rewrite search_moves_on by (discriminate || reflexivity).
    rewrite search_moves_on;
      [|discriminate|reflexivity
       |rewrite contains_through by (discriminate || reflexivity);
        now rewrite Hut].
    destruct (field_line_matches "uri" u
                ("tags: [" ++ g ++ String "]"
                   (String BookmarksImporter.newline tail))
                Hu (stripped_is_not_blank u Hbu)) as (n & M).
    rewrite (search_here _ _ [Py.lstrip_by Py.isspace u] n) by exact M.
    cbn [Re.group Nat.sub nth]. apply strip_of_lstrip.
  - rewrite search_moves_on by (discriminate || reflexivity).
    rewrite search_moves_on;
      [|discriminate|reflexivity
       |rewrite contains_through by (discriminate || reflexivity);
        now rewrite Htt].
    rewrite search_moves_on;
      [|discriminate|reflexivity
       |rewrite contains_through by (discriminate || reflexivity);
        now rewrite Htu].
    destruct g as [|c g].
    + change (Re.Cat (Re.lit "tags:")
                     (Re.seq [Re.Star Py.isspace; Re.Chr "[";
                              Re.Group (Re.Plus Re.dot); Re.Chr "]"]))
        with tags_re.
      change ("tags: [" ++ EmptyString
                ++ String "]" (String BookmarksImporter.newline tail))
        with ("tags: [" ++ String "]"
                (String BookmarksImporter.newline tail)).
      now rewrite empty_tags_line.
    + destruct (tags_line_matches (String c g) tail) as (n & M);
        [discriminate|exact Hg|].
      rewrite (search_here _ _ [String c g] n) by exact M. reflexivity.
Qed.
End FrontMatter.

Section ReadingBack.
Import BookmarksManager.
Variable md5_hex : string -> string.

Lemma manager_text_shape : forall t u g,
  file_text t u g
  = "---" ++ String BookmarksImporter.newline
      (("title:" ++ String " " t) ++ String BookmarksImporter.newline
         (("uri:" ++ String " " u) ++ String BookmarksImporter.newline
            ("tags: [" ++ g ++ String "]"
               (String BookmarksImporter.newline
                  ("---" ++ String BookmarksImporter.newline
                     (("[" ++ t) ++ String "]"
                        (("(" ++ u) ++ String ")" nl))))))).
Proof.
  intros t u g. unfold file_text, nl. cbn [String.append].
  repeat (rewrite <- ?append_assoc; cbn [String.append]).
  reflexivity.
Qed.


(** The closing lines of a bookmark file hold the word [tags:] only if
    the title or the address does. *)
Lemma closing_lines_without_tags : forall t u,
  Py.contains "tags:" t = false ->
  Py.contains "tags:" u = false ->
  Py.contains "tags:"
    ("---" ++ String BookmarksImporter.newline
       (("[" ++ t) ++ String "]" (("(" ++ u) ++ String ")" nl))) = false.
Proof.
  intros t u Ht Hu.
  rewrite contains_through by (discriminate || reflexivity).
  rewrite contains_through by (discriminate || reflexivity).
  rewrite contains_through by (discriminate || reflexivity).
  change ("[" ++ t) with (EmptyString ++ String "[" t).
  change ("(" ++ u) with (EmptyString ++ String "(" u).
  rewrite !contains_through by (discriminate || reflexivity).
  now rewrite Ht, Hu.
Qed.




Lemma manager_entry_read_back : forall root file_path t u g,
  single_line t = true ->
  single_line u = true ->
  single_line g = true ->
  Py.strip t <> EmptyString ->
  Py.strip u <> EmptyString ->
  Py.contains "uri:" t = false ->
  Py.contains "tags:" t = false ->
  Py.contains "tags:" u = false ->
  entry md5_hex root file_path (file_text t u g)
  = read_back md5_hex file_path (Os.basename root) t u g.
Proof.
  intros root file_path t u g Ht Hu Hg Hbt Hbu Hut Htt Htu.
  unfold entry, read_back. rewrite manager_text_shape.
  destruct (fields_of_front_matter t u g
              ("---" ++ String BookmarksImporter.newline
                 (("[" ++ t) ++ String "]" (("(" ++ u) ++ String ")" nl)))
              Ht Hu Hg Hbt Hbu Hut Htt Htu
              (closing_lines_without_tags t u Htt Htu))
    as (E1 & E2 & E3).
  now rewrite E1, E2, E3.
Qed.


End ReadingBack.

(* ===================================================================== *)
(** ** From a writer to the search *)
(* ===================================================================== *)

Section FoundAgain.
Import BookmarksManager.
Variable md5_hex : string -> string.

Lemma rstrip_kept : forall p d,
  all_chars (fun c => negb (p c)) d = true -> Py.rstrip_by p d = d.
Proof.
  intros p d. induction d as [|c d IH]; intros H; [reflexivity|].
  cbn [all_chars] in H. apply andb_prop in H as [Hc Hd].
  cbn [Py.rstrip_by]. rewrite (IH Hd).
  destruct d; [|reflexivity]. now destruct (p c).
Qed.

Lemma rstrip_after : forall p pre d,
  d <> EmptyString ->
  all_chars (fun c => negb (p c)) d = true ->
  Py.rstrip_by p (pre ++ d) = pre ++ d.
Proof.
  intros p pre d Hne Hd. induction pre as [|c pre IH].
  - now apply rstrip_kept.
  - cbn [String.append Py.rstrip_by]. rewrite IH.
    destruct (pre ++ d) eqn:E; [|reflexivity].
    destruct pre, d; try discriminate. contradiction.
Qed.

Lemma rstrip_last : forall p s x,
  p x = true ->
  Py.rstrip_by p (s ++ String x EmptyString) = Py.rstrip_by p s.
Proof.
  intros p s x Hx. induction s as [|c s IH].
  - cbn. now rewrite Hx.
  - cbn [String.append Py.rstrip_by]. now rewrite IH.
Qed.

Lemma slash_free_not_slash : forall d,
  slash_free d = true ->
  all_chars (fun c => negb (Py.mem_char c "/")) d = true.
Proof.
  intros d H. eapply all_chars_weaken; [|exact H].
  intros c Hc. cbn [Py.mem_char]. now rewrite orb_false_r.
Qed.

Lemma key_of_named : forall pre d,
  d <> EmptyString -> slash_free d = true -> Os.key (pre ++ d) = pre ++ d.
Proof.
  intros pre d Hne Hd. unfold Os.key, Py.rstrip_chars.
  apply rstrip_after; [exact Hne|now apply slash_free_not_slash].
Qed.

Lemma slash_free_no_end : forall d,
  slash_free d = true -> Py.endswith d "/" = false.
Proof.
  unfold slash_free. induction d as [|c d IH]; intros H; [reflexivity|].
  cbn [all_chars] in H. apply andb_prop in H as [Hc Hd].
  cbn [Py.endswith String.eqb]. rewrite (IH Hd), orb_false_r.
  destruct (Ascii.eqb c "/"); [discriminate|reflexivity].
Qed.

Lemma named_no_end : forall pre d,
  d <> EmptyString -> slash_free d = true ->
  Py.endswith (pre ++ d) "/" = false.
Proof.
  intros pre d Hne Hd. induction pre as [|c pre IH].
  - now apply slash_free_no_end.
  - cbn [String.append Py.endswith String.eqb]. rewrite IH, orb_false_r.
    destruct (Ascii.eqb c "/"); [|reflexivity].
    destruct (pre ++ d) eqn:E; [|reflexivity].
    destruct pre, d; try discriminate. contradiction.
Qed.

Lemma slash_free_start : forall d,
  slash_free d = true -> Py.startswith d "/" = false.
Proof.
  intros [|c d] H; [reflexivity|].
  unfold slash_free in H. cbn [all_chars] in H.
  apply andb_prop in H as [Hc _].
  unfold Py.startswith. cbn [Py.starts]. rewrite Ascii.eqb_sym.
  destruct (Ascii.eqb c "/"); [discriminate|reflexivity].
Qed.

Lemma join_named : forall pre d name,
  d <> EmptyString -> slash_free d = true -> slash_free name = true ->
  Os.path_join (pre ++ d) name = (pre ++ d) ++ String "/" name.
Proof.
  intros pre d name Hne Hd Hn. unfold Os.path_join.
  rewrite (slash_free_start name Hn), (named_no_end pre d Hne Hd).
  destruct (pre ++ d) eqn:E; [|reflexivity].
  destruct pre, d; try discriminate. contradiction.
Qed.

Lemma slash_free_contains : forall d,
  slash_free d = true -> Py.contains "/" d = false.
Proof. intros d H. now apply no_slash_chars. Qed.

Lemma nonempty_not_empty : forall s,
  s <> EmptyString -> Py.nonempty s = true.
Proof. intros [|c s] H; [contradiction|reflexivity]. Qed.

Lemma dirname_of_file : forall pre d name,
  d <> EmptyString -> slash_free d = true -> slash_free name = true ->
  Os.dirname ((pre ++ d) ++ String "/" name) = pre ++ d.
Proof.
  intros pre d name Hne Hd Hn.
  rewrite dirname_of_joined by now apply slash_free_contains.
  unfold Py.rstrip_chars.
  rewrite (rstrip_last _ (pre ++ d) "/") by reflexivity.
  rewrite rstrip_after by (auto using slash_free_not_slash).
  destruct (pre ++ d) eqn:E; [|reflexivity].
  destruct pre, d; try discriminate. contradiction.
Qed.

(** A file two levels below the bookmark directory, in a directory of
    the tree, is reached by the search. *)
Lemma search_reaches_file :
  forall fs d stem content query limit,
    d <> EmptyString -> slash_free d = true -> slash_free stem = true ->
    Os.find default_dir fs = Some Os.Dir ->
    Os.find (default_dir ++ String "/" d) fs = Some Os.Dir ->
    Os.find ((default_dir ++ String "/" d) ++ String "/" (stem ++ ".md")) fs
    = Some (Os.File content) ->
    3 <= String.length query ->
    Py.contains (Py.lower query)
                (Py.lower (Os.universal_newlines false content)) = true ->
    (limit <= Z.of_nat (List.length
                          (search_bookmarks default_dir md5_hex fs query
                                            limit)))%Z
    \/ In (entry md5_hex (default_dir ++ String "/" d)
                 ((default_dir ++ String "/" d)
                    ++ String "/" (stem ++ ".md"))
                 (Os.universal_newlines false content))
          (search_bookmarks default_dir md5_hex fs query limit).
Proof.
  intros fs d stem content query limit Hne Hd Hstem Htop Hdir Hfile
         Hlen Hq.
  set (root := default_dir ++ String "/" d) in *.
  set (name := stem ++ ".md") in *.
  set (path := root ++ String "/" name) in *.
  assert (Hname : slash_free name = true).
  { unfold name, slash_free in *. now rewrite all_chars_app, Hstem. }
  assert (Hroot : root = (default_dir ++ "/") ++ d).
  { unfold root. now rewrite append_assoc. }
  assert (Hkroot : Os.key root = root).
  { rewrite Hroot. now apply key_of_named. }
  assert (Hkpath : Os.key path = path).
  { unfold path, name.
    change (root ++ String "/" (stem ++ ".md"))
      with (root ++ "/" ++ stem ++ ".md").
    rewrite <- !append_assoc. apply key_md. }
  assert (Hjoin : Os.path_join root name = path).
  { rewrite Hroot. now apply join_named. }
  assert (Hbroot : Os.basename root = d).
  { unfold root. now apply basename_of_joined, slash_free_contains. }
  assert (Hbpath : Os.basename path = name).
  { unfold path. now apply basename_of_joined, slash_free_contains. }
  assert (Hjroot : Os.path_join default_dir d = root).
  { unfold Os.path_join. now rewrite (slash_free_start d Hd). }
  assert (Hwalk : exists dirs files,
             In (root, dirs, files) (Os.walk fs default_dir)
             /\ In name files).
  { unfold Os.walk.
    destruct fs as [|e0 rest]; [discriminate|]. cbn [List.length].
    destruct (walk_lists_file (e0 :: rest) (List.length rest)
                root path content)
      as (dirs & files & Hin & Hf).
    - now apply isdir_found.
    - exact Hfile.
    - unfold path. rewrite Hroot.
      rewrite dirname_of_file by assumption. reflexivity.
    - rewrite Hbpath. unfold name. now destruct stem.
    - now rewrite Hbpath, Hjoin.
    - exists dirs, files. split.
      + apply (walk_enters (e0 :: rest) (S (List.length rest))
                 default_dir root).
        * now apply isdir_found.
        * exact Hdir.
        * unfold root.
          rewrite dirname_of_joined by now apply slash_free_contains.
          reflexivity.
        * rewrite Hbroot. now apply nonempty_not_empty.
        * now rewrite Hbroot, Hjroot.
        * now rewrite Hbroot, Hjroot.
      + now rewrite Hbpath in Hf. }
  destruct Hwalk as (dirs & files & Hin & Hf).
  unfold search_bookmarks.
  destruct (Nat.ltb_spec (String.length query) 3) as [L|L]; [lia|].
  destruct (scan_dirs_finds md5_hex fs (Py.lower query) limit
              (Os.walk fs default_dir) [] root dirs files
              name (Os.universal_newlines false content) Hin Hf)
    as [F|F].
  - unfold name. apply endswith_suffix.
  - unfold Os.read_text, Os.read_file. now rewrite Hjoin, Hkpath, Hfile.
  - exact Hq.
  - left. now apply full_is_limit.
  - right. now rewrite Hjoin in F.
Qed.
End FoundAgain.

Section RoundTrips.
Import BookmarksManager.
Variable md5_hex : string -> string.
Variable getcwd : string.
Variable expanduser : string -> string.
Variable realpath : string -> string.
Variable readable : string -> bool.

Lemma slug_char_not_slash : forall c,
  Ascii.eqb c "-" || alnum c = true -> negb (Ascii.eqb c "/") = true.
Proof. intros c; each_char c. Qed.

Lemma slug_chars_slash_free : forall s,
  slug_chars s = true -> slash_free s = true.
Proof.
  intros s H. unfold slash_free. eapply all_chars_weaken; [|exact H].
  apply slug_char_not_slash.
Qed.

Lemma manager_slug_slash_free : forall x, slash_free (slugify x) = true.
Proof.
  intros x. apply slug_chars_slash_free.
  destruct (manager_slug_shape x) as [E|S]; [now rewrite E|].
  now apply shape_slug_chars in S.
Qed.


Lemma chain_of_name : forall d acc,
  slash_free d = true ->
  Os.chain acc d
  = if Py.nonempty (Os.key (acc ++ d)) then [Os.key (acc ++ d)] else [].
Proof.
  unfold slash_free. induction d as [|c d IH]; intros acc H.
  - cbn [Os.chain]. now rewrite append_empty.
  - cbn [all_chars] in H. apply andb_prop in H as [Hc Hd].
    cbn [Os.chain]. destruct (Ascii.eqb c "/"); [discriminate|].
    rewrite IH by exact Hd. now rewrite append_assoc.
Qed.

(** The directories [makedirs] makes for a category of the default
    bookmark directory. *)
Lemma category_dirs_made : forall fs fs1 d,
  d <> EmptyString -> slash_free d = true ->
  Os.makedirs fs (default_dir ++ String "/" d) = (fs1, None) ->
  Os.find default_dir fs1 = Some Os.Dir
  /\ Os.find (default_dir ++ String "/" d) fs1 = Some Os.Dir.
Proof.
  intros fs fs1 d Hne Hd Hm. unfold Os.makedirs in Hm.
  assert (Hchain : Os.chain EmptyString (default_dir ++ String "/" d)
                   = "/data" :: default_dir
                       :: Os.chain (default_dir ++ "/") d)
    by reflexivity.
  rewrite Hchain, chain_of_name in Hm by exact Hd.
  rewrite key_of_named in Hm by assumption.
  rewrite nonempty_not_empty in Hm
    by (destruct d; [contradiction|discriminate]).
  split.
  - apply (mkdir_chain_made _ _ _ _ Hm). right. now left.
  - apply (mkdir_chain_made _ _ _ _ Hm). right. right. left.
    now rewrite append_assoc.
Qed.

Lemma dir_after_write : forall fs p content fs' d,
  Os.write_file fs p content = Ok fs' ->
  Os.find d fs = Some Os.Dir -> Os.find d fs' = Some Os.Dir.
Proof.
  intros fs p content fs' d Hw Hd.
  pose proof (write_file_result _ _ _ _ Hw) as E. subst fs'.
  rewrite find_put_other; [exact Hd|].
  intros E. unfold Os.write_file in Hw. rewrite E, Hd in Hw. discriminate.
Qed.

Lemma file_after_write : forall fs p content fs',
  Os.write_file fs p content = Ok fs' ->
  Os.find (Os.key p) fs' = Some (Os.File content).
Proof.
  intros fs p content fs' Hw.
  apply write_file_result in Hw. subst fs'. apply find_put_same.
Qed.

Lemma default_join : forall d,
  slash_free d = true ->
  Os.path_join default_dir d = default_dir ++ String "/" d.
Proof.
  intros d Hd. unfold Os.path_join. now rewrite (slash_free_start d Hd).
Qed.

Lemma category_join : forall d name,
  d <> EmptyString -> slash_free d = true -> slash_free name = true ->
  Os.path_join (default_dir ++ String "/" d) name
  = (default_dir ++ String "/" d) ++ String "/" name.
Proof.
  intros d name Hne Hd Hn.
  replace (default_dir ++ String "/" d) with ((default_dir ++ "/") ++ d)
    by now rewrite append_assoc.
  now apply join_named.
Qed.

Lemma md_slash_free : forall stem,
  slash_free stem = true -> slash_free (stem ++ ".md") = true.
Proof.
  unfold slash_free. intros stem H. now rewrite all_chars_app, H.
Qed.

(** What a call of [create_bookmark] that created a bookmark did. *)
Lemma bookmark_created_inversion :
  forall bookmarks_dir network fs title uri category tags name force
         f t u c g fs',
    create_bookmark bookmarks_dir getcwd expanduser realpath readable
                    network fs title uri category tags name force
    = (BookmarkCreated f t u c g, fs') ->
    (is_url u = true \/ is_file u = true)
    /\ g = (if Py.nonempty tags then c ++ "," ++ tags else c)
    /\ exists chosen named fs1,
         c = slugify chosen
         /\ Os.makedirs fs (Os.path_join bookmarks_dir c) = (fs1, None)
         /\ f = Os.path_join (Os.path_join bookmarks_dir c)
                             (slugify named ++ ".md")
         /\ Os.write_file fs1 f (file_text t u g) = Ok fs'.
Proof.
  intros bookmarks_dir network fs title uri category tags name force
         f t u c g fs' H.
  unfold create_bookmark in H.
  destruct (negb (Py.nonempty uri)); [discriminate|].
  set (uri1 := if is_file uri then realpath (expand_path getcwd expanduser uri)
               else uri) in H.
  set (uri2 := if is_url uri1 then get_final_uri (network 0) uri1
               else uri1) in H.
  destruct (is_uri_accessible getcwd expanduser readable (network 1) uri2)
    eqn:Ea; [|discriminate]. cbn [negb] in H.
  set (chosen := if negb (Py.nonempty category)
                 then (if is_local_file uri2 then "files" else "unsorted")
                 else category) in H.
  set (title1 := if negb (Py.nonempty title)
                 then get_title_from_uri getcwd expanduser (network 2) uri2
                 else title) in H.
  set (title2 := if negb (Py.nonempty title1)
                 then Os.basename (Py.rstrip_chars "/" uri2)
                 else title1) in H.
  set (name1 := if negb (Py.nonempty name) then title2 else name) in H.
  destruct (negb (Py.nonempty title2)); [discriminate|].
  destruct (negb (Py.nonempty chosen)); [discriminate|].
  destruct (Os.makedirs fs (Os.path_join bookmarks_dir (slugify chosen)))
    as [fs1 [e|]] eqn:Em; [discriminate|].
  destruct (Os.path_exists fs1 _ && negb force); [discriminate|].
  match type of H with
  | match ?m with _ => _ end = _ => destruct m as [fs2|] eqn:Ew
  end; [|discriminate].
  inversion H; subst. clear H.
  split; [|split; [reflexivity|]].
  - unfold is_uri_accessible in Ea.
    destruct (is_url uri2); [now left|].
    destruct (is_file uri2); [now right|discriminate].
  - exists chosen, name1, fs1. repeat split; assumption.
Qed.

Lemma address_is_not_blank : forall u,
  is_url u = true \/ is_file u = true -> Py.strip u <> EmptyString.
Proof.
  intros [|c s] H.
  - destruct H as [H|H]; discriminate.
  - assert (Hc : Py.isspace c = false).
    { revert H. destruct c as [[] [] [] [] [] [] [] []];
        try reflexivity; intros [H|H]; discriminate. }
    unfold Py.strip, Py.strip_by. cbn [Py.lstrip_by]. rewrite Hc.
    cbn [Py.rstrip_by]. destruct (Py.rstrip_by Py.isspace s);
      [rewrite Hc|]; discriminate.
Qed.

(** A text without a carriage return is read in text mode as it was
    written. *)
Lemma text_mode_keeps : forall s,
  without_cr s = true -> Os.universal_newlines false s = s.
Proof.
  unfold without_cr. induction s as [|c s IH]; intros H; [reflexivity|].
  cbn [all_chars] in H. apply andb_true_iff in H as [Hc Hs].
  cbn [Os.universal_newlines].
  destruct (Ascii.eqb c (ascii_of_nat 13)); [discriminate|].
  destruct (Ascii.eqb c (ascii_of_nat 10)); now rewrite IH.
Qed.

Lemma manager_text_without_cr : forall t u g,
  without_cr t = true -> without_cr u = true -> without_cr g = true ->
  without_cr (file_text t u g) = true.
Proof.
  intros t u g Ht Hu Hg. unfold without_cr, file_text in *.
  rewrite !all_chars_app, Ht, Hu, Hg. reflexivity.
Qed.


Lemma slug_first_tag : forall c tags,
  c <> EmptyString ->
  slug_chars c = true ->
  hd EmptyString
     (parse_tags (Py.strip (if Py.nonempty tags then c ++ "," ++ tags
                            else c))) = c.
Proof.
  intros c tags Hne Hc.
  assert (Hsp : all_chars (fun x => negb (Py.isspace x)) c = true)
    by now apply slug_chars_no_space.
  assert (Hco : all_chars (fun x => negb (Ascii.eqb x ",")) c = true).
  { eapply all_chars_weaken; [|exact Hc].
    intros x Hx. now rewrite (slug_char_not_comma x Hx). }
  assert (Hstrip : Py.strip c = c) by now apply strip_by_none.
  assert (Hlead : forall rest,
             Py.lstrip_by Py.isspace (c ++ rest) = c ++ rest).
  { intros rest. destruct c as [|x c]; [contradiction|].
    cbn [all_chars] in Hsp. apply andb_prop in Hsp as [Hx _].
    cbn [String.append Py.lstrip_by].
    now destruct (Py.isspace x). }
  destruct (Py.nonempty tags).
  - unfold Py.strip, Py.strip_by. rewrite Hlead.
    change (c ++ "," ++ tags) with (c ++ String "," tags).
    assert (Hr : exists rest,
               Py.rstrip_by Py.isspace (c ++ String "," tags)
               = c ++ String "," rest).
    { clear. induction c as [|x c (rest & IH)].
      - cbn [String.append Py.rstrip_by].
        destruct (Py.rstrip_by Py.isspace tags) as [|y r].
        + exists EmptyString. reflexivity.
        + now exists (String y r).
      - exists rest. cbn [String.append Py.rstrip_by]. rewrite IH.
        now destruct c. }
    destruct Hr as (rest & ->). unfold parse_tags.
    rewrite nonempty_not_empty by (destruct c; discriminate).
    rewrite split_before_separator by exact Hco.
    cbn [filter]. fold (Py.strip c). rewrite Hstrip.
    rewrite nonempty_not_empty by exact Hne.
    cbn [map hd]. exact Hstrip.
  - rewrite Hstrip. unfold parse_tags.
    rewrite nonempty_not_empty by exact Hne.
    rewrite split_without_separator by exact Hco.
    cbn [filter]. fold (Py.strip c). rewrite Hstrip.
    rewrite nonempty_not_empty by exact Hne.
    cbn [map hd]. exact Hstrip.
Qed.

(** X22. A bookmark that [create_bookmark] created in the default
    bookmark directory is found again. When its category is not empty,
    title, address and tags hold no line break, the title is not blank
    and holds neither [uri:] nor [tags:], and the address holds no
    [tags:], then a search for a query of three characters or more that
    occurs in the text of the file, in whatever letter case, answers
    with the bookmark, unless it stops at its limit before: the result
    carries the title and the address, trimmed, the category as its
    category and the category as the first of its tags. A line break
    is a line feed or a carriage return: the search reads the file in
    text mode, where a carriage return comes back as a line feed. *)
Theorem created_bookmark_is_found :
  forall network fs title uri category tags name force f t u c g fs'
         query limit,
    create_bookmark default_dir getcwd expanduser realpath readable
                    network fs title uri category tags name force
    = (BookmarkCreated f t u c g, fs') ->
    c <> EmptyString ->
    single_line t = true ->
    single_line u = true ->
    single_line tags = true ->
    without_cr t = true ->
    without_cr u = true ->
    without_cr tags = true ->
    Py.strip t <> EmptyString ->
    Py.contains "uri:" t = false ->
    Py.contains "tags:" t = false ->
    Py.contains "tags:" u = false ->
    3 <= String.length query ->
    Py.contains (Py.lower query) (Py.lower (file_text t u g)) = true ->
    ((limit <= Z.of_nat (List.length
                           (search_bookmarks default_dir md5_hex fs' query
                                             limit)))%Z
     \/ In (read_back md5_hex f c t u g)
           (search_bookmarks default_dir md5_hex fs' query limit))
    /\ hd EmptyString (r_tags (read_back md5_hex f c t u g)) = c.
Proof.
  intros network fs title uri category tags name force f t u c g fs'
         query limit H Hne Ht Hu Htags Hrt Hru Hrtags Hbt Hut Htt Htu
         Hlen Hq.
  apply bookmark_created_inversion in H
    as (Hacc & Hg & chosen & named & fs1 & Hc & Hm & Hf & Hw).
  assert (Hcs : slash_free c = true)
    by (rewrite Hc; apply manager_slug_slash_free).
  assert (Hcc : slug_chars c = true).
  { rewrite Hc. destruct (manager_slug_shape chosen) as [E|S];
      [now rewrite E|now apply shape_slug_chars in S]. }
  rewrite default_join in Hm, Hf by exact Hcs.
  rewrite category_join in Hf
    by (auto using md_slash_free, manager_slug_slash_free).
  assert (Hkey : Os.key f = f).
  { rewrite Hf.
    change ((default_dir ++ String "/" c)
              ++ String "/" (slugify named ++ ".md"))
      with ((default_dir ++ String "/" c)
              ++ "/" ++ slugify named ++ ".md").
    rewrite <- !append_assoc. apply key_md. }
  destruct (category_dirs_made fs fs1 c Hne Hcs Hm) as [Htop Hdir].
  pose proof (dir_after_write _ _ _ _ _ Hw Htop) as Htop'.
  pose proof (dir_after_write _ _ _ _ _ Hw Hdir) as Hdir'.
  pose proof (file_after_write _ _ _ _ Hw) as Hfile.
  rewrite Hkey in Hfile.
  assert (Hgl : single_line g = true).
  { rewrite Hg. unfold single_line in *.
    assert (Hcl : all_chars Re.dot c = true).
    { eapply all_chars_weaken; [|exact Hcc]. intros x; each_char x. }
    destruct (Py.nonempty tags); [|exact Hcl].
    now rewrite !all_chars_app, Hcl, Htags. }
  assert (Hgr : without_cr g = true).
  { rewrite Hg. unfold without_cr in *.
    assert (Hcr : all_chars (fun x => negb (Ascii.eqb x (ascii_of_nat 13)))
                            c = true).
    { eapply all_chars_weaken; [|exact Hcc]. intros x; each_char x. }
    destruct (Py.nonempty tags); [|exact Hcr].
    now rewrite !all_chars_app, Hcr, Hrtags. }
  pose proof (text_mode_keeps _ (manager_text_without_cr t u g Hrt Hru Hgr))
    as Hread.
  rewrite <- Hread in Hq.
  split.
  - rewrite Hf in Hfile.
    pose proof (search_reaches_file md5_hex fs' c (slugify named)
                  (file_text t u g) query limit Hne Hcs
                  (manager_slug_slash_free named) Htop' Hdir' Hfile
                  Hlen Hq) as [F|F]; [now left|right].
    rewrite Hread in F.
    rewrite manager_entry_read_back in F;
      auto using address_is_not_blank.
    rewrite basename_of_joined in F by now apply slash_free_contains.
    now rewrite Hf.
  - cbn [read_back r_tags]. rewrite Hg. now apply slug_first_tag.
Qed.



End RoundTrips.

(* ===================================================================== *)
(** ** The answer of a search as JSON *)
(* ===================================================================== *)

Section JsonAnswer.
Import BookmarksManager.

Lemma scan_escaped_char : forall c fuel tail,
  Json.scanstring (S fuel) (Json.escape_char c ++ tail)
  = match Json.scanstring fuel tail with
    | Some (str, out) => Some (String c str, out)
    | None => None
    end.
Proof.
  intros c fuel tail.
  destruct c as [[] [] [] [] [] [] [] []]; reflexivity.
Qed.

Lemma escape_char_length : forall c,
  1 <= String.length (Json.escape_char c).
Proof.
  intros c. destruct c as [[] [] [] [] [] [] [] []]; vm_compute; lia.
Qed.

Lemma escape_length : forall s,
  String.length s <= String.length (Json.escape s).
Proof.
  induction s as [|c s IH]; [apply Nat.le_refl|].
  cbn [Json.escape String.length]. rewrite append_length.
  pose proof (escape_char_length c). lia.
Qed.

Lemma scan_escaped : forall s fuel rest,
  String.length s < fuel ->
  Json.scanstring fuel (Json.escape s ++ String (ascii_of_nat 34) rest)
  = Some (s, rest).
Proof.
  induction s as [|c s IH]; intros fuel rest H;
    (destruct fuel as [|fuel]; [cbn [String.length] in H; lia|]).
  - reflexivity.
  - cbn [Json.escape]. rewrite append_assoc, scan_escaped_char.
    rewrite IH by (cbn [String.length] in H; lia). reflexivity.
Qed.

Lemma str_then : forall s rest,
  Json.dumps_str s ++ rest
  = String (ascii_of_nat 34)
           (Json.escape s ++ String (ascii_of_nat 34) rest).
Proof.
  intros s rest. unfold Json.dumps_str, dquote.
  rewrite !append_assoc. reflexivity.
Qed.

Lemma decodes_str : forall s, decodes 1 (Json.dumps_str s) (PStr s).
Proof.
  intros s. split.
  - eexists. eexists. split; [|split].
    + unfold Json.dumps_str, dquote. reflexivity.
    + reflexivity.
    + reflexivity.
  - intros fuel rest H. rewrite str_then.
    destruct fuel as [|fuel]; [lia|].
    cbn [Json.scan_once].
    change (Ascii.eqb (ascii_of_nat 34) (ascii_of_nat 34)) with true.
    cbn iota. rewrite scan_escaped; [reflexivity|].
    rewrite append_length. pose proof (escape_length s). lia.
Qed.

Lemma join_then : forall sep x l rest,
  Py.join sep (x :: l) ++ rest
  = x ++ match l with
         | [] => rest
         | _ :: _ => sep ++ Py.join sep l ++ rest
         end.
Proof.
  intros sep x l rest. destruct l as [|y l]; [reflexivity|].
  cbn [Py.join]. now rewrite !append_assoc.
Qed.

Lemma skip_nothing : forall d tail,
  Json.is_ws d = false -> Json.skip_ws (String d tail) = String d tail.
Proof.
  intros d tail H. unfold Json.skip_ws. cbn [Py.lstrip_by]. now rewrite H.
Qed.

(** The text of the items of a list begins like its first item. *)
Lemma items_begin :
  forall (X : Type) (text : X -> string) (value : X -> pyval)
         (need : X -> nat) x xs rest,
    (forall x, decodes (need x) (text x) (value x)) ->
    exists d tail,
      Py.join ", " (map text (x :: xs)) ++ rest = String d tail
      /\ Json.is_ws d = false /\ Ascii.eqb d "]" = false.
Proof.
  intros X text value need x xs rest Hd.
  destruct (Hd x) as [(d & t & E & Hw & Hb) _].
  cbn [map]. rewrite join_then, E. cbn [String.append].
  now eexists; eexists.
Qed.

(** The items of a list, each decoded with the fuel it needs. *)
Lemma scan_elements :
  forall (X : Type) (text : X -> string) (value : X -> pyval)
         (need : X -> nat) xs acc fuel rest,
    (forall x, decodes (need x) (text x) (value x)) ->
    xs <> [] ->
    fuel_for need xs <= fuel ->
    Json.elements fuel (Py.join ", " (map text xs) ++ String "]" rest) acc
    = Some (PList (acc ++ map value xs), rest).
Proof.
  intros X text value need xs. induction xs as [|x xs IH];
    intros acc fuel rest Hd Hne Hf; [contradiction|].
  cbn [fuel_for] in Hf. destruct fuel as [|fuel]; [lia|].
  destruct (Hd x) as [_ Hx].
  destruct xs as [|y xs].
  - cbn [map Py.join Json.elements]. rewrite Hx by (cbn [fuel_for] in Hf; lia).
    reflexivity.
  - assert (Eshape : Py.join ", " (map text (x :: y :: xs))
                       ++ String "]" rest
                     = text x
                         ++ String ","
                              (String " "
                                 (Py.join ", " (map text (y :: xs))
                                    ++ String "]" rest))).
    { cbn [map Py.join]. now rewrite !append_assoc. }
    rewrite Eshape. cbn [Json.elements]. rewrite Hx by lia.
    rewrite skip_nothing by reflexivity.
    change (Ascii.eqb "," "]") with false.
    change (Ascii.eqb "," ",") with true. cbn iota.
    change (Json.skip_ws
              (String " " (Py.join ", " (map text (y :: xs))
                             ++ String "]" rest)))
      with (Json.skip_ws (Py.join ", " (map text (y :: xs))
                            ++ String "]" rest)).
    destruct (items_begin X text value need y xs (String "]" rest) Hd)
      as (d & tail & E & Hw & _).
    rewrite E, (skip_nothing d tail Hw), <- E.
    rewrite IH; [|exact Hd|discriminate|lia].
    now rewrite <- app_assoc.
Qed.

Lemma list_then : forall items rest,
  Json.dumps_list items ++ rest
  = String "[" (Py.join ", " items ++ String "]" rest).
Proof.
  intros items rest. unfold Json.dumps_list.
  now rewrite !append_assoc.
Qed.

(** A list of items, each decoded with the fuel it needs. *)
Lemma decodes_list :
  forall (X : Type) (text : X -> string) (value : X -> pyval)
         (need : X -> nat) xs,
    (forall x, decodes (need x) (text x) (value x)) ->
    decodes (S (fuel_for need xs))
            (Json.dumps_list (map text xs)) (PList (map value xs)).
Proof.
  intros X text value need xs Hd. split.
  - eexists. eexists. split; [|split].
    + unfold Json.dumps_list. reflexivity.
    + reflexivity.
    + reflexivity.
  - intros fuel rest Hf. rewrite list_then.
    destruct fuel as [|fuel]; [lia|].
    cbn [Json.scan_once].
    change (Ascii.eqb "[" (ascii_of_nat 34)) with false.
    change (Ascii.eqb "[" "{") with false.
    change (Ascii.eqb "[" "[") with true. cbn iota.
    destruct xs as [|x xs]; [reflexivity|].
    destruct (items_begin X text value need x xs (String "]" rest) Hd)
      as (d & tail & E & Hw & Hb).
    rewrite E, (skip_nothing d tail Hw), Hb, <- E.
    rewrite (scan_elements X text value need (x :: xs) [] fuel rest Hd);
      [reflexivity|discriminate|lia].
Qed.

(** One member of a dictionary: its key, its value, and what the
    character after the value leads to. *)
Lemma scan_member : forall k text v need c rest fuel acc,
  decodes need text v ->
  need <= fuel ->
  Json.is_ws c = false ->
  Json.members (S fuel) (Json.dumps_str k ++ ": " ++ text ++ String c rest)
               acc
  = if Ascii.eqb c "}" then Some (PDict (PyObj.store k v acc), rest)
    else if Ascii.eqb c ","
         then Json.members fuel (Json.skip_ws rest) (PyObj.store k v acc)
         else None.
Proof.
  intros k text v need c rest fuel acc [(d & t & E & Hw & _) Hv] Hf Hc.
  rewrite str_then. cbn [Json.members].
  change (Ascii.eqb (ascii_of_nat 34) (ascii_of_nat 34)) with true.
  cbn iota.
  rewrite scan_escaped
    by (rewrite append_length; pose proof (escape_length k); lia).
  change (Json.skip_ws (": " ++ text ++ String c rest))
    with (String ":" (String " " (text ++ String c rest))).
  cbn iota. change (Ascii.eqb ":" ":") with true. cbn iota.
  change (Json.skip_ws (String " " (text ++ String c rest)))
    with (Json.skip_ws (text ++ String c rest)).
  assert (Hskip : Json.skip_ws (text ++ String c rest)
                  = text ++ String c rest).
  { rewrite E. cbn [String.append]. now apply skip_nothing. }
  rewrite Hskip, Hv by exact Hf.
  now rewrite (skip_nothing c rest Hc).
Qed.

Lemma scan_member_more : forall k text v need next more fuel acc,
  decodes need text v ->
  need <= fuel ->
  Json.members (S fuel)
    (Json.dumps_str k ++ ": " ++ text
       ++ String "," (String " " (Json.dumps_str next ++ more))) acc
  = Json.members fuel (Json.dumps_str next ++ more) (PyObj.store k v acc).
Proof.
  intros k text v need next more fuel acc Hd Hf.
  rewrite (scan_member k text v need "," _ fuel acc Hd Hf eq_refl).
  change (Ascii.eqb "," "}") with false.
  change (Ascii.eqb "," ",") with true. cbn iota.
  change (Json.skip_ws (String " " (Json.dumps_str next ++ more)))
    with (Json.skip_ws (Json.dumps_str next ++ more)).
  rewrite (str_then next). now rewrite skip_nothing by reflexivity.
Qed.

Lemma scan_member_last : forall k text v need rest fuel acc,
  decodes need text v ->
  need <= fuel ->
  Json.members (S fuel)
    (Json.dumps_str k ++ ": " ++ text ++ String "}" rest) acc
  = Some (PDict (PyObj.store k v acc), rest).
Proof.
  intros k text v need rest fuel acc Hd Hf.
  now rewrite (scan_member k text v need "}" _ fuel acc Hd Hf eq_refl).
Qed.

Lemma result_then : forall r rest,
  dumps_result r ++ rest
  = String "{"
      (Json.dumps_str "id" ++ ": " ++ Json.dumps_str (r_id r)
         ++ String ","
         (String " "
            (Json.dumps_str "url" ++ ": " ++ Json.dumps_str (r_url r)
               ++ String ","
               (String " "
                  (Json.dumps_str "title" ++ ": "
                     ++ Json.dumps_str (r_title r)
                     ++ String ","
                     (String " "
                        (Json.dumps_str "tags" ++ ": "
                           ++ Json.dumps_list
                                (map Json.dumps_str (r_tags r))
                           ++ String ","
                           (String " "
                              (Json.dumps_str "category" ++ ": "
                                 ++ Json.dumps_str (r_category r)
                                 ++ String "}" rest))))))))).
Proof.
  intros r rest. unfold dumps_result, Json.dumps_dict.
  cbn [map fst snd Py.join]. rewrite !append_assoc. reflexivity.
Qed.

Lemma fuel_for_strings : forall tags : list string,
  fuel_for (fun _ => 1) tags <= S (List.length tags).
Proof.
  induction tags as [|t tags IH]; cbn [fuel_for List.length]; lia.
Qed.

Lemma decodes_result : forall r,
  decodes (List.length (r_tags r) + 7) (dumps_result r) (result_value r).
Proof.
  intros r. split.
  - eexists. eexists. split; [|split].
    + unfold dumps_result, Json.dumps_dict. reflexivity.
    + reflexivity.
    + reflexivity.
  - intros fuel rest Hf. rewrite result_then.
    pose proof (fuel_for_strings (r_tags r)) as Ht.
    do 6 (destruct fuel as [|fuel]; [lia|]).
    cbn [Json.scan_once].
    change (Ascii.eqb "{" (ascii_of_nat 34)) with false.
    change (Ascii.eqb "{" "{") with true. cbn iota.
    rewrite (str_then "id"). rewrite skip_nothing by reflexivity.
    change (Ascii.eqb (ascii_of_nat 34) "}") with false. cbn iota.
    rewrite <- (str_then "id").
    rewrite (scan_member_more "id" _ _ 1 "url" _ _ _
               (decodes_str (r_id r))) by lia.
    rewrite (scan_member_more "url" _ _ 1 "title" _ _ _
               (decodes_str (r_url r))) by lia.
    rewrite (scan_member_more "title" _ _ 1 "tags" _ _ _
               (decodes_str (r_title r))) by lia.
    rewrite (scan_member_more "tags" _ _ _ "category" _ _ _
               (decodes_list string Json.dumps_str PStr (fun _ => 1)
                  (r_tags r) decodes_str)) by lia.
    rewrite (scan_member_last "category" _ _ 1 _ _ _
               (decodes_str (r_category r))) by lia.
    reflexivity.
Qed.

Lemma join_length : forall sep items,
  (forall x, In x items -> 1 <= String.length x) ->
  List.length items <= String.length (Py.join sep items).
Proof.
  intros sep items. induction items as [|x items IH]; intros H.
  - cbn. lia.
  - pose proof (join_then sep x items "") as E.
    rewrite !append_empty in E.
    assert (Hx : 1 <= String.length x) by (apply H; now left).
    assert (Hi : List.length items <= String.length (Py.join sep items))
      by (apply IH; intros y Hy; apply H; now right).
    rewrite E. destruct items as [|y items].
    + cbn [List.length]. rewrite append_length. cbn. lia.
    + rewrite !append_length. cbn [List.length] in *. lia.
Qed.

Lemma dumps_str_length : forall s, 2 <= String.length (Json.dumps_str s).
Proof.
  intros s. pose proof (str_then s "") as E. rewrite append_empty in E.
  rewrite E. cbn [String.length]. rewrite append_length. cbn. lia.
Qed.

Lemma dumps_result_length : forall r,
  List.length (r_tags r) + 8 <= String.length (dumps_result r).
Proof.
  intros r. pose proof (result_then r "") as E.
  rewrite append_empty in E. rewrite E.
  pose proof (list_then (map Json.dumps_str (r_tags r)) "") as El.
  rewrite append_empty in El. rewrite El.
  assert (Hj : List.length (map Json.dumps_str (r_tags r))
               <= String.length
                    (Py.join ", " (map Json.dumps_str (r_tags r)))).
  { apply join_length. intros x Hx. apply in_map_iff in Hx.
    destruct Hx as (t & <- & _). pose proof (dumps_str_length t). lia. }
  rewrite length_map in Hj.
  repeat (progress (rewrite ?append_length;
                    cbn [String.length String.append])).
  lia.
Qed.

Lemma fuel_for_results : forall rs,
  fuel_for (fun r => List.length (r_tags r) + 7) rs
  <= String.length (Py.join ", " (map dumps_result rs)).
Proof.
  induction rs as [|r rs IH]; [cbn; lia|].
  cbn [fuel_for map].
  pose proof (join_then ", " (dumps_result r) (map dumps_result rs) "")
    as E.
  rewrite !append_empty in E. rewrite E.
  pose proof (dumps_result_length r) as Hr.
  destruct rs as [|r' rs].
  - cbn [map fuel_for]. rewrite append_length. cbn [String.length]. lia.
  - change (map dumps_result (r' :: rs))
      with (dumps_result r' :: map dumps_result rs) in *.
    rewrite !append_length. lia.
Qed.

(** The encoded list of results decodes to the results. *)
Lemma loads_results : forall rs,
  Json.loads (Json.dumps_list (map dumps_result rs))
  = Ok (PList (map result_value rs)).
Proof.
  intros rs. unfold Json.loads.
  pose proof (decodes_list _ dumps_result result_value
                (fun r => List.length (r_tags r) + 7) rs decodes_result)
    as [_ Hd].
  pose proof (fuel_for_results rs) as Hf.
  pose proof (list_then (map dumps_result rs) "") as El.
  rewrite append_empty in El.
  assert (Hs : Json.skip_ws (Json.dumps_list (map dumps_result rs))
               = Json.dumps_list (map dumps_result rs)).
  { rewrite El. now apply skip_nothing. }
  rewrite Hs.
  specialize (Hd (2 * String.length (Json.dumps_list (map dumps_result rs))
                  + 2) "").
  rewrite append_empty in Hd. rewrite Hd; [reflexivity|].
  rewrite El at 1. cbn [String.length]. rewrite append_length. lia.
Qed.

Variable bookmarks_dir : string.
Variable md5_hex : string -> string.

(** X24. The answer of [suggest_bookmarks] is a JSON text that decodes
    to the list of the results of the search with its default limit,
    each result a dictionary with the keys [id], [url], [title], [tags]
    and [category]: whatever characters the titles, addresses and tags
    of the files hold, the encoder escapes them so that the decoder
    reads the same strings back. *)
Theorem suggestions_decode_to_results : forall fs query,
  Json.loads (suggest_bookmarks bookmarks_dir md5_hex fs query)
  = Ok (PList (map result_value
                 (search_bookmarks bookmarks_dir md5_hex fs query 20))).
Proof.
  intros fs query. unfold suggest_bookmarks. apply loads_results.
Qed.
End JsonAnswer.
(* ===================================================================== *)
(** ** The further properties on concrete runs *)
(* ===================================================================== *)

Ltac run :=
  first [ vm_compute; reflexivity
        | vm_compute; discriminate
        | vm_compute; lia
        | let H := fresh in intro H; vm_compute in H; discriminate H ].

Lemma written_file_stays_in_category_witness :
  exists stem,
    "/data/bookmarks/up/etc-passwd.md"
    = Os.path_join
        (Os.path_join default_dir (BookmarksImporter.slugify "../Up"))
        (stem ++ ".md")
    /\ all_chars stem_char stem = true
    /\ slug_chars (BookmarksImporter.slugify "../Up") = true
    /\ Py.contains "/" (BookmarksImporter.slugify "../Up") = false
    /\ Py.contains "/" (stem ++ ".md") = false.
Proof.
  apply (written_file_stays_in_category
           default_dir fresh_store noon
           (PStr "../../etc/passwd") (PStr "https://example.com")
           (PStr "../Up") (PStr "a, b") EmptyString EmptyString
           "/data/bookmarks/up/etc-passwd.md" "../../etc/passwd"
           "https://example.com" "../Up" "a, b" (snd escaping_write)).
  run.
Defined.

Lemma write_changes_one_file_witness :
  (Os.find "/data/bookmarks" fresh_store = Some Os.Dir ->
   Os.find "/data/bookmarks" (snd escaping_write) = Some Os.Dir)
  /\ (Os.find "/data/bookmarks" (snd escaping_write) = Some Os.Dir ->
      Os.find "/data/bookmarks" fresh_store = Some Os.Dir
      \/ (Os.find "/data/bookmarks" fresh_store = None /\ Os.Dir = Os.Dir))
  /\ Os.find "/data/bookmarks/up/etc-passwd.md" (snd escaping_write)
     = Some (Os.File (BookmarksImporter.file_text
                        "../../etc/passwd" "https://example.com" "a, b"
                        EmptyString EmptyString)).
Proof.
  apply (write_changes_one_file
           default_dir fresh_store noon
           (PStr "../../etc/passwd") (PStr "https://example.com")
           (PStr "../Up") (PStr "a, b") EmptyString EmptyString
           "/data/bookmarks/up/etc-passwd.md" "../../etc/passwd"
           "https://example.com" "../Up" "a, b" (snd escaping_write)
           "/data/bookmarks" Os.Dir); run.
Defined.

Lemma non_text_field_fails_witness :
  exists t u,
    BookmarksImporter.create_bookmark_file
      default_dir fresh_store noon
      (PStr "Test") (PStr "https://example.com") (PInt 7) (PStr "a, b")
      EmptyString EmptyString
    = (BookmarksImporter.Failed AttributeError t u, fresh_store).
Proof.
  apply (non_text_field_fails
           default_dir fresh_store noon
           (PStr "Test") (PStr "https://example.com") (PInt 7) (PStr "a, b")
           EmptyString EmptyString).
  run.
Defined.


Lemma failed_import_keeps_earlier_files_witness :
  BookmarksImporter.import_json_bookmarks
    default_dir ticking Json.loads (Ok array_with_null) false fresh_world
  = (BookmarksImporter.failure (BookmarksImporter.Exception AttributeError),
     snd (BookmarksImporter.import_json_bookmarks
            default_dir ticking Json.loads (Ok array_of_one) false
            fresh_world)).
Proof.
  apply (failed_import_keeps_earlier_files
           default_dir ticking Json.loads array_with_null array_of_one
           [PDict [("title", PStr "One");
                   ("url", PStr "https://one.example/")]]
           PNone
           [PDict [("title", PStr "Two");
                   ("url", PStr "https://two.example/")]]
           fresh_world); run.
Defined.

Lemma dry_run_previews_records_witness :
  BookmarksImporter.import_json_bookmarks
    default_dir ticking Json.loads (Ok array_of_one) true fresh_world
  = (preview_of
       (map BookmarksImporter.Raw
            [PDict [("title", PStr "One");
                    ("url", PStr "https://one.example/")]]),
     fresh_world).
Proof.
  destruct (dry_run_previews_records
              default_dir ticking (fun s => s) Json.loads no_rows
              array_of_one fresh_world) as (_ & Hjson & _).
  apply (Hjson (PList [PDict [("title", PStr "One");
                              ("url", PStr "https://one.example/")]]));
    run.
Defined.

Lemma pocket_export_must_be_object_witness :
  exists e,
    BookmarksImporter.import_pocket_export
      default_dir ticking Json.loads (Ok array_of_one) false fresh_world
    = (BookmarksImporter.failure (BookmarksImporter.Exception e),
       fresh_world).
Proof.
  apply (pocket_export_must_be_object
           default_dir ticking Json.loads array_of_one
           (PList [PDict [("title", PStr "One");
                          ("url", PStr "https://one.example/")]])
           false fresh_world); run.
Defined.

Lemma other_address_is_refused_witness :
  BookmarksManager.create_bookmark
    default_dir "/work" home same all_readable online fresh_store
    "Title" "ftp://example.com/x" EmptyString EmptyString EmptyString false
  = (BookmarksManager.BookmarkError
       (BookmarksManager.NotAccessible "ftp://example.com/x"),
     fresh_store).
Proof.
  apply (other_address_is_refused
           default_dir "/work" home same all_readable online fresh_store
           "Title" "ftp://example.com/x" EmptyString EmptyString EmptyString
           false); run.
Defined.

Lemma create_bookmark_overwrites_only_when_forced_witness :
  Os.find "/data/bookmarks/dev-tools/read-me.md"
          (snd (BookmarksManager.create_bookmark
                  default_dir "/work" home same all_readable online
                  (snd read_me_created)
                  "Read Me" "https://example.org" "Dev Tools" EmptyString
                  EmptyString false))
  = Some (Os.File (BookmarksManager.file_text
                     "Read Me" "https://example.com" "dev-tools,x, y")).
Proof.
  apply (create_bookmark_overwrites_only_when_forced
           default_dir "/work" home same all_readable online
           (snd read_me_created)
           "Read Me" "https://example.org" "Dev Tools" EmptyString
           EmptyString false
           (fst (BookmarksManager.create_bookmark
                   default_dir "/work" home same all_readable online
                   (snd read_me_created)
                   "Read Me" "https://example.org" "Dev Tools" EmptyString
                   EmptyString false))).
  - run.
  - run.
  - left. reflexivity.
Defined.

Lemma file_uri_is_stored_as_path_witness :
  "/srv/notes.txt" = same "/srv/notes.txt"
  /\ all_readable (same "/srv/notes.txt") = true
  /\ (EmptyString = EmptyString -> "files" = "files").
Proof.
  apply (file_uri_is_stored_as_path
           default_dir "/work" home same all_readable online fresh_store
           "Notes" "/srv/notes.txt" EmptyString EmptyString EmptyString false
           "/data/bookmarks/files/notes.md" "Notes" "/srv/notes.txt"
           "files" "files"
           (snd (BookmarksManager.create_bookmark
                   default_dir "/work" home same all_readable online
                   fresh_store "Notes" "file:///srv/notes.txt" EmptyString
                   EmptyString EmptyString false))); run.
Defined.

Lemma search_result_is_matching_file_witness :
  3 <= String.length "READ"
  /\ exists root dirs files file content,
       In (root, dirs, files) (Os.walk (snd read_me_created) default_dir)
       /\ In file files
       /\ Py.endswith file ".md" = true
       /\ Os.read_text (snd read_me_created) (Os.path_join root file)
          = Ok content
       /\ Py.contains (Py.lower "READ") (Py.lower content) = true
       /\ read_me_result
          = {| BookmarksManager.r_id := Os.path_join root file;
               BookmarksManager.r_url :=
                 BookmarksManager.field (BookmarksManager.field_re "uri")
                                        content;
               BookmarksManager.r_title :=
                 BookmarksManager.field (BookmarksManager.field_re "title")
                                        content;
               BookmarksManager.r_tags :=
                 BookmarksManager.parse_tags
                   (BookmarksManager.field BookmarksManager.tags_re content);
               BookmarksManager.r_category := Os.basename root |}.
Proof.
  apply (search_result_is_matching_file
           default_dir (fun path => path) (snd read_me_created)
           "READ" 20%Z read_me_result).
  vm_compute. left. reflexivity.
Defined.

Lemma search_result_tags_are_clean_witness :
  Py.nonempty "x" = true /\ Py.strip "x" = "x" /\ Py.contains "," "x" = false.
Proof.
  apply (search_result_tags_are_clean
           default_dir (fun path => path) (snd read_me_created)
           "READ" 20%Z read_me_result "x").
  - vm_compute. left. reflexivity.
  - vm_compute. right. left. reflexivity.
Defined.

Lemma slugify_functions_agree_witness :
  BookmarksImporter.slugify "Dev Tools & More_2"
  = BookmarksManager.slugify "Dev Tools & More_2".
Proof.
  apply (slugify_functions_agree "Dev Tools & More_2"). run.
Defined.

Lemma query_string_is_read_back_witness :
  Server.parse_get_params
    ("/search" ++ "?"
       ++ query_of [("q", "a=b"); ("limit", "5"); ("q", "rust")])
  = dict_of [("q", "a=b"); ("limit", "5"); ("q", "rust")].
Proof.
  apply (query_string_is_read_back
           "/search" [("q", "a=b"); ("limit", "5"); ("q", "rust")]).
  - discriminate.
  - run.
  - repeat constructor.
Defined.

Lemma form_body_is_read_like_query_witness :
  (Server.form_fields "url=https://example.com/&title" = None
   <-> exists piece,
         In piece (Py.split "&" "url=https://example.com/&title")
         /\ List.length (Py.split "=" piece) <> 2)
  /\ (forall fields,
         Server.form_fields "url=https://example.com/&title" = Some fields ->
         fields
         = Server.parse_get_params
             ("/add?" ++ "url=https://example.com/&title")).
Proof.
  apply (form_body_is_read_like_query "url=https://example.com/&title").
  run.
Defined.


Lemma created_bookmark_is_found_witness :
  ((20 <= Z.of_nat
            (List.length
               (BookmarksManager.search_bookmarks
                  default_dir (fun path => path) (snd read_me_created)
                  "READ" 20)))%Z
   \/ In (read_back (fun path => path)
                    "/data/bookmarks/dev-tools/read-me.md" "dev-tools"
                    "Read Me" "https://example.com" "dev-tools,x, y")
         (BookmarksManager.search_bookmarks
            default_dir (fun path => path) (snd read_me_created) "READ" 20))
  /\ hd EmptyString
        (BookmarksManager.r_tags
           (read_back (fun path => path)
                      "/data/bookmarks/dev-tools/read-me.md" "dev-tools"
                      "Read Me" "https://example.com" "dev-tools,x, y"))
     = "dev-tools".
Proof.
  apply (created_bookmark_is_found
           (fun path => path) "/work" home same all_readable online
           fresh_store "Read Me" "https://example.com" "Dev Tools" "x, y"
           EmptyString false
           "/data/bookmarks/dev-tools/read-me.md" "Read Me"
           "https://example.com" "dev-tools" "dev-tools,x, y"
           (snd read_me_created) "READ" 20%Z); run.
Defined.

